(** * External-sources crawler and findings store

    A shallow embedding of [testin-ext-sources/server/server.py]: the
    coercion helpers, the link extractor, the crawl orchestrator
    ([crawl_source]) and the findings store ([save_findings]); then the
    other tools, the source registry ([list_sources], [add_source],
    [remove_source]), [fetch_page], [crawl_all_sources] and
    [list_findings].

    Python values are an inductive type, exceptions are an explicit
    [Raise] result, and the mutable world (network, cache file, clock) is
    threaded through a small state-and-exception monad.  Library calls
    ([httpx.get], [BeautifulSoup], [urljoin], [urlparse], [json.loads],
    [int], [repr], [datetime.now]) are the fields of the class [Env];
    [BeautifulSoup] and [json.loads] can raise there, as they do on
    markup that [html.parser] rejects and on text nested deeper than the
    interpreter's recursion limit.

    What the model leaves out: the float NaN, whose place in a set is a
    matter of object identity; exceptions that are not [Exception]s;
    failures of the file system and of [json.dumps], and a cache or
    registry file on whose text [json.loads] raises something other than
    a JSONDecodeError; and aliasing, a batch being a tree of values as
    [json.loads] builds it.  A character is a Rocq [ascii]. *)

From Stdlib Require Import ZArith String Ascii List Lia Bool DecimalString.
From stdpp Require Import base gmap strings list.

Open Scope string_scope.
Open Scope Z_scope.

(* ------------------------------------------------------------------ *)
(** ** Python values, as [json.loads] produces them *)
(* ------------------------------------------------------------------ *)

(** A float other than NaN: a zero, an infinity, or the number
    [(2 * half + 1) * 2 ^ e], negated when [negative] is set.  A finite
    float that is not zero is one such number, in exactly one way. *)
Inductive pyfloat : Type :=
| FZero (negative : bool)
| FInf (negative : bool)
| FOdd (negative : bool) (half : N) (e : Z).

(** JSON documents.  A dict keeps its insertion order and has string
    keys. *)
#[warnings="-register-all"] Inductive value : Type :=
| VNone
| VBool (b : bool)
| VInt (n : Z)
| VFloat (x : pyfloat)
| VStr (s : string)
| VList (l : list value)
| VDict (d : list (string * value)).

Fixpoint dict_get (k : string) (d : list (string * value)) : option value :=
  match d with
  | [] => None
  | (k', v) :: d' => if String.eqb k' k then Some v else dict_get k d'
  end.

(** [k in d] *)
Definition dict_mem (k : string) (d : list (string * value)) : bool :=
  match dict_get k d with Some _ => true | None => false end.

(** [d[k] = v]: overwrite in place, or append a new key at the end. *)
Fixpoint dict_set (k : string) (v : value) (d : list (string * value))
  : list (string * value) :=
  match d with
  | [] => [(k, v)]
  | (k', v') :: d' =>
      if String.eqb k' k then (k, v) :: d' else (k', v') :: dict_set k v d'
  end.

(* ------------------------------------------------------------------ *)
(** ** Exceptions *)
(* ------------------------------------------------------------------ *)

Inductive exn_class : Type :=
| ValueError
| JSONDecodeError        (* a subclass of ValueError *)
| TypeError
| AttributeError
| KeyError
| OverflowError
| RecursionError
| HTTPError              (* httpx transport and status errors *)
| OtherException.

Record exn : Type := Exn { exn_cls : exn_class; exn_msg : string }.

Inductive result (A : Type) : Type :=
| Ok (a : A)
| Raise (e : exn).
Arguments Ok {A} a.
Arguments Raise {A} e.

(** [except (ValueError, TypeError)] *)
Definition is_ValueError_or_TypeError (e : exn) : bool :=
  match exn_cls e with
  | ValueError | JSONDecodeError | TypeError => true
  | _ => false
  end.

(** [except (json.JSONDecodeError, ValueError)] *)
Definition is_ValueError (e : exn) : bool :=
  match exn_cls e with
  | ValueError | JSONDecodeError => true
  | _ => false
  end.

Definition result_bind {A B} (r : result A) (k : A -> result B) : result B :=
  match r with
  | Ok a => k a
  | Raise e => Raise e
  end.

(** State and exceptions: a raise keeps the state reached so far. *)
Definition exec (S A : Type) : Type := S -> result A * S.

Definition ret {S A} (a : A) : exec S A := fun s => (Ok a, s).

Definition bind {S A B} (m : exec S A) (k : A -> exec S B) : exec S B :=
  fun s =>
    match m s with
    | (Ok a, s') => k a s'
    | (Raise e, s') => (Raise e, s')
    end.

Definition lift {S A} (r : result A) : exec S A := fun s => (r, s).

Definition get_state {S} : exec S S := fun s => (Ok s, s).

Definition modify {S} (f : S -> S) : exec S unit := fun s => (Ok tt, f s).

(** [try: body / except Exception as e: handler e] *)
Definition try_except {S A} (body : exec S A) (handler : exn -> exec S A)
  : exec S A :=
  fun s =>
    match body s with
    | (Ok a, s') => (Ok a, s')
    | (Raise e, s') => handler e s'
    end.

Declare Scope exec_scope.
Delimit Scope exec_scope with exec.
Notation "'do' x <- m ; k" := (bind m (fun x => k))
  (at level 10, x name, m at level 99, k at level 200) : exec_scope.
Notation "'do' ' p <- m ; k" := (bind m (fun x => match x with p => k end))
  (at level 10, p pattern, m at level 99, k at level 200) : exec_scope.
Notation "'do_' m ; k" := (bind m (fun _ => k))
  (at level 10, m at level 99, k at level 200) : exec_scope.
Notation "'let?' x := r 'in' k" := (result_bind r (fun x => k))
  (at level 10, x name, r at level 99, k at level 200).

(* ------------------------------------------------------------------ *)
(** ** Strings *)
(* ------------------------------------------------------------------ *)

(** [str.isspace] on a code point below 256. *)
Definition is_space (c : ascii) : bool :=
  let n := nat_of_ascii c in
  ((9 <=? n) && (n <=? 13) || (28 <=? n) && (n <=? 32)
   || (n =? 133) || (n =? 160))%nat.

Fixpoint lstrip (s : string) : string :=
  match s with
  | String c s' => if is_space c then lstrip s' else s
  | EmptyString => EmptyString
  end.

Fixpoint rstrip (s : string) : string :=
  match s with
  | EmptyString => EmptyString
  | String c s' =>
      match rstrip s' with
      | EmptyString => if is_space c then EmptyString else String c EmptyString
      | r => String c r
      end
  end.

(** [s.strip()] *)
Definition strip (s : string) : string := rstrip (lstrip s).

(** [s.startswith(p)] *)
Definition startswith (s p : string) : bool := String.prefix p s.

(** [s[:n]] *)
Definition take_str (n : nat) (s : string) : string := substring 0 n s.

Definition lower_char (c : ascii) : ascii :=
  let n := nat_of_ascii c in
  if ((65 <=? n) && (n <=? 90)
      || (192 <=? n) && (n <=? 222) && negb (n =? 215))%nat
  then ascii_of_nat (n + 32) else c.

(** [s.lower()] *)
Fixpoint lower (s : string) : string :=
  match s with
  | EmptyString => EmptyString
  | String c s' => String (lower_char c) (lower s')
  end.

(** [p in s] *)
Fixpoint str_contains (p s : string) : bool :=
  String.prefix p s
  || match s with
     | EmptyString => false
     | String _ s' => str_contains p s'
     end.

(** [s.split(".")[-1]]: what follows the last dot (all of [s] without one). *)
Fixpoint after_last_dot (s : string) : string :=
  match s with
  | EmptyString => EmptyString
  | String c s' =>
      if str_contains "." s' then after_last_dot s'
      else if Ascii.eqb c "."%char then s' else s
  end.

Definition str_in (s : string) (l : list string) : bool :=
  existsb (String.eqb s) l.

Definition str_of_Z (n : Z) : string :=
  DecimalString.NilZero.string_of_int (Z.to_int n).

(** [re.sub(r"\n{3,}", "\n\n", s)]: [run] counts the newlines just read. *)
Fixpoint collapse_newlines (run : nat) (s : string) : string :=
  match s with
  | EmptyString => EmptyString
  | String c s' =>
      if Ascii.eqb c "010"%char
      then if (run <? 2)%nat
           then String c (collapse_newlines (S run) s')
           else collapse_newlines (S run) s'
      else String c (collapse_newlines 0 s')
  end.

(* ------------------------------------------------------------------ *)
(** ** The libraries and the outside world *)
(* ------------------------------------------------------------------ *)

(** An [httpx.Response], as far as [_fetch_page] reads it. *)
Record response : Type := Response {
  resp_status : Z;
  resp_content_type : option string;   (* the content-type header *)
  resp_text : string;
  resp_url : string                    (* after redirects *)
}.

(** An [<a href=...>] tag: its raw [href] and its [get_text(strip=True)]. *)
Record anchor : Type := Anchor { a_href : string; a_text : string }.

(** What [urlparse] returns, as far as the crawler reads it. *)
Record parsed_url : Type := ParsedUrl {
  scheme : string;
  netloc : string;
  path : string
}.

Class Env : Type := {
  (** the network and whatever else a request may change *)
  World : Type;
  (** [httpx.get(url, follow_redirects=True, timeout=HTTP_TIMEOUT)] *)
  httpx_get : string -> World -> result response * World;
  (** [BeautifulSoup(html, "html.parser")]: the exception it raises when
      the parser rejects the markup, and on the soup it builds otherwise:
      [find_all("a", href=True)], and [get_text(separator="\n",
      strip=True)] once the script, style, nav, footer and header
      elements are decomposed *)
  soup_error : string -> option exn;
  soup_anchors : string -> list anchor;
  soup_get_text : string -> string;
  (** [urllib.parse.urljoin], which raises ValueError on a malformed netloc *)
  urljoin : string -> string -> result string;
  urlparse : string -> result parsed_url;
  (** [json.loads], which raises JSONDecodeError on text that is not
      JSON and RecursionError on text nested too deep *)
  json_loads : string -> result value;
  (** [int(s)] on a string; [None] is a ValueError *)
  int_of_str : string -> option Z;
  (** [repr] of a list, a dict or a float *)
  py_repr : value -> string;
  (** the k-th reading of [datetime.now()], as [isoformat()] and as
      [strftime("%H%M%S")] *)
  clock_iso : nat -> string;
  clock_hms : nat -> string
}.

Section Program.
Context {E : Env}.

(* ------------------------------------------------------------------ *)
(** ** Built-ins on values *)
(* ------------------------------------------------------------------ *)

(** [str(v)] *)
Definition py_str (v : value) : string :=
  match v with
  | VNone => "None"
  | VBool true => "True"
  | VBool false => "False"
  | VInt n => str_of_Z n
  | VStr s => s
  | VFloat _ | VList _ | VDict _ => py_repr v
  end.

(** [z], negated when [negative] is set. *)
Definition signed (negative : bool) (z : Z) : Z :=
  if negative then - z else z.

(** [int(x)] on a float: the number cut towards zero. *)
Definition float_trunc (x : pyfloat) : result Z :=
  match x with
  | FZero _ => Ok 0
  | FInf _ =>
      Raise (Exn OverflowError "cannot convert float infinity to integer")
  | FOdd s h e => Ok (signed s (Z.shiftl (Z.of_N (2 * h + 1)) e))
  end.

(** [int(v)] *)
Definition py_int (v : value) : result Z :=
  match v with
  | VInt n => Ok n
  | VBool b => Ok (Z.b2z b)
  | VFloat x => float_trunc x
  | VStr s =>
      match int_of_str s with
      | Some n => Ok n
      | None => Raise (Exn ValueError "invalid literal for int() with base 10")
      end
  | VNone | VList _ | VDict _ =>
      Raise (Exn TypeError
               "int() argument must be a string, a bytes-like object or a real number")
  end.

(** [d[k]] *)
Definition dict_getitem (d : list (string * value)) (k : string) : result value :=
  match dict_get k d with
  | Some v => Ok v
  | None => Raise (Exn KeyError k)
  end.

(** [f.get(k, dflt)] *)
Definition py_get (f : value) (k : string) (dflt : value) : result value :=
  match f with
  | VDict d => Ok (default dflt (dict_get k d))
  | _ => Raise (Exn AttributeError "object has no attribute 'get'")
  end.

(** [len(v)] *)
Definition py_len (v : value) : result Z :=
  match v with
  | VStr s => Ok (Z.of_nat (String.length s))
  | VList l => Ok (Z.of_nat (length l))
  | VDict d => Ok (Z.of_nat (length d))
  | _ => Raise (Exn TypeError "object has no len()")
  end.

Fixpoint chars_of (s : string) : list value :=
  match s with
  | EmptyString => []
  | String c s' => VStr (String c EmptyString) :: chars_of s'
  end.

(** The elements [for f in v] runs over. *)
Definition py_iter (v : value) : result (list value) :=
  match v with
  | VList l => Ok l
  | VDict d => Ok (map (fun kv => VStr (fst kv)) d)
  | VStr s => Ok (chars_of s)
  | _ => Raise (Exn TypeError "object is not iterable")
  end.

(* ------------------------------------------------------------------ *)
(** ** Coercion helpers *)
(* ------------------------------------------------------------------ *)

(** The first key of [keys] that is in [d]: the [for key in (...)] loops. *)
Definition first_key_in (keys : list string) (d : list (string * value))
  : option string :=
  List.find (fun k => dict_mem k d) keys.

Definition _coerce_str (val : value) : result string :=
  match val with
  | VDict d =>
      match first_key_in ["url"; "value"; "text"; "source_id"] d with
      | Some key => let? v := dict_getitem d key in Ok (py_str v)
      | None =>
          match d with
          | (_, v) :: _ => Ok (py_str v)       (* next(iter(val.values())) *)
          | [] => Ok (py_str val)
          end
      end
  | _ => Ok (py_str val)
  end.

Definition _coerce_int (val : value) (default : Z) : result Z :=
  let guarded :=
    match py_int val with
    | Ok n => Ok n
    | Raise e => if is_ValueError_or_TypeError e then Ok default else Raise e
    end in
  match val with
  | VDict d =>
      match first_key_in ["max_subpages"; "max_subpages_per_source"; "value"] d with
      | Some key => let? v := dict_getitem d key in py_int v
      | None =>
          match d with
          | (_, v) :: _ => py_int v
          | [] => guarded
          end
      end
  | _ => guarded
  end.

(** [_coerce_list]: a JSON string holding a list, or a list. *)
Definition _coerce_list (val : value) : result (list value) :=
  match val with
  | VStr s =>
      match json_loads s with
      | Ok (VList l) => Ok l
      | Ok _ => Ok []
      | Raise e => if is_ValueError e then Ok [] else Raise e
      end
  | VList l => Ok l
  | _ => Ok []
  end.

(* ------------------------------------------------------------------ *)
(** ** Extractor *)
(* ------------------------------------------------------------------ *)

(** [BeautifulSoup(html, "html.parser")] *)
Definition soup (html : string) : result unit :=
  match soup_error html with
  | Some e => Raise e
  | None => Ok tt
  end.

Definition _extract_text (html : string) : result string :=
  let? parsed := soup html in
  Ok (strip (collapse_newlines 0 (soup_get_text html))).

(** A [{"url": ..., "text": ...}] entry. *)
Record link : Type := Link { l_url : string; l_text : string }.

(** The test under which [_extract_links] skips a stripped href. *)
Definition skipped_href (href : string) : bool :=
  String.eqb href ""
  || startswith href "#"
  || startswith href "javascript:"
  || startswith href "mailto:".

Fixpoint extract_links_loop (base_url : string) (anchors : list anchor)
    (links : list link) (seen : gset string) : result (list link) :=
  match anchors with
  | [] => Ok links
  | a :: rest =>
      let href := strip (a_href a) in
      if skipped_href href then extract_links_loop base_url rest links seen
      else
        let? absolute_url := urljoin base_url href in
        if bool_decide (absolute_url ∈ seen)
        then extract_links_loop base_url rest links seen
        else
          let link_text := take_str 200 (a_text a) in
          extract_links_loop base_url rest
            (links ++ [Link absolute_url link_text])
            ({[absolute_url]} ∪ seen)
  end.

Definition _extract_links (html base_url : string) : result (list link) :=
  let? parsed := soup html in
  extract_links_loop base_url (soup_anchors html) [] ∅.

Definition _is_same_site (url1 url2 : string) : result bool :=
  let? p1 := urlparse url1 in
  let? p2 := urlparse url2 in
  Ok (String.eqb (netloc p1) (netloc p2)).

Definition keywords : list string :=
  [ "syllabus"; "homework"; "assignment"; "hw"; "problem set"; "pset";
    "exam"; "midterm"; "final"; "quiz"; "test";
    "office hour"; "oh"; "schedule"; "calendar";
    "grade"; "grading"; "policy"; "policies";
    "lecture"; "slide"; "note"; "reading";
    "lab"; "project"; "recitation"; "section";
    "ta"; "staff"; "instructor"; "professor";
    ".pdf"; ".docx"; ".doc" ].

Definition _looks_interesting (url link_text : string) : bool :=
  let combined := lower (url ++ " " ++ link_text) in
  existsb (fun kw => str_contains kw combined) keywords.

(* ------------------------------------------------------------------ *)
(** ** Fetcher *)
(* ------------------------------------------------------------------ *)

(** One entry per [httpx.get]: the URL asked for, and whether the call
    came back with a 2xx response.  The log is ghost state: the program
    never reads it. *)
Record net_call : Type := NetCall { call_url : string; call_ok : bool }.

Record page_entry : Type := PageEntry {
  pg_url : string;
  pg_title : string;
  pg_text_preview : string;
  pg_links_on_page : option nat      (* only the homepage entry has it *)
}.

Record error_entry : Type := ErrorEntry { err_url : string; err_error : string }.

(** The [results] dict of [crawl_source]. *)
Record crawl_result : Type := CrawlResult {
  source_url : string;
  pages_crawled : list page_entry;
  interesting_links_found : list link;
  errors : list error_entry
}.

(** The world, the log of network calls, and the [results] dict that
    [crawl_source] builds by mutation. *)
Record crawl_state : Type := CrawlState {
  cs_world : World;
  cs_calls : list net_call;
  cs_results : crawl_result
}.

Definition MAX_CONTENT_LENGTH : Z := 500000.

(** httpx's [Response.is_success] *)
Definition is_success (status : Z) : bool :=
  (200 <=? status) && (status <=? 299).

(** [httpx.get(...)], logged. *)
Definition http_get (url : string) : exec crawl_state response :=
  fun s =>
    match httpx_get url (cs_world s) with
    | (Ok r, w) =>
        (Ok r, CrawlState w
                 (cs_calls s ++ [NetCall url (is_success (resp_status r))])
                 (cs_results s))
    | (Raise e, w) =>
        (Raise e, CrawlState w (cs_calls s ++ [NetCall url false]) (cs_results s))
    end.

(** [response.raise_for_status()] *)
Definition raise_for_status (r : response) : result unit :=
  if is_success (resp_status r) then Ok tt
  else Raise (Exn HTTPError ("HTTP status " ++ str_of_Z (resp_status r))).

Definition _fetch_page (url : string) : exec crawl_state (string * string) :=
  (do url <- lift (_coerce_str (VStr url));
   do response <- http_get url;
   do_ lift (raise_for_status response);
   let content_type := default "" (resp_content_type response) in
   if negb (str_contains "text/html" content_type)
      && negb (str_contains "text/plain" content_type)
   then ret ("(Non-HTML content: " ++ content_type ++ ")", resp_url response)
   else
     let text := take_str (Z.to_nat MAX_CONTENT_LENGTH) (resp_text response) in
     ret (text, resp_url response))%exec.

(* ------------------------------------------------------------------ *)
(** ** Crawl orchestrator *)
(* ------------------------------------------------------------------ *)

Definition set_results (f : crawl_result -> crawl_result) : exec crawl_state unit :=
  modify (fun s => CrawlState (cs_world s) (cs_calls s) (f (cs_results s))).

(** [results["pages_crawled"].append(p)] *)
Definition add_page (p : page_entry) : exec crawl_state unit :=
  set_results (fun r =>
    CrawlResult (source_url r) (pages_crawled r ++ [p])
                (interesting_links_found r) (errors r)).

(** [results["errors"].append(e)] *)
Definition add_error (e : error_entry) : exec crawl_state unit :=
  set_results (fun r =>
    CrawlResult (source_url r) (pages_crawled r)
                (interesting_links_found r) (errors r ++ [e])).

(** [results["interesting_links_found"] = l] *)
Definition set_interesting (l : list link) : exec crawl_state unit :=
  set_results (fun r =>
    CrawlResult (source_url r) (pages_crawled r) l (errors r)).

(** The candidate list: keyword matches and same-site links, in order. *)
Fixpoint select_interesting (url : string) (all_links : list link)
  : result (list link) :=
  match all_links with
  | [] => Ok []
  | link :: rest =>
      let? keep :=
        (if _looks_interesting (l_url link) (l_text link) then Ok true
         else _is_same_site url (l_url link)) in
      let? rest' := select_interesting url rest in
      Ok (if keep : bool then link :: rest' else rest')
  end.

Definition denied_extensions : list string :=
  ["zip"; "tar"; "gz"; "mp4"; "mov"; "avi"; "mp3"; "wav"].

(** The follow loop, entered with [followed] sub-pages already followed. *)
Fixpoint follow_links (max_subpages followed : Z) (interesting : list link)
  : exec crawl_state unit :=
  match interesting with
  | [] => ret tt
  | link :: rest =>
      if followed >=? max_subpages then ret tt                  (* break *)
      else
        let sub_url := l_url link in
        (do parsed <- lift (urlparse sub_url);
         if negb (str_in (scheme parsed) ["http"; "https"])
         then follow_links max_subpages followed rest           (* continue *)
         else
           let ext := if str_contains "." (path parsed)
                      then after_last_dot (lower (path parsed)) else "" in
           if str_in ext denied_extensions
           then follow_links max_subpages followed rest         (* continue *)
           else
             do followed' <-
               try_except
                 (do '(sub_html, sub_final_url) <- _fetch_page sub_url;
                  do sub_text <- lift (_extract_text sub_html);
                  let title := take_str 100 (l_text link) in
                  do_ add_page
                        (PageEntry sub_final_url
                           (if String.eqb title "" then sub_final_url else title)
                           (take_str 2000 sub_text) None);
                  ret (followed + 1))
                 (fun e =>
                    do_ add_error (ErrorEntry sub_url (exn_msg e));
                    ret followed);
             follow_links max_subpages followed' rest)%exec
  end.

(** The body of the outer [try] of [crawl_source]. *)
Definition crawl_body (url : string) (max_subpages : Z) : exec crawl_state unit :=
  (do '(html, final_url) <- _fetch_page url;
   do main_text <- lift (_extract_text html);
   do all_links <- lift (_extract_links html final_url);
   do_ add_page (PageEntry final_url "Homepage" (take_str 3000 main_text)
                   (Some (length all_links)));
   do interesting <- lift (select_interesting url all_links);
   do_ set_interesting (take 30 interesting);
   follow_links max_subpages 0 interesting)%exec.

Definition crawl_source (url max_subpages : value) : exec crawl_state crawl_result :=
  (do url <- lift (_coerce_str url);
   do max_subpages <- lift (_coerce_int max_subpages 10);
   do_ set_results (fun _ => CrawlResult url [] [] []);
   do_ try_except (crawl_body url max_subpages)
         (fun e => add_error (ErrorEntry url (exn_msg e)));
   do s <- get_state;
   ret (cs_results s))%exec.

(** A call of the tool in world [w], with an empty log. *)
Definition run_crawl (url max_subpages : value) (w : World)
  : result crawl_result * crawl_state :=
  crawl_source url max_subpages (CrawlState w [] (CrawlResult "" [] [] [])).

(** Fetches that came back with a page. *)
Definition successful_fetches (calls : list net_call) : nat :=
  length (filter (fun c => call_ok c = true) calls).

(* ------------------------------------------------------------------ *)
(** ** Findings store *)
(* ------------------------------------------------------------------ *)

(** [findings_cache.json], read at the level of the document it holds. *)
Inductive file : Type :=
| FileMissing
| FileCorrupt                 (* its text is not JSON *)
| FileJSON (doc : value).

(** The cache file and the number of clock readings made so far. *)
Record store_state : Type := StoreState {
  cache_file : file;
  clock_reads : nat
}.

(** [datetime.now().isoformat()] *)
Definition now_isoformat : exec store_state string :=
  fun s => (Ok (clock_iso (clock_reads s)),
            StoreState (cache_file s) (S (clock_reads s))).

(** [datetime.now().strftime("%H%M%S")] *)
Definition now_hms : exec store_state string :=
  fun s => (Ok (clock_hms (clock_reads s)),
            StoreState (cache_file s) (S (clock_reads s))).

Definition empty_cache : value :=
  VDict [("findings", VList []); ("crawlLog", VList []); ("lastUpdated", VNone)].

Definition _read_cache : exec store_state value :=
  fun s =>
    match cache_file s with
    | FileJSON doc => (Ok doc, s)
    | FileMissing | FileCorrupt => (Ok empty_cache, s)
    end.

(** [CACHE_FILE.write_text(json.dumps(cache, ...))] *)
Definition write_cache (cache : value) : exec store_state unit :=
  modify (fun s => StoreState (FileJSON cache) (clock_reads s)).

(** [c[k] = v] *)
Definition py_setitem (c : value) (k : string) (v : value) : result value :=
  match c with
  | VDict d => Ok (VDict (dict_set k v d))
  | _ => Raise (Exn TypeError "object does not support item assignment")
  end.

Definition _update_cache (key : string) (data : value) : exec store_state unit :=
  (do cache <- _read_cache;
   do cache <- lift (py_setitem cache key data);
   do t <- now_isoformat;
   do cache <- lift (py_setitem cache "lastUpdated" (VStr t));
   write_cache cache)%exec.

#[global] Instance pyfloat_eq_dec : EqDecision pyfloat.
Proof. solve_decision. Defined.

#[global] Instance pyfloat_countable : Countable pyfloat.
Proof.
  refine (inj_countable'
            (fun x => match x with
                      | FZero s => inl s
                      | FInf s => inr (inl s)
                      | FOdd s h e => inr (inr (s, h, e))
                      end)
            (fun y => match y with
                      | inl s => FZero s
                      | inr (inl s) => FInf s
                      | inr (inr (s, h, e)) => FOdd s h e
                      end) _).
  intros []; reflexivity.
Defined.

(** The integer a float is equal to, when it is equal to one. *)
Definition float_integer (x : pyfloat) : option Z :=
  match x with
  | FZero _ => Some 0
  | FInf _ => None
  | FOdd s h e =>
      if 0 <=? e then Some (signed s (Z.of_N (2 * h + 1) * 2 ^ e)) else None
  end.

(** What a Python set holds of a hashable value.  Numbers are there by
    value, as for [hash] and [==]: [True], [1] and [1.0] are one key, and
    a float that is no integer is a key of its own. *)
Inductive key : Type :=
| KNone
| KNum (n : Z)
| KFloat (x : pyfloat)
| KStr (s : string).

#[global] Instance key_eq_dec : EqDecision key.
Proof. solve_decision. Defined.

#[global] Instance key_countable : Countable key.
Proof.
  refine (inj_countable'
            (fun k => match k with
                      | KNone => inl ()
                      | KNum n => inr (inl n)
                      | KFloat x => inr (inr (inl x))
                      | KStr s => inr (inr (inr s))
                      end)
            (fun x => match x with
                      | inl _ => KNone
                      | inr (inl n) => KNum n
                      | inr (inr (inl x)) => KFloat x
                      | inr (inr (inr s)) => KStr s
                      end) _).
  intros []; reflexivity.
Defined.

(** [hash(v)]: lists and dicts are unhashable. *)
Definition py_hash (v : value) : result key :=
  match v with
  | VNone => Ok KNone
  | VBool b => Ok (KNum (Z.b2z b))
  | VInt n => Ok (KNum n)
  | VFloat x =>
      Ok (match float_integer x with Some n => KNum n | None => KFloat x end)
  | VStr s => Ok (KStr s)
  | VList _ | VDict _ => Raise (Exn TypeError "unhashable type")
  end.

Definition is_dict (v : value) : bool :=
  match v with VDict _ => true | _ => false end.

(** The key under which a set holds [f.get("id")]. *)
Definition id_key (f : value) : result key :=
  let? i := py_get f "id" VNone in py_hash i.

(** The metadata loop: [savedAt] on every dict, and an [id] where none is. *)
Fixpoint stamp_findings (existing : value) (i : Z) (findings : list value)
  : exec store_state (list value) :=
  match findings with
  | [] => ret []
  | f :: rest =>
      (do f' <-
         match f with
         | VDict d =>
             do t <- now_isoformat;
             let d := dict_set "savedAt" (VStr t) d in
             if dict_mem "id" d then ret (VDict d)
             else
               let ty := py_str (default (VStr "unknown") (dict_get "type" d)) in
               do n <- lift (py_len existing);
               do hms <- now_hms;
               ret (VDict (dict_set "id"
                             (VStr (ty ++ "-" ++ str_of_Z (n + i) ++ "-" ++ hms)) d))
         | _ => ret f
         end;
       do rest' <- stamp_findings existing (i + 1) rest;
       ret (f' :: rest'))%exec
  end.

(** [{nf.get("id") for nf in findings}] *)
Fixpoint id_set (findings : list value) : result (gset key) :=
  match findings with
  | [] => Ok ∅
  | nf :: rest =>
      let? k := id_key nf in
      let? ids := id_set rest in
      Ok ({[k]} ∪ ids)
  end.

(** [[f for f in existing if f.get("id") not in new_ids]] *)
Fixpoint retain (existing : list value) (new_ids : gset key)
  : result (list value) :=
  match existing with
  | [] => Ok []
  | f :: rest =>
      let? k := id_key f in
      let? rest' := retain rest new_ids in
      Ok (if bool_decide (k ∈ new_ids) then rest' else f :: rest')
  end.

Definition parse_error : value :=
  VDict [("error", VStr "findings must be a JSON array of objects");
         ("saved", VInt 0)].

(** [[findings] if isinstance(findings, dict) else []], for what is not
    a list. *)
Definition as_batch (findings : value) : list value :=
  match findings with
  | VList l => l
  | VDict d => [VDict d]
  | _ => []
  end.

(** The batch that [save_findings] makes of its argument: a string is
    parsed as JSON ([None] when [json.loads] raises), a lone dict becomes
    a one-element list and anything else that is not a list becomes the
    empty list. *)
Definition coerce_findings (findings : value) : option (list value) :=
  match findings with
  | VStr s =>
      match json_loads s with
      | Ok parsed => Some (as_batch parsed)
      | Raise _ => None
      end
  | _ => Some (as_batch findings)
  end.

(** [save_findings] from [cache = _read_cache()] on. *)
Definition save_batch (findings : list value) : exec store_state value :=
  (do cache <- _read_cache;
   do existing <- lift (py_get cache "findings" (VList []));
   do findings <- stamp_findings existing 0 findings;
   let findings := filter (fun f => is_dict f = true) findings in
   do new_ids <- lift (id_set findings);
   do existing_items <- lift (py_iter existing);
   do merged <- lift (retain existing_items new_ids);
   let merged := (merged ++ findings)%list in
   do_ _update_cache "findings" (VList merged);
   ret (VDict [("saved", VInt (Z.of_nat (length findings)));
               ("total", VInt (Z.of_nat (length merged)))]))%exec.

Definition save_findings (findings : value) : exec store_state value :=
  match findings with
  | VStr s =>
      match json_loads s with
      | Ok parsed => save_batch (as_batch parsed)
      | Raise e => if is_ValueError e then ret parse_error else lift (Raise e)
      end
  | _ => save_batch (as_batch findings)
  end.

Definition clear_findings : exec store_state value :=
  (do_ _update_cache "findings" (VList []);
   ret (VDict [("cleared", VBool true)]))%exec.

(** The persisted findings collection, as the tools read it back:
    [_read_cache().get("findings", [])], when that is a list. *)
Definition stored_findings (s : store_state) : option (list value) :=
  match _read_cache s with
  | (Ok cache, _) =>
      match py_get cache "findings" (VList []) with
      | Ok (VList l) => Some l
      | _ => None
      end
  | (Raise _, _) => None
  end.

End Program.


(* ------------------------------------------------------------------ *)
(** ** Vocabulary of the properties *)
(* ------------------------------------------------------------------ *)

Section Vocabulary.
Context {E : Env}.

Definition is_ok {A} (r : result A) : bool :=
  match r with Ok _ => true | Raise _ => false end.

(** Counters on a crawl state. *)
Definition n_calls (s : crawl_state) : nat := length (cs_calls s).
Definition n_errors (s : crawl_state) : nat := length (errors (cs_results s)).
Definition n_pages (s : crawl_state) : nat :=
  length (pages_crawled (cs_results s)).

(** Fetches that raised: a transport error, or a status outside 2xx. *)
Definition failed_fetches (calls : list net_call) : nat :=
  length (filter (fun c => call_ok c = false) calls).

(** The state after [results["errors"].append(...)]. *)
Definition with_error (s : crawl_state) (e : error_entry) : crawl_state :=
  CrawlState (cs_world s) (cs_calls s)
    (CrawlResult (source_url (cs_results s)) (pages_crawled (cs_results s))
       (interesting_links_found (cs_results s)) (errors (cs_results s) ++ [e])).

(** The test that lets the follow loop fetch a candidate. *)
Definition followable (p : parsed_url) : bool :=
  str_in (scheme p) ["http"; "https"]
  && negb (str_in (if str_contains "." (path p)
                   then after_last_dot (lower (path p)) else "")
                  denied_extensions).

(** What makes the fetch of [url] fail in world [w]: a transport error,
    or a response that [raise_for_status] rejects. *)
Definition fetch_error (url : string) (w : World) : option exn :=
  match httpx_get url w with
  | (Raise e, _) => Some e
  | (Ok r, _) =>
      match raise_for_status r with
      | Raise e => Some e
      | Ok _ => None
      end
  end.

(** What makes the follow of [u] fail from the state [s], with the state
    it leaves: the fetch raises, or the page fetched is markup that the
    parser rejects. *)
Definition follow_fails (u : string) (s : crawl_state)
  : option (exn * crawl_state) :=
  match _fetch_page u s with
  | (Raise e, s1) => Some (e, s1)
  | (Ok (html, _), s1) =>
      match soup_error html with
      | Some e => Some (e, s1)
      | None => None
      end
  end.

(** An anchor that [_extract_links] does not skip. *)
Definition kept (a : anchor) : bool := negb (skipped_href (strip (a_href a))).

(** [a] resolves to the absolute URL [u] against [base_url]. *)
Definition resolves (base_url : string) (a : anchor) (u : string) : Prop :=
  urljoin base_url (strip (a_href a)) = Ok u.

(** The document [_read_cache] returns for a file. *)
Definition cache_doc (f : file) : value :=
  match f with
  | FileJSON doc => doc
  | FileMissing | FileCorrupt => empty_cache
  end.


(** Two findings carry the same id, as a Python set compares ids. *)
Definition same_id (f g : value) : bool :=
  match id_key f, id_key g with
  | Ok k, Ok k' => bool_decide (k = k')
  | _, _ => false
  end.

(** The id of [f] occurs in [batch]. *)
Definition id_occurs (f : value) (batch : list value) : bool :=
  existsb (same_id f) batch.

(** The merge policy in the spec's words: the stored findings whose id
    does not occur in the submitted batch, in their order, then the
    submitted findings, in theirs. *)
Definition upsert_by_id (existing submitted : list value) : list value :=
  filter (fun f => id_occurs f submitted = false) existing ++ submitted.

(** At most one finding per id. *)
Fixpoint unique_ids (l : list value) : bool :=
  match l with
  | [] => true
  | f :: rest => negb (id_occurs f rest) && unique_ids rest
  end.

(** [d] with [savedAt] set to [t]. *)
Definition with_saved_at (t : string) (d : list (string * value)) : value :=
  VDict (dict_set "savedAt" (VStr t) d).

(** [f'] is the submitted object [f] as the store keeps it: [savedAt]
    set, and an [id] added when [f] has none. *)
Definition stamped_version (f f' : value) : Prop :=
  exists d t,
    f = VDict d
    /\ ((dict_mem "id" d = true /\ f' = with_saved_at t d)
        \/ (dict_mem "id" d = false
            /\ exists i, f' = VDict (dict_set "id" (VStr i)
                                       (dict_set "savedAt" (VStr t) d)))).

(** The field [k] of a finding. *)
Definition finding_field (k : string) (f : value) : option value :=
  match f with
  | VDict d => dict_get k d
  | _ => None
  end.





(** [f.get("id")] can be put in a set. *)
Definition hashable_id (f : value) : Prop := exists k, id_key f = Ok k.

(** What the metadata loop does to one element. *)
Definition stamp_rel (f f' : value) : Prop :=
  if is_dict f then stamped_version f f' else f' = f.

End Vocabulary.

(* ------------------------------------------------------------------ *)
(** ** The other tools: registry, single-page fetch, sweep, listing *)
(* ------------------------------------------------------------------ *)

Section Tools.
Context {E : Env}.

(** [bool(v)] *)
Definition py_truthy (v : value) : bool :=
  match v with
  | VNone => false
  | VBool b => b
  | VInt n => negb (n =? 0)
  | VFloat x => match x with FZero _ => false | _ => true end
  | VStr s => negb (String.eqb s "")
  | VList l => match l with [] => false | _ => true end
  | VDict d => match d with [] => false | _ => true end
  end.

(** [v == s] for a str [s]: only an equal str is equal to it. *)
Definition py_eq_str (v : value) (s : string) : bool :=
  match v with
  | VStr s' => String.eqb s' s
  | _ => false
  end.

(** [v[k]] for a str [k] *)
Definition py_getitem (v : value) (k : string) : result value :=
  match v with
  | VDict d => dict_getitem d k
  | VStr _ | VList _ =>
      Raise (Exn TypeError "indices must be integers or slices, not str")
  | _ => Raise (Exn TypeError "object is not subscriptable")
  end.

(** [v.append(x)] *)
Definition py_append (v x : value) : result value :=
  match v with
  | VList l => Ok (VList (l ++ [x]))
  | _ => Raise (Exn AttributeError "object has no attribute 'append'")
  end.

(** [s.replace(".", "-")] *)
Fixpoint replace_dots (s : string) : string :=
  match s with
  | EmptyString => EmptyString
  | String c s' =>
      String (if Ascii.eqb c "."%char then "-"%char else c) (replace_dots s')
  end.

Fixpoint lstrip_slashes (s : string) : string :=
  match s with
  | String c s' => if Ascii.eqb c "/"%char then lstrip_slashes s' else s
  | EmptyString => EmptyString
  end.

Fixpoint rstrip_slashes (s : string) : string :=
  match s with
  | EmptyString => EmptyString
  | String c s' =>
      match rstrip_slashes s' with
      | EmptyString =>
          if Ascii.eqb c "/"%char then EmptyString else String c EmptyString
      | r => String c r
      end
  end.

(** [s.strip("/")] *)
Definition strip_slashes (s : string) : string :=
  rstrip_slashes (lstrip_slashes s).

(** The whole server: [LINKS.json], the findings store with the clock,
    the network and the log of network calls. *)
Record app_state : Type := AppState {
  links_file : file;
  app_store : store_state;
  app_world : World;
  app_calls : list net_call
}.

(** A store operation, run within the server. *)
Definition in_store {A} (m : exec store_state A) : exec app_state A :=
  fun s =>
    match m (app_store s) with
    | (r, st) => (r, AppState (links_file s) st (app_world s) (app_calls s))
    end.

(** A crawl operation, run within the server. *)
Definition in_crawl {A} (m : exec crawl_state A) : exec app_state A :=
  fun s =>
    match m (CrawlState (app_world s) (app_calls s) (CrawlResult "" [] [] [])) with
    | (r, cs) => (r, AppState (links_file s) (app_store s) (cs_world cs) (cs_calls cs))
    end.

Definition _read_links : exec app_state value :=
  fun s =>
    match links_file s with
    | FileJSON doc => (Ok doc, s)
    | FileMissing | FileCorrupt => (Ok (VList []), s)
    end.

Definition _write_links (links : value) : exec app_state unit :=
  modify (fun s => AppState (FileJSON links) (app_store s) (app_world s) (app_calls s)).

(** [list_sources]; the log line takes [len(links)]. *)
Definition list_sources : exec app_state value :=
  (do links <- _read_links;
   do_ lift (py_len links);
   ret links)%exec.

(** [_coerce_str(v) if v else ""] *)
Definition coerce_optional_str (v : value) : result string :=
  if py_truthy v then _coerce_str v else Ok "".

(** [any(l["url"] == url for l in links)] *)
Fixpoint any_url_is (url : string) (links : list value) : result bool :=
  match links with
  | [] => Ok false
  | l :: rest =>
      let? u := py_getitem l "url" in
      if py_eq_str u url then Ok true else any_url_is url rest
  end.

(** [add_source]; [urlparse(url)] is evaluated up to three times there,
    on the same [url]. *)
Definition add_source (url label : value) : exec app_state value :=
  (do url <- lift (_coerce_str url);
   do label <- lift (coerce_optional_str label);
   do links <- _read_links;
   do items <- lift (py_iter links);
   do duplicate <- lift (any_url_is url items);
   if duplicate : bool then ret links
   else
     do parsed <- lift (urlparse url);
     do n <- lift (py_len links);
     let id := replace_dots (netloc parsed) ++ "-" ++ str_of_Z n in
     let label :=
       if negb (String.eqb label "") then label
       else if negb (String.eqb (strip_slashes (path parsed)) "")
            then strip_slashes (path parsed)
            else netloc parsed in
     do added_at <- in_store now_isoformat;
     let new_link :=
       VDict [("id", VStr id); ("url", VStr url); ("label", VStr label);
              ("addedAt", VStr added_at)] in
     do links <- lift (py_append links new_link);
     do_ _write_links links;
     ret links)%exec.

(** [[l for l in links if l.get("id") != source_id and l.get("url") != url]] *)
Fixpoint remove_matching (source_id url : string) (links : list value)
  : result (list value) :=
  match links with
  | [] => Ok []
  | l :: rest =>
      let? i := py_get l "id" VNone in
      let? u := py_get l "url" VNone in
      let? rest' := remove_matching source_id url rest in
      Ok (if negb (py_eq_str i source_id) && negb (py_eq_str u url)
          then l :: rest' else rest')
  end.

Definition remove_source (source_id url : value) : exec app_state value :=
  (do source_id <- lift (coerce_optional_str source_id);
   do url <- lift (coerce_optional_str url);
   do links <- _read_links;
   do_ lift (py_len links);                       (* original_count *)
   do items <- lift (py_iter links);
   do links <- lift (remove_matching source_id url items);
   do_ _write_links (VList links);
   ret (VList links))%exec.




(** A result of [crawl_source] with the source's label and id put on. *)
Record sweep_entry : Type := SweepEntry {
  sw_result : crawl_result;
  sw_label : value;
  sw_id : value
}.

Record sweep_result : Type := SweepResult {
  sources_crawled : nat;
  sweep_results : list sweep_entry
}.

(** The loop of [crawl_all_sources]. *)
Fixpoint crawl_each (max_subpages : Z) (links : list value)
  : exec app_state (list sweep_entry) :=
  match links with
  | [] => ret []
  | link :: rest =>
      (do url <- lift (py_getitem link "url");
       do result <- in_crawl (crawl_source url (VInt max_subpages));
       do label <- lift (py_get link "label" (VStr ""));
       do id <- lift (py_get link "id" (VStr ""));
       do rest' <- crawl_each max_subpages rest;
       ret (SweepEntry result label id :: rest'))%exec
  end.

Definition total_pages (all_results : list sweep_entry) : nat :=
  list_sum (map (fun r => length (pages_crawled (sw_result r))) all_results).

Definition crawl_all_sources (max_subpages_per_source : value)
  : exec app_state sweep_result :=
  (do max_subpages <- lift (_coerce_int max_subpages_per_source 5);
   do links <- _read_links;
   do items <- lift (py_iter links);
   do all_results <- crawl_each max_subpages items;
   do timestamp <- in_store now_isoformat;
   do n <- lift (py_len links);
   do_ in_store
         (_update_cache "crawlLog"
            (VList [VDict [("timestamp", VStr timestamp);
                           ("sources_crawled", VInt n);
                           ("total_pages",
                            VInt (Z.of_nat (total_pages all_results)))]]));
   ret (SweepResult (length all_results) all_results))%exec.

(** [[f for f in findings if f.get("type") == finding_type]] *)
Fixpoint filter_by_type (finding_type : string) (findings : list value)
  : result (list value) :=
  match findings with
  | [] => Ok []
  | f :: rest =>
      let? t := py_get f "type" VNone in
      let? rest' := filter_by_type finding_type rest in
      Ok (if py_eq_str t finding_type then f :: rest' else rest')
  end.

(** [list_findings]; the last log line takes [len(findings)]. *)
Definition list_findings (finding_type : value) : exec store_state value :=
  (do finding_type <- lift (coerce_optional_str finding_type);
   do cache <- _read_cache;
   do findings <- lift (py_get cache "findings" (VList []));
   do findings <-
     (if negb (String.eqb finding_type "")
      then do items <- lift (py_iter findings);
           do kept <- lift (filter_by_type finding_type items);
           ret (VList kept)
      else ret findings);
   do stored <- lift (py_get cache "findings" (VList []));
   do_ _update_cache "findings" stored;
   do_ lift (py_len findings);
   ret findings)%exec.

End Tools.


(* ------------------------------------------------------------------ *)
(** ** Vocabulary for the other tools *)
(* ------------------------------------------------------------------ *)

(** The run that [_extract_text] collapses. *)
Definition three_newlines : string :=
  String "010" (String "010" (String "010" "")).
(** A string that does not begin with white space. *)
Definition starts_clean (s : string) : bool :=
  match s with
  | EmptyString => true
  | String c _ => negb (is_space c)
  end.


Section ToolsVocabulary.
Context {E : Env}.

(** The state once the homepage entry is appended and the candidates
    are stored. *)
Definition after_homepage (s1 : crawl_state) (p : page_entry)
    (found : list link) : crawl_state :=
  CrawlState (cs_world s1) (cs_calls s1)
    (CrawlResult (source_url (cs_results s1))
       (pages_crawled (cs_results s1) ++ [p]) found (errors (cs_results s1))).

(** A URL the follow loop would fetch: it parses, its scheme is http or
    https, and its extension is not denied. *)
Definition followable_url (u : string) : bool :=
  match urlparse u with
  | Ok p => followable p
  | Raise _ => false
  end.

(** Every failed network call of [calls] has an entry in [errs]. *)
Definition failures_recorded (calls : list net_call) (errs : list error_entry)
  : Prop :=
  forall c, In c calls -> call_ok c = false ->
            exists msg, In (ErrorEntry (call_url c) msg) errs.







(** [s] with the calls [calls] logged before its own. *)
Definition log_after (calls : list net_call) (s : crawl_state) : crawl_state :=
  CrawlState (cs_world s) (calls ++ cs_calls s) (cs_results s).

(** The document [_read_links] returns for a file. *)
Definition registry_doc (f : file) : value :=
  match f with
  | FileJSON doc => doc
  | FileMissing | FileCorrupt => VList []
  end.

(** A registry entry with a [url] key. *)
Definition has_url (l : value) : Prop := exists v, py_getitem l "url" = Ok v.

(** The sweep with budget [N] over the registry entries [items], from
    the world [w]: the result for a source is the crawl of the source's
    URL, run in the world that the crawl before it left, with the label
    and the id of the source put on.  [calls] are the network calls
    made, in order, and [w'] is the world after the last crawl. *)
Inductive sweep_run (N : Z)
  : World -> list value -> list sweep_entry -> list net_call -> World -> Prop :=
| sweep_done (w : World) : sweep_run N w [] [] [] w
| sweep_step (w : World) (d : list (string * value)) (v : value)
    (res : crawl_result) (cs : crawl_state) (rest : list value)
    (entries : list sweep_entry) (calls : list net_call) (w' : World) :
    dict_get "url" d = Some v ->
    run_crawl v (VInt N) w = (Ok res, cs) ->
    sweep_run N (cs_world cs) rest entries calls w' ->
    sweep_run N w (VDict d :: rest)
      (SweepEntry res (default (VStr "") (dict_get "label" d))
         (default (VStr "") (dict_get "id" d)) :: entries)
      (cs_calls cs ++ calls) w'.

(** The one entry [crawl_all_sources] leaves in [crawlLog]. *)
Definition crawl_log_entry (timestamp : string) (n_sources n_pages : nat) : value :=
  VDict [("timestamp", VStr timestamp);
         ("sources_crawled", VInt (Z.of_nat n_sources));
         ("total_pages", VInt (Z.of_nat n_pages))].

(** The field [k] of the object [l] is the string [s]. *)
Definition field_is (k s : string) (l : value) : bool :=
  match finding_field k l with
  | Some v => py_eq_str v s
  | None => false
  end.

(** The label [add_source] gives a new source: the one passed, else the
    path of the URL without its outer slashes, else the host. *)
Definition source_label (label : string) (p : parsed_url) : string :=
  if negb (String.eqb label "") then label
  else if negb (String.eqb (strip_slashes (path p)) "")
       then strip_slashes (path p)
       else netloc p.

(** The entry [add_source] appends to a registry of [n] sources. *)
Definition new_source (u label : string) (p : parsed_url) (n : nat)
    (added_at : string) : value :=
  VDict [("id", VStr (replace_dots (netloc p) ++ "-" ++ str_of_Z (Z.of_nat n)));
         ("url", VStr u);
         ("label", VStr (source_label label p));
         ("addedAt", VStr added_at)].

(** The entries [remove_source] keeps. *)
Definition survives (source_id url : string) (l : value) : bool :=
  negb (field_is "id" source_id l) && negb (field_is "url" url l).

End ToolsVocabulary.

(* ------------------------------------------------------------------ *)
(** ** A small course site, to run the program on *)
(* ------------------------------------------------------------------ *)

(** The functions below agree with the libraries on the pages and URLs
    of this site; the examples evaluate them nowhere else. *)

Definition ex_home : string := "http://course.example/".
Definition ex_hw1 : string := "http://course.example/hw1.html".
Definition ex_hw2 : string := "http://course.example/hw2.html".
Definition ex_notes : string := "http://course.example/notes.html".
Definition ex_down : string := "http://down.example/".

(** A second site, with a page that the parser rejects. *)
Definition ex_lab : string := "http://lab.example/".
Definition ex_lab_broken : string := "http://lab.example/broken.html".
Definition ex_lab_week1 : string := "http://lab.example/week1.html".

Definition ex_lab_html : string :=
  "<a href=/broken.html>Lab rules</a> <a href=/week1.html>Lab 1</a>".

Definition ex_rejected_html : string := "<![foo[bar]]>".

Definition ex_home_html : string :=
  "<a href=/hw1.html>Homework 1</a> <a href=/hw2.html>Homework 2</a> "
  ++ "<a href=#top>Top</a> <a href=/hw2.html>HW2 again</a> "
  ++ "<a href=mailto:ta@course.example>Mail the TA</a> "
  ++ "<a href=/notes.html>Notes</a>".

(** The world counts the requests served.  The site answers 500 for the
    first homework, [ex_down] refuses connections, and the lab site
    serves one page of markup that [html.parser] rejects. *)
Definition ex_httpx_get (url : string) (w : nat) : result response * nat :=
  let html := Some "text/html; charset=utf-8" in
  (if String.eqb url ex_home then Ok (Response 200 html ex_home_html url)
   else if String.eqb url ex_hw1
        then Ok (Response 500 html "Internal Server Error" url)
   else if String.eqb url ex_hw2 then Ok (Response 200 html "Problem set 2" url)
   else if String.eqb url ex_notes then Ok (Response 200 html "Lecture notes" url)
   else if String.eqb url ex_down
        then Raise (Exn HTTPError "[Errno 111] Connection refused")
   else if String.eqb url ex_lab then Ok (Response 200 html ex_lab_html url)
   else if String.eqb url ex_lab_broken
        then Ok (Response 200 html ex_rejected_html url)
   else if String.eqb url ex_lab_week1 then Ok (Response 200 html "Lab 1" url)
   else Ok (Response 404 html "Not Found" url),
   S w).

Definition ex_soup_anchors (html : string) : list anchor :=
  if String.eqb html ex_home_html
  then [ Anchor "/hw1.html" "Homework 1"; Anchor "/hw2.html" "Homework 2";
         Anchor "#top" "Top"; Anchor "/hw2.html" "HW2 again";
         Anchor "mailto:ta@course.example" "Mail the TA";
         Anchor "/notes.html" "Notes" ]
  else if String.eqb html ex_lab_html
  then [ Anchor "/broken.html" "Lab rules"; Anchor "/week1.html" "Lab 1" ]
  else [].

(** BeautifulSoup's ParserRejectedMarkup *)
Definition ex_rejected : exn :=
  Exn OtherException
    ("The markup you provided was rejected by the parser. "
     ++ "Trying a different parser or a different encoding may help.").

Definition ex_soup_error (html : string) : option exn :=
  if String.eqb html ex_rejected_html then Some ex_rejected else None.

Definition nl : string := String "010"%char EmptyString.

Definition ex_soup_get_text (html : string) : string :=
  if String.eqb html ex_home_html
  then "Homework 1" ++ nl ++ "Homework 2" ++ nl ++ "Top" ++ nl ++ "HW2 again"
       ++ nl ++ "Mail the TA" ++ nl ++ "Notes"
  else if String.eqb html ex_lab_html then "Lab rules" ++ nl ++ "Lab 1"
  else html.

(** [s] cut at the first [sep]. *)
Fixpoint split_first (sep s : string) : option (string * string) :=
  if String.prefix sep s
  then Some (EmptyString, substring (String.length sep) (String.length s) s)
  else match s with
       | EmptyString => None
       | String c s' =>
           match split_first sep s' with
           | Some (a, b) => Some (String c a, b)
           | None => None
           end
       end.

Definition ex_urlparse (url : string) : result parsed_url :=
  match split_first "://" url with
  | Some (sch, rest) =>
      match split_first "/" rest with
      | Some (host, p) => Ok (ParsedUrl sch host ("/" ++ p))
      | None => Ok (ParsedUrl sch rest "")
      end
  | None => Ok (ParsedUrl "" "" url)
  end.

Definition ex_urljoin (base href : string) : result string :=
  if startswith href "http://" || startswith href "https://"
     || startswith href "mailto:"
  then Ok href
  else
    let? p := ex_urlparse base in
    if startswith href "/"
    then Ok (scheme p ++ "://" ++ netloc p ++ href)
    else Ok (base ++ href).

(** [c * n] *)
Fixpoint repeat_char (c : ascii) (n : nat) : string :=
  match n with
  | O => EmptyString
  | S n' => String c (repeat_char c n')
  end.

(** Brackets nested deeper than the recursion limit of 1000. *)
Definition ex_deep_json : string := repeat_char "["%char 1100.

Definition ex_too_deep : exn :=
  Exn RecursionError
    ("maximum recursion depth exceeded "
     ++ "while decoding a JSON array from a unicode string").

Definition ex_json_loads (s : string) : result value :=
  if String.eqb s "[]" then Ok (VList [])
  else if String.eqb s "{}" then Ok (VDict [])
  else if String.eqb s "null" then Ok VNone
  else if String.eqb s "1e999" then Ok (VFloat (FInf false))
  else if String.eqb s ex_deep_json then Raise ex_too_deep
  else Raise (Exn JSONDecodeError "Expecting value: line 1 column 1 (char 0)").

Definition digit_of (c : ascii) : option Z :=
  let n := nat_of_ascii c in
  if ((48 <=? n) && (n <=? 57))%nat then Some (Z.of_nat n - 48) else None.

Fixpoint digits_value (acc : Z) (s : string) : option Z :=
  match s with
  | EmptyString => Some acc
  | String c s' =>
      match digit_of c with
      | Some d => digits_value (10 * acc + d) s'
      | None => None
      end
  end.

Definition ex_int_of_str (s : string) : option Z :=
  match strip s with
  | EmptyString => None
  | String c s' =>
      if Ascii.eqb c "-"%char
      then match s' with
           | EmptyString => None
           | _ => option_map Z.opp (digits_value 0 s')
           end
      else digits_value 0 (String c s')
  end.

Definition ex_py_repr (v : value) : string :=
  match v with
  | VList [] => "[]"
  | VDict [] => "{}"
  | _ => "<repr>"
  end.

Definition two_digits (k : nat) : string :=
  str_of_Z (Z.of_nat (k / 10 mod 10)) ++ str_of_Z (Z.of_nat (k mod 10)).

Definition ex_env : Env := {|
  World := nat;
  httpx_get := ex_httpx_get;
  soup_error := ex_soup_error;
  soup_anchors := ex_soup_anchors;
  soup_get_text := ex_soup_get_text;
  urljoin := ex_urljoin;
  urlparse := ex_urlparse;
  json_loads := ex_json_loads;
  int_of_str := ex_int_of_str;
  py_repr := ex_py_repr;
  clock_iso := fun k => "2025-02-01T12:00:" ++ two_digits k;
  clock_hms := fun k => "1200" ++ two_digits k
|}.

(** A cache file that holds two findings, and things to save into it. *)
Definition ex_old_hw1 : value :=
  VDict [("id", VStr "hw1"); ("type", VStr "homework");
         ("title", VStr "Homework 1"); ("savedAt", VStr "2025-01-31T09:00:00")].

Definition ex_old_quiz : value :=
  VDict [("id", VStr "quiz1"); ("type", VStr "exam");
         ("title", VStr "Quiz 1"); ("savedAt", VStr "2025-01-31T09:00:00")].

Definition ex_store : store_state :=
  StoreState
    (FileJSON (VDict [("findings", VList [ex_old_hw1; ex_old_quiz]);
                      ("crawlLog", VList []);
                      ("lastUpdated", VStr "2025-01-31T09:00:00")]))
    0.

Definition ex_new_hw1 : list (string * value) :=
  [("id", VStr "hw1"); ("type", VStr "homework");
   ("title", VStr "Homework 1 (revised)")].

(** A finding without an id. *)
Definition ex_new_exam : list (string * value) :=
  [("type", VStr "exam"); ("title", VStr "Midterm")].

Definition ex_batch : list value := [VDict ex_new_hw1; VInt 3; VDict ex_new_exam].

(** A batch that holds the same id twice. *)
Definition ex_twice : list value :=
  [VDict [("id", VStr "hw1"); ("title", VStr "first")];
   VDict [("id", VStr "hw1"); ("title", VStr "second")]].






(** A registry with two sources, one of them down, and the server state
    built from it and [ex_store]. *)
Definition ex_source_course : value :=
  VDict [("id", VStr "course-example-0"); ("url", VStr ex_home);
         ("label", VStr "Course"); ("addedAt", VStr "2025-01-30T08:00:00")].

Definition ex_source_down : value :=
  VDict [("id", VStr "down-example-1"); ("url", VStr ex_down);
         ("label", VStr "down.example"); ("addedAt", VStr "2025-01-30T08:00:01")].

Definition ex_registry : list value := [ex_source_course; ex_source_down].

Definition ex_app : app_state (E:=ex_env) :=
  AppState (E:=ex_env) (FileJSON (VList ex_registry)) ex_store 0%nat [].

(** A source that the registry does not have. *)
Definition ex_other : string := "https://other.example/cs101/".

Definition ex_other_parsed : parsed_url :=
  ParsedUrl "https" "other.example" "/cs101/".

(** The document of [ex_store]. *)
Definition ex_cache : list (string * value) :=
  [("findings", VList [ex_old_hw1; ex_old_quiz]);
   ("crawlLog", VList []);
   ("lastUpdated", VStr "2025-01-31T09:00:00")].

(** A registry whose second entry has no [url]. *)
Definition ex_no_url : list (string * value) := [("id", VStr "no-url-1")].

Definition ex_broken_app : app_state (E:=ex_env) :=
  AppState (E:=ex_env) (FileJSON (VList [ex_source_course; VDict ex_no_url]))
    ex_store 0%nat [].

(** A cache file that holds a JSON list, and one with a finding whose id
    is a list. *)
Definition ex_list_store : store_state := StoreState (FileJSON (VList [])) 0.

Definition ex_bad_id : value := VDict [("id", VList [])].

Definition ex_bad_id_store : store_state :=
  StoreState (FileJSON (VDict [("findings", VList [ex_bad_id])])) 0.

(* ------------------------------------------------------------------ *)
(** * Properties *)
(* ------------------------------------------------------------------ *)

Open Scope list_scope.

Section CoercionFacts.
Context {E : Env}.

Lemma first_key_in_mem keys d k :
  first_key_in keys d = Some k -> dict_mem k d = true.
Proof.
  unfold first_key_in. intros H. apply List.find_some in H. tauto.
Qed.

Lemma dict_getitem_mem d k :
  dict_mem k d = true -> exists v, dict_getitem d k = Ok v.
Proof.
  unfold dict_mem, dict_getitem. destruct (dict_get k d); [eauto | discriminate].
Qed.

(** [_coerce_str] never raises. *)
Lemma _coerce_str_returns (val : value) : exists s, _coerce_str val = Ok s.
Proof.
  destruct val as [| b | n | x | s | l | d]; try (simpl; eauto; fail).
  unfold _coerce_str.
  match goal with
  | |- context [first_key_in ?ks d] =>
      destruct (first_key_in ks d) as [key|] eqn:Hk
  end.
  - apply first_key_in_mem, dict_getitem_mem in Hk as [v ->]. simpl. eauto.
  - destruct d as [|[k v] d']; eauto.
Qed.

Lemma _coerce_str_str (s : string) : _coerce_str (VStr s) = Ok s.
Proof. reflexivity. Qed.

(** [int] raises a ValueError or a TypeError, and on an infinite float
    an OverflowError. *)
Lemma py_int_raises (v : value) (e : exn) :
  py_int v = Raise e ->
  (is_ValueError_or_TypeError e = true /\ forall s, v <> VFloat (FInf s))
  \/ ((exists s, v = VFloat (FInf s)) /\ exn_cls e = OverflowError).
Proof.
  destruct v as [| b | n | x | s | l | d]; simpl; try discriminate;
    try (intros [= <-]; left; split; [reflexivity | discriminate]).
  - destruct x as [s | s | s h ex]; simpl; try discriminate.
    intros [= <-]. right. split; [eauto | reflexivity].
  - destruct (int_of_str s); [discriminate|].
    intros [= <-]. left. split; [reflexivity | discriminate].
Qed.

(** On anything but a dict or an infinite float, [_coerce_int] returns
    the integer or the default. *)
Lemma _coerce_int_undicted (val : value) (default : Z) :
  is_dict val = false ->
  (forall s, val <> VFloat (FInf s)) ->
  _coerce_int val default = Ok (match py_int val with Ok n => n | Raise _ => default end).
Proof.
  intros Hd Hfin. unfold _coerce_int.
  destruct (py_int val) as [n|e] eqn:Hi.
  - destruct val; try reflexivity; discriminate.
  - destruct (py_int_raises _ _ Hi) as [[-> _]|[[s ->] _]].
    + destruct val; try reflexivity; discriminate.
    + now destruct (Hfin s).
Qed.

End CoercionFacts.

Section CrawlFacts.
Context {E : Env}.

Lemma successful_fetches_snoc (calls : list net_call) (c : net_call) :
  successful_fetches (calls ++ [c])
  = (successful_fetches calls + (if call_ok c then 1 else 0))%nat.
Proof.
  unfold successful_fetches. rewrite filter_app, length_app.
  f_equal. destruct c as [u []]; reflexivity.
Qed.

Lemma failed_fetches_snoc (calls : list net_call) (c : net_call) :
  failed_fetches (calls ++ [c])
  = (failed_fetches calls + (if call_ok c then 0 else 1))%nat.
Proof.
  unfold failed_fetches. rewrite filter_app, length_app.
  f_equal. destruct c as [u []]; reflexivity.
Qed.

(** A call either came back with a page or failed. *)
Lemma fetches_split (calls : list net_call) :
  (successful_fetches calls + failed_fetches calls)%nat = length calls.
Proof.
  unfold successful_fetches, failed_fetches.
  induction calls as [|[u ok] calls IH]; [reflexivity|].
  rewrite !filter_cons. cbn [call_ok length].
  destruct ok.
  - rewrite decide_True, decide_False by (reflexivity || discriminate).
    cbn [length]. lia.
  - rewrite decide_False, decide_True by (reflexivity || discriminate).
    cbn [length]. lia.
Qed.

(** One [_fetch_page] is one network call, and touches nothing else. *)
Lemma fetch_page_calls (u : string) (s : crawl_state) r s' :
  _fetch_page u s = (r, s') ->
  cs_results s' = cs_results s
  /\ cs_calls s' = cs_calls s ++ [NetCall u (is_ok r)].
Proof.
  unfold _fetch_page, bind, lift, http_get, ret. simpl.
  destruct (httpx_get u (cs_world s)) as [[resp|e] w]; simpl.
  - unfold raise_for_status.
    destruct (is_success (resp_status resp)); simpl.
    + destruct (_ && _); intros [= <- <-]; auto.
    + intros [= <- <-]; auto.
  - intros [= <- <-]; auto.
Qed.

(** [_extract_text] raises what the parser raises, and nothing else. *)
Lemma extract_text_soup (html : string) :
  _extract_text html
  = match soup_error html with
    | Some e => Raise e
    | None => Ok (strip (collapse_newlines 0 (soup_get_text html)))
    end.
Proof. unfold _extract_text, soup. now destruct (soup_error html). Qed.

Lemma follow_links_cons (N followed : Z) (lk : link) (rest : list link)
    (s : crawl_state) :
  follow_links N followed (lk :: rest) s =
  if followed >=? N then (Ok tt, s)
  else
    match urlparse (l_url lk) with
    | Raise e => (Raise e, s)
    | Ok parsed =>
        if followable parsed then
          match _fetch_page (l_url lk) s with
          | (Ok (sub_html, sub_final_url), s1) =>
              match _extract_text sub_html with
              | Ok sub_text =>
                  let title := take_str 100 (l_text lk) in
                  follow_links N (followed + 1) rest
                    (CrawlState (cs_world s1) (cs_calls s1)
                       (CrawlResult (source_url (cs_results s1))
                          (pages_crawled (cs_results s1)
                           ++ [PageEntry sub_final_url
                                 (if String.eqb title "" then sub_final_url
                                  else title)
                                 (take_str 2000 sub_text) None])
                          (interesting_links_found (cs_results s1))
                          (errors (cs_results s1))))
              | Raise e =>
                  follow_links N followed rest
                    (with_error s1 (ErrorEntry (l_url lk) (exn_msg e)))
              end
          | (Raise e, s1) =>
              follow_links N followed rest
                (with_error s1 (ErrorEntry (l_url lk) (exn_msg e)))
          end
        else follow_links N followed rest s
    end.
Proof.
  cbn [follow_links]. destruct (followed >=? N); [reflexivity|].
  unfold bind at 1, lift. destruct (urlparse (l_url lk)) as [p|e]; [|reflexivity].
  unfold followable.
  destruct (str_in (scheme p) _); [|reflexivity]. cbn [negb andb].
  destruct (str_in _ denied_extensions); [reflexivity|]. cbn [negb].
  unfold bind at 1, try_except, bind at 1.
  destruct (_fetch_page (l_url lk) s) as [[[h f]|e] s1]; [|reflexivity].
  unfold bind at 1, lift. destruct (_extract_text h) as [t|e]; reflexivity.
Qed.

(** From a state where [followed] sub-pages are followed, the loop adds
    at most [N - followed] pages; each call it makes adds a page or an
    entry of [errors], each page it adds comes from a call that came
    back with a page, and each failed call adds an entry of [errors]. *)
Lemma follow_links_bounds (N : Z) (links : list link) :
  forall followed s r s',
    follow_links N followed links s = (r, s') ->
    (n_pages s' <= n_pages s + Z.to_nat (N - followed))%nat
    /\ (n_calls s' + n_pages s + n_errors s
        <= n_calls s + n_pages s' + n_errors s')%nat
    /\ (n_pages s' + successful_fetches (cs_calls s)
        <= n_pages s + successful_fetches (cs_calls s'))%nat
    /\ (failed_fetches (cs_calls s') + n_errors s
        <= failed_fetches (cs_calls s) + n_errors s')%nat
    /\ (n_errors s <= n_errors s')%nat
    /\ (n_pages s <= n_pages s')%nat.
Proof.
  induction links as [|link rest IH]; intros followed s r s' H.
  - injection H as _ <-. lia.
  - rewrite follow_links_cons in H.
    destruct (followed >=? N) eqn:Hge; [injection H as _ <-; lia|].
    destruct (urlparse (l_url link)) as [p|e]; [|injection H as _ <-; lia].
    destruct (followable p); [|eauto].
    destruct (_fetch_page (l_url link) s) as [[[h f]|e] s1] eqn:Hf;
      apply fetch_page_calls in Hf as [Hres Hcalls];
      [destruct (_extract_text h) as [t|e]|];
      apply IH in H; revert H;
      unfold n_calls, n_errors, n_pages, with_error;
      cbn [cs_calls cs_results errors pages_crawled];
      rewrite Hcalls, Hres, successful_fetches_snoc, failed_fetches_snoc,
        ?length_app;
      cbn [is_ok call_ok length]; lia.
Qed.

Lemma crawl_body_bounds (u : string) (N : Z) (s : crawl_state) r s' :
  crawl_body u N s = (r, s') ->
  (n_pages s' <= n_pages s + 1 + Z.to_nat N)%nat
  /\ (n_calls s' + n_pages s + n_errors s
      <= n_calls s + n_pages s' + n_errors s' + (if is_ok r then 0 else 1))%nat
  /\ (n_pages s' + successful_fetches (cs_calls s)
      <= n_pages s + successful_fetches (cs_calls s'))%nat
  /\ (failed_fetches (cs_calls s') + n_errors s
      <= failed_fetches (cs_calls s) + n_errors s'
         + (if is_ok r then 0 else 1))%nat
  /\ (n_errors s <= n_errors s')%nat.
Proof.
  unfold crawl_body, bind at 1.
  destruct (_fetch_page u s) as [[[html final_url]|e] s1] eqn:Hf;
    apply fetch_page_calls in Hf as [Hres Hcalls].
  - unfold bind at 1, lift.
    destruct (_extract_text html) as [main_text|e].
    + unfold bind at 1, lift.
      destruct (_extract_links html final_url) as [all_links|e].
      * unfold bind at 1, add_page, set_results, modify.
        unfold bind at 1, lift.
        destruct (select_interesting u all_links) as [interesting|e].
        -- unfold bind at 1, set_interesting, set_results, modify.
           intros H. apply follow_links_bounds in H. revert H.
           unfold n_calls, n_errors, n_pages.
           cbn [cs_calls cs_results errors pages_crawled].
           rewrite Hcalls, Hres, successful_fetches_snoc, failed_fetches_snoc,
             !length_app.
           cbn [is_ok call_ok length]. destruct (is_ok r); lia.
        -- intros [= <- <-]. unfold n_calls, n_errors, n_pages.
           cbn [cs_calls cs_results errors pages_crawled is_ok].
           rewrite Hcalls, Hres, successful_fetches_snoc, failed_fetches_snoc,
             !length_app.
           cbn [is_ok call_ok length]. lia.
      * intros [= <- <-]. unfold n_calls, n_errors, n_pages.
        rewrite Hcalls, Hres, successful_fetches_snoc, failed_fetches_snoc,
          length_app.
        cbn [is_ok call_ok length]. lia.
    + intros [= <- <-]. unfold n_calls, n_errors, n_pages.
      rewrite Hcalls, Hres, successful_fetches_snoc, failed_fetches_snoc,
        length_app.
      cbn [is_ok call_ok length]. lia.
  - intros [= <- <-]. unfold n_calls, n_errors, n_pages.
    rewrite Hcalls, Hres, successful_fetches_snoc, failed_fetches_snoc,
      length_app.
    cbn [is_ok call_ok length]. lia.
Qed.

(** [crawl_source] with an integer budget returns its [results], whatever
    happens inside the [try].  The pages number at most one more than
    the budget; each call has left a page or an entry of [errors], each
    page comes from a call that came back with one, and each failed call
    has left an entry of [errors]. *)
Lemma run_crawl_returns (url : value) (N : Z) (w : World) :
  exists res s',
    run_crawl url (VInt N) w = (Ok res, s')
    /\ res = cs_results s'
    /\ (length (pages_crawled res) <= 1 + Z.to_nat N)%nat
    /\ (n_calls s' <= length (pages_crawled res) + length (errors res))%nat
    /\ (length (pages_crawled res) <= successful_fetches (cs_calls s'))%nat
    /\ (failed_fetches (cs_calls s') <= length (errors res))%nat.
Proof.
  unfold run_crawl, crawl_source.
  destruct (_coerce_str_returns url) as [u ->].
  unfold bind at 1, lift. unfold bind at 1, lift. cbn [_coerce_int py_int].
  unfold bind at 1, set_results, modify. cbn [cs_world cs_calls cs_results].
  unfold bind at 1, try_except.
  destruct (crawl_body u N _) as [[[]|e] s1] eqn:Hb;
    apply crawl_body_bounds in Hb; revert Hb;
    unfold n_calls, n_errors, n_pages;
    cbn [cs_calls cs_results errors pages_crawled length successful_fetches
         failed_fetches is_ok];
    intros Hb.
  - unfold bind, get_state, ret. do 2 eexists.
    repeat split; try reflexivity; cbn in *; lia.
  - unfold add_error, set_results, modify, bind, get_state, ret.
    do 2 eexists. repeat split; try reflexivity;
      cbn [cs_calls cs_results errors pages_crawled]; rewrite ?length_app;
      cbn in *; lia.
Qed.

Lemma fetch_page_error (u : string) (s : crawl_state) (e : exn) :
  fetch_error u (cs_world s) = Some e ->
  exists w', _fetch_page u s
             = (Raise e, CrawlState w' (cs_calls s ++ [NetCall u false]) (cs_results s)).
Proof.
  unfold fetch_error, _fetch_page, bind, lift, http_get. simpl.
  destruct (httpx_get u (cs_world s)) as [[resp|e'] w'].
  - unfold raise_for_status.
    destruct (is_success (resp_status resp)); [discriminate|].
    intros [= <-]. eauto.
  - intros [= <-]. eauto.
Qed.

(** A follow that fails leaves the count of followed pages as it was. *)
Lemma follow_links_failed (N followed : Z) (lk : link) (rest : list link)
    (p : parsed_url) (s s1 : crawl_state) (e : exn) :
  followed < N ->
  urlparse (l_url lk) = Ok p ->
  followable p = true ->
  follow_fails (l_url lk) s = Some (e, s1) ->
  follow_links N followed (lk :: rest) s
  = follow_links N followed rest
      (with_error s1 (ErrorEntry (l_url lk) (exn_msg e))).
Proof.
  intros Hlt Hp Hfol Hf. rewrite follow_links_cons, Hp, Hfol.
  destruct (followed >=? N) eqn:Hge; [lia|].
  unfold follow_fails in Hf.
  destruct (_fetch_page (l_url lk) s) as [[[h f]|e'] s2].
  - rewrite extract_text_soup. destruct (soup_error h); [|discriminate].
    now injection Hf as -> ->.
  - now injection Hf as -> ->.
Qed.

Lemma follow_fails_call (u : string) (s s1 : crawl_state) (e : exn) :
  follow_fails u s = Some (e, s1) ->
  cs_results s1 = cs_results s
  /\ exists ok, cs_calls s1 = cs_calls s ++ [NetCall u ok].
Proof.
  unfold follow_fails.
  destruct (_fetch_page u s) as [[[h f]|e'] s2] eqn:Hf;
    apply fetch_page_calls in Hf as [Hres Hcalls].
  - destruct (soup_error h); [|discriminate]. intros [= _ <-]. eauto.
  - intros [= _ <-]. eauto.
Qed.

End CrawlFacts.

Section CrawlTheorems.
Context {E : Env}.

(** C1, as amended: for every seed URL and every budget [N],
    [crawl_source] returns with at most [1 + max(N, 0)] pages crawled
    (for [N >= 0] that is [1 + N]; below zero the seed is still
    fetched), however many candidate links the seed page has.  Every
    fetch is accounted for: the fetches that came back with a page and
    the fetches that failed number together at most the pages crawled
    plus the entries of [errors], so a fetch that came back with a page
    and is not among the pages crawled (its markup made the parser raise)
    has left an entry in [errors].  A sub-page follow that fails, in the
    fetch or in the parser, is one network call that leaves the count of
    followed pages as it was: the failure is appended to [errors] and the
    loop goes on with the next candidate. *)
Theorem crawl_successful_fetches_bound (url : value) (N : Z) (w : World) :
  (exists res s',
     run_crawl url (VInt N) w = (Ok res, s')
     /\ Z.of_nat (length (pages_crawled res)) <= 1 + Z.max 0 N
     /\ (length (pages_crawled res) <= successful_fetches (cs_calls s'))%nat
     /\ (successful_fetches (cs_calls s') + failed_fetches (cs_calls s')
         <= length (pages_crawled res) + length (errors res))%nat)
  /\ forall (lk : link) (rest : list link) (followed : Z) (p : parsed_url)
            (s s1 : crawl_state) (e : exn),
       followed < N ->
       urlparse (l_url lk) = Ok p ->
       followable p = true ->
       follow_fails (l_url lk) s = Some (e, s1) ->
       cs_results s1 = cs_results s
       /\ (exists ok, cs_calls s1 = cs_calls s ++ [NetCall (l_url lk) ok])
       /\ follow_links N followed (lk :: rest) s
          = follow_links N followed rest
              (with_error s1 (ErrorEntry (l_url lk) (exn_msg e))).
Proof.
  split.
  - destruct (run_crawl_returns url N w)
      as (res & s' & Hrun & _ & Hp & Hc & Hs & _).
    exists res, s'. rewrite fetches_split. unfold n_calls in Hc.
    repeat split; [exact Hrun | lia | exact Hs | exact Hc].
  - intros lk rest followed p s s1 e Hlt Hp Hfol Hf.
    destruct (follow_fails_call _ _ _ _ Hf) as [Hres Hcall].
    split; [exact Hres|]. split; [exact Hcall|].
    now apply (follow_links_failed _ _ _ _ p).
Qed.

(** C2, as amended: one [crawl_source] call returns with at most
    [1 + max(maxSubpages, 0)] pages crawled; each network call beyond the
    pages crawled is a follow that failed (in the fetch or in the parser)
    and is recorded in [errors], so the calls number at most
    [1 + max(maxSubpages, 0) + len(errors)]. *)
Theorem crawl_network_calls_bound (url : value) (N : Z) (w : World) :
  exists res s',
    run_crawl url (VInt N) w = (Ok res, s')
    /\ Z.of_nat (length (pages_crawled res)) <= 1 + Z.max 0 N
    /\ (length (cs_calls s')
        <= length (pages_crawled res) + length (errors res))%nat
    /\ Z.of_nat (length (cs_calls s'))
       <= 1 + Z.max 0 N + Z.of_nat (length (errors res)).
Proof.
  destruct (run_crawl_returns url N w) as (res & s' & Hrun & _ & Hp & Hc & _).
  exists res, s'. unfold n_calls in Hc.
  repeat split; [exact Hrun | lia | exact Hc | lia].
Qed.

(** C6: when the fetch of the seed URL fails (a transport error, or a
    status outside 2xx once redirects are followed), [crawl_source]
    returns normally; [errors] holds exactly one entry, for that URL, and
    [pages_crawled] is empty. *)
Theorem crawl_source_seed_failure (url : string) (N : Z) (w : World) (e : exn) :
  fetch_error url w = Some e ->
  exists s',
    run_crawl (VStr url) (VInt N) w
    = (Ok (CrawlResult url [] [] [ErrorEntry url (exn_msg e)]), s')
    /\ cs_calls s' = [NetCall url false].
Proof.
  intros Hfail. unfold run_crawl, crawl_source.
  unfold bind at 1, lift. cbn [_coerce_str py_str].
  unfold bind at 1, lift. cbn [_coerce_int py_int].
  unfold bind at 1, set_results, modify. cbn [cs_world cs_calls cs_results].
  unfold bind at 1, try_except, crawl_body. unfold bind at 1.
  destruct (fetch_page_error url (CrawlState w [] (CrawlResult url [] [] [])) e Hfail)
    as [w' ->].
  unfold add_error, set_results, modify, bind, get_state, ret.
  eexists. split; reflexivity.
Qed.

End CrawlTheorems.
Section ExtractFacts.
Context {E : Env}.

Lemma take_str_length (n : nat) (s : string) :
  (String.length (take_str n s) <= n)%nat.
Proof.
  unfold take_str. revert s. induction n as [|n IH]; intros s.
  - destruct s; cbn; lia.
  - destruct s as [|c s]; cbn; [lia|]. specialize (IH s). lia.
Qed.

(** Dropping the skipped anchors beforehand changes nothing. *)
Lemma extract_links_loop_kept (base_url : string) (anchors : list anchor) :
  forall links seen,
    extract_links_loop base_url (filter (fun a => kept a = true) anchors) links seen
    = extract_links_loop base_url anchors links seen.
Proof.
  induction anchors as [|a rest IH]; intros links seen; [reflexivity|].
  rewrite filter_cons. case_decide as Hk; cbn [extract_links_loop].
  - unfold kept in Hk. apply negb_true_iff in Hk. rewrite Hk.
    destruct (urljoin base_url (strip (a_href a))); cbn [result_bind];
      [|reflexivity].
    destruct (bool_decide _); apply IH.
  - unfold kept in Hk. apply not_true_is_false, negb_false_iff in Hk. rewrite Hk.
    apply IH.
Qed.

(** The loop invariant: [seen] is the set of URLs in [links], which are
    pairwise distinct; each link the loop adds comes from the first kept
    anchor that resolves to its URL. *)
Lemma extract_links_loop_spec (base_url : string) (anchors : list anchor) :
  forall (links : list link) (seen : gset string) (out : list link),
    (forall u, u ∈ seen <-> u ∈ (l_url <$> links)) ->
    NoDup (l_url <$> links) ->
    extract_links_loop base_url anchors links seen = Ok out ->
    exists new,
      out = links ++ new
      /\ NoDup (l_url <$> out)
      /\ (forall a u, a ∈ anchors -> kept a = true -> resolves base_url a u ->
                      u ∈ (l_url <$> out))
      /\ forall l, l ∈ new ->
           (l_url l ∉ seen)
           /\ exists pre a post,
                anchors = pre ++ a :: post
                /\ kept a = true
                /\ resolves base_url a (l_url l)
                /\ (forall b, b ∈ pre -> kept b = true ->
                              ~ resolves base_url b (l_url l))
                /\ l_text l = take_str 200 (a_text a).
Proof.
  induction anchors as [|a rest IH]; intros links seen out Hseen Hnd H;
    cbn [extract_links_loop] in H.
  - injection H as <-. exists []. rewrite app_nil_r.
    repeat split; auto.
    + intros a u Ha. inversion Ha.
    + inversion H.
    + inversion H.
  - destruct (skipped_href (strip (a_href a))) eqn:Hskip.
    + destruct (IH _ _ _ Hseen Hnd H) as (new & -> & Hnd' & Hall & Hnew).
      exists new. repeat split; auto.
      * intros b u Hb Hk Hr. apply elem_of_cons in Hb as [->|Hb]; [|eauto].
        unfold kept in Hk. rewrite Hskip in Hk. discriminate.
      * apply Hnew; auto.
      * destruct (Hnew l H0) as (_ & pre & a0 & post & -> & Hk & Hr & Hfirst & Ht).
        exists (a :: pre), a0, post. repeat split; auto.
        intros b Hb Hkb. apply elem_of_cons in Hb as [->|Hb]; [|auto].
        unfold kept in Hkb. rewrite Hskip in Hkb. discriminate.
    + destruct (urljoin base_url (strip (a_href a))) as [abs|e] eqn:Hj;
        cbn [result_bind] in H; [|discriminate].
      destruct (bool_decide (abs ∈ seen)) eqn:Hin.
      * apply bool_decide_eq_true in Hin.
        destruct (IH _ _ _ Hseen Hnd H) as (new & -> & Hnd' & Hall & Hnew).
        exists new. repeat split; auto.
        -- intros b u Hb Hk Hr. apply elem_of_cons in Hb as [->|Hb]; [|eauto].
           unfold resolves in Hr. rewrite Hj in Hr. injection Hr as <-.
           rewrite fmap_app. apply elem_of_app. left. apply Hseen, Hin.
        -- apply Hnew; auto.
        -- destruct (Hnew l H0) as (Hns & pre & a0 & post & -> & Hk & Hr & Hfirst & Ht).
           exists (a :: pre), a0, post. repeat split; auto.
           intros b Hb Hkb. apply elem_of_cons in Hb as [->|Hb]; [|auto].
           unfold resolves. rewrite Hj. intros [= Heq]. apply Hns. now rewrite <- Heq.
      * apply bool_decide_eq_false in Hin.
        apply IH in H.
        -- destruct H as (new & -> & Hnd' & Hall & Hnew).
           exists (Link abs (take_str 200 (a_text a)) :: new).
           rewrite <- app_assoc in *. cbn [app] in *.
           repeat split; auto.
           ++ intros b u Hb Hk Hr. apply elem_of_cons in Hb as [->|Hb]; [|eauto].
              unfold resolves in Hr. rewrite Hj in Hr. injection Hr as <-.
              rewrite fmap_app. apply elem_of_app. right. cbn. left.
           ++ apply elem_of_cons in H as [->|Hl]; [exact Hin|].
              destruct (Hnew l Hl) as (Hns & _).
              intros Hc. apply Hns, elem_of_union. now right.
           ++ apply elem_of_cons in H as [->|Hl].
              ** exists [], a, rest. repeat split; auto.
                 --- unfold kept. now rewrite Hskip.
                 --- intros b Hb. inversion Hb.
              ** destruct (Hnew l Hl) as (Hns & pre & a0 & post & -> & Hk & Hr & Hfirst & Ht).
                 exists (a :: pre), a0, post. repeat split; auto.
                 intros b Hb Hkb. apply elem_of_cons in Hb as [->|Hb]; [|auto].
                 unfold resolves. rewrite Hj. intros [= Heq]. apply Hns.
                 rewrite <- Heq. apply elem_of_union. left. now apply elem_of_singleton.
        -- intros u. rewrite fmap_app, elem_of_app, elem_of_union, elem_of_singleton.
           cbn. rewrite list_elem_of_singleton. specialize (Hseen u). tauto.
        -- rewrite fmap_app. apply NoDup_app. repeat split; auto.
           ++ intros u Hu Hu'. cbn in Hu'. apply list_elem_of_singleton in Hu'.
              subst u. apply Hin, Hseen, Hu.
           ++ cbn. apply NoDup_singleton.
Qed.


(** C8: [_extract_links] leaves out every anchor whose stripped href is
    empty or starts with [#], [javascript:] or [mailto:] (the output is
    the one computed from the other anchors alone); its links have
    pairwise distinct absolute URLs; and each link comes from the first
    kept anchor that resolves to its URL, with that anchor's text cut to
    200 characters. *)
Theorem extract_links_dedup_first (html base_url : string) (links : list link) :
  _extract_links html base_url = Ok links ->
  extract_links_loop base_url
    (filter (fun a => kept a = true) (soup_anchors html)) [] ∅ = Ok links
  /\ NoDup (l_url <$> links)
  /\ (forall a u, a ∈ soup_anchors html -> kept a = true ->
                  resolves base_url a u -> u ∈ (l_url <$> links))
  /\ forall l, l ∈ links ->
       exists pre a post,
         soup_anchors html = pre ++ a :: post
         /\ kept a = true
         /\ resolves base_url a (l_url l)
         /\ (forall b, b ∈ pre -> kept b = true -> ~ resolves base_url b (l_url l))
         /\ l_text l = take_str 200 (a_text a)
         /\ (String.length (l_text l) <= 200)%nat.
Proof.
  unfold _extract_links. destruct (soup html) as [[]|e0]; cbn [result_bind];
    [|discriminate].
  intros H. split.
  - now rewrite extract_links_loop_kept.
  - apply extract_links_loop_spec in H as (new & -> & Hnd & Hall & Hnew).
    + cbn [app] in *. repeat split; auto.
      intros l Hl. destruct (Hnew l Hl) as (_ & pre & a & post & H1 & H2 & H3 & H4 & H5).
      exists pre, a, post. repeat split; auto.
      rewrite H5. apply take_str_length.
    + intros u. cbn. split; intros Hu; inversion Hu.
    + cbn. apply NoDup_nil_2.
Qed.

End ExtractFacts.

Section StoreFacts.
Context {E : Env}.

Lemma dict_get_set_eq (k : string) (v : value) (d : list (string * value)) :
  dict_get k (dict_set k v d) = Some v.
Proof.
  induction d as [|[k' v'] d IH]; cbn.
  - now rewrite String.eqb_refl.
  - destruct (String.eqb k' k) eqn:Hk; cbn; rewrite ?Hk; auto.
    now rewrite String.eqb_refl.
Qed.

Lemma dict_get_set_ne (k k' : string) (v : value) (d : list (string * value)) :
  k <> k' -> dict_get k' (dict_set k v d) = dict_get k' d.
Proof.
  intros Hne. induction d as [|[k0 v0] d IH]; cbn.
  - apply String.eqb_neq in Hne. now rewrite Hne.
  - destruct (String.eqb k0 k) eqn:Hk; cbn.
    + apply String.eqb_eq in Hk. subst k0.
      apply String.eqb_neq in Hne. now rewrite Hne.
    + now rewrite IH.
Qed.

Lemma dict_mem_set_ne (k k' : string) (v : value) (d : list (string * value)) :
  k <> k' -> dict_mem k' (dict_set k v d) = dict_mem k' d.
Proof. intros Hne. unfold dict_mem. now rewrite dict_get_set_ne. Qed.

(** Setting another key leaves the id of a finding as it is. *)
Lemma id_key_set_ne (k : string) (v : value) (d : list (string * value)) :
  k <> "id" -> id_key (VDict (dict_set k v d)) = id_key (VDict d).
Proof. intros Hne. unfold id_key, py_get. now rewrite dict_get_set_ne. Qed.

Lemma id_key_set_id (i : string) (d : list (string * value)) :
  id_key (VDict (dict_set "id" (VStr i) d)) = Ok (KStr i).
Proof. unfold id_key, py_get. now rewrite dict_get_set_eq. Qed.

Lemma stamped_version_dict (f f' : value) :
  stamped_version f f' -> is_dict f = true /\ is_dict f' = true.
Proof.
  intros (d & t & -> & [[_ ->]|[_ [i ->]]]); split; reflexivity.
Qed.

Lemma stamp_findings_spec (existing : value) (findings : list value) :
  forall i s stamped s1,
    stamp_findings existing i findings s = (Ok stamped, s1) ->
    Forall2 stamp_rel findings stamped /\ cache_file s1 = cache_file s.
Proof.
  induction findings as [|f rest IH]; intros i s stamped s1 H.
  - injection H as <- <-. split; [constructor | reflexivity].
  - cbn [stamp_findings] in H. unfold bind at 1 in H.
    destruct f as [| b | n | x | str | l | d];
      try (unfold ret at 1 in H; unfold bind at 1 in H;
           destruct (stamp_findings existing (i + 1) rest s) as [[rest'|e] s2] eqn:Hr;
           [|discriminate]; injection H as <- <-;
           apply IH in Hr as [Hr1 Hr2]; split; [constructor; [reflexivity|exact Hr1] | exact Hr2]).
    unfold bind at 1, now_isoformat in H.
    destruct (dict_mem "id" (dict_set "savedAt" (VStr (clock_iso (clock_reads s))) d))
      eqn:Hid.
    + unfold ret at 1 in H. unfold bind at 1 in H.
      match type of H with context [stamp_findings existing (i + 1) rest ?s0] =>
        destruct (stamp_findings existing (i + 1) rest s0) as [[rest'|e] s2] eqn:Hr
      end; [|discriminate].
      injection H as <- <-. apply IH in Hr as [Hr1 Hr2]. split; [|exact Hr2].
      constructor; [|exact Hr1]. unfold stamp_rel. cbn [is_dict].
      exists d, (clock_iso (clock_reads s)). split; [reflexivity|]. left.
      rewrite dict_mem_set_ne in Hid by discriminate. auto.
    + unfold bind at 1, lift in H.
      destruct (py_len existing) as [n|e]; [|discriminate].
      unfold bind at 1, now_hms in H. unfold ret at 1 in H. unfold bind at 1 in H.
      match type of H with context [stamp_findings existing (i + 1) rest ?s0] =>
        destruct (stamp_findings existing (i + 1) rest s0) as [[rest'|e] s2] eqn:Hr
      end; [|discriminate].
      injection H as <- <-. apply IH in Hr as [Hr1 Hr2]. split; [|exact Hr2].
      constructor; [|exact Hr1]. unfold stamp_rel. cbn [is_dict].
      exists d, (clock_iso (clock_reads s)). split; [reflexivity|]. right.
      rewrite dict_mem_set_ne in Hid by discriminate. split; [exact Hid|].
      eexists. reflexivity.
Qed.

Lemma stamp_rel_filter (findings stamped : list value) :
  Forall2 stamp_rel findings stamped ->
  Forall2 stamped_version
    (filter (fun f => is_dict f = true) findings)
    (filter (fun f => is_dict f = true) stamped).
Proof.
  induction 1 as [|f f' findings stamped Hrel _ IH]; [constructor|].
  rewrite !filter_cons. unfold stamp_rel in Hrel.
  destruct (is_dict f) eqn:Hd.
  - destruct (stamped_version_dict _ _ Hrel) as [_ Hd'].
    rewrite Hd'. rewrite !decide_True by reflexivity. now constructor.
  - subst f'. rewrite Hd. rewrite !decide_False by discriminate. exact IH.
Qed.

(** The set built from a batch holds exactly the ids of the batch. *)
Lemma id_set_spec (findings : list value) :
  forall ids,
    id_set findings = Ok ids ->
    Forall hashable_id findings
    /\ forall f k, id_key f = Ok k ->
                   bool_decide (k ∈ ids) = id_occurs f findings.
Proof.
  induction findings as [|nf rest IH]; intros ids H; cbn [id_set] in H.
  - injection H as <-. split; [constructor|].
    intros f k _. cbn. apply bool_decide_eq_false. apply not_elem_of_empty.
  - destruct (id_key nf) as [k0|e] eqn:Hk0; cbn [result_bind] in H; [|discriminate].
    destruct (id_set rest) as [ids0|e] eqn:Hrest; cbn [result_bind] in H; [|discriminate].
    injection H as <-. destruct (IH _ eq_refl) as [Hall Hocc].
    split; [constructor; [now exists k0 | exact Hall]|].
    intros f k Hk. cbn [id_occurs existsb]. unfold same_id at 1.
    rewrite Hk, Hk0. fold (id_occurs f rest). rewrite <- (Hocc f k Hk).
    destruct (bool_decide (k = k0)) eqn:Heq.
    + apply bool_decide_eq_true in Heq. subst k0. cbn.
      apply bool_decide_eq_true. apply elem_of_union. left. now apply elem_of_singleton.
    + apply bool_decide_eq_false in Heq. cbn.
      destruct (bool_decide (k ∈ ids0)) eqn:Hin.
      * apply bool_decide_eq_true in Hin. apply bool_decide_eq_true.
        apply elem_of_union. now right.
      * apply bool_decide_eq_false in Hin. apply bool_decide_eq_false.
        intros Hc. apply elem_of_union in Hc as [Hc|Hc]; [|contradiction].
        apply elem_of_singleton in Hc. contradiction.
Qed.

(** The comprehension that filters the stored findings. *)
Lemma retain_spec (findings existing : list value) (ids : gset key) :
  (forall f k, id_key f = Ok k -> bool_decide (k ∈ ids) = id_occurs f findings) ->
  forall merged,
    retain existing ids = Ok merged ->
    Forall hashable_id existing
    /\ merged = filter (fun f => id_occurs f findings = false) existing.
Proof.
  intros Hocc. induction existing as [|f rest IH]; intros merged H; cbn [retain] in H.
  - injection H as <-. split; [constructor | reflexivity].
  - destruct (id_key f) as [k|e] eqn:Hk; cbn [result_bind] in H; [|discriminate].
    destruct (retain rest ids) as [rest'|e]; cbn [result_bind] in H; [|discriminate].
    injection H as <-. destruct (IH _ eq_refl) as [Hall ->].
    split; [constructor; [now exists k | exact Hall]|].
    rewrite filter_cons, (Hocc f k Hk).
    destruct (id_occurs f findings).
    + now rewrite decide_False by discriminate.
    + now rewrite decide_True by reflexivity.
Qed.

Lemma retain_returns (existing : list value) (ids : gset key) :
  Forall hashable_id existing -> exists merged, retain existing ids = Ok merged.
Proof.
  induction 1 as [|f rest [k Hk] _ [m IH]]; cbn [retain]; [eauto|].
  rewrite Hk, IH. cbn. eauto.
Qed.

Lemma id_set_returns (findings : list value) :
  Forall hashable_id findings -> exists ids, id_set findings = Ok ids.
Proof.
  induction 1 as [|f rest [k Hk] _ [m IH]]; cbn [id_set]; [eauto|].
  rewrite Hk, IH. cbn. eauto.
Qed.

End StoreFacts.

Section SaveFacts.
Context {E : Env}.

Lemma read_cache_doc (s : store_state) :
  _read_cache s = (Ok (cache_doc (cache_file s)), s).
Proof. unfold _read_cache, cache_doc. now destruct (cache_file s). Qed.

Lemma stored_findings_doc (s : store_state) (existing : list value) :
  stored_findings s = Some existing ->
  exists d, cache_doc (cache_file s) = VDict d
            /\ default (VList []) (dict_get "findings" d) = VList existing.
Proof.
  unfold stored_findings. rewrite read_cache_doc.
  destruct (cache_doc (cache_file s)) as [| | | | | |d]; cbn; try discriminate.
  destruct (default (VList []) (dict_get "findings" d)) eqn:Hf; try discriminate.
  intros [= <-]. eauto.
Qed.

Lemma update_cache_dict (key : string) (data : value) (s : store_state)
    (d : list (string * value)) :
  cache_doc (cache_file s) = VDict d ->
  _update_cache key data s
  = (Ok tt,
     StoreState
       (FileJSON (VDict (dict_set "lastUpdated" (VStr (clock_iso (clock_reads s)))
                           (dict_set key data d))))
       (S (clock_reads s))).
Proof.
  intros Hd. unfold _update_cache, bind. rewrite read_cache_doc, Hd. reflexivity.
Qed.

Lemma stored_findings_written (merged : list value) (t : string)
    (d : list (string * value)) (n : nat) :
  stored_findings
    (StoreState
       (FileJSON (VDict (dict_set "lastUpdated" (VStr t)
                           (dict_set "findings" (VList merged) d)))) n)
  = Some merged.
Proof.
  unfold stored_findings, _read_cache, py_get. cbn [cache_file].
  rewrite dict_get_set_ne by discriminate. now rewrite dict_get_set_eq.
Qed.

Lemma stamp_findings_returns (existing : list value) (findings : list value) :
  forall i s, exists stamped s1,
    stamp_findings (VList existing) i findings s = (Ok stamped, s1).
Proof.
  induction findings as [|f rest IH]; intros i s; cbn [stamp_findings]; [eauto|].
  unfold bind at 1.
  destruct f as [| b | n | x | str | l | d];
    try (unfold ret at 1; unfold bind at 1;
         destruct (IH (i + 1) s) as (st & s1 & ->); eauto).
  unfold bind at 1, now_isoformat.
  destruct (dict_mem "id" _).
  - unfold ret at 1. unfold bind at 1.
    match goal with |- context [stamp_findings _ (i + 1) rest ?s0] =>
      destruct (IH (i + 1) s0) as (st & s1 & ->) end. eauto.
  - unfold bind at 1, lift. cbn [py_len]. unfold bind at 1, now_hms.
    unfold ret at 1. unfold bind at 1.
    match goal with |- context [stamp_findings _ (i + 1) rest ?s0] =>
      destruct (IH (i + 1) s0) as (st & s1 & ->) end. eauto.
Qed.

Lemma stamp_single_with_id (existing : value) (i : Z)
    (d : list (string * value)) (s : store_state) :
  dict_mem "id" d = true ->
  stamp_findings existing i [VDict d] s
  = (Ok [with_saved_at (clock_iso (clock_reads s)) d],
     StoreState (cache_file s) (S (clock_reads s))).
Proof.
  intros Hid. cbn [stamp_findings]. unfold bind at 1. unfold bind at 1, now_isoformat.
  rewrite dict_mem_set_ne by discriminate. rewrite Hid. reflexivity.
Qed.

Lemma stamped_version_hashable (f f' : value) :
  stamped_version f f' -> (hashable_id f <-> hashable_id f').
Proof.
  intros (d & t & -> & [[Hid ->]|[Hid [i ->]]]); unfold hashable_id, with_saved_at.
  - now rewrite id_key_set_ne by discriminate.
  - rewrite id_key_set_id. unfold id_key, py_get. unfold dict_mem in Hid.
    destruct (dict_get "id" d); [discriminate|]. cbn. split; eauto.
Qed.

(** What a completed [save_batch] has done. *)
Lemma save_batch_spec (batch : list value) (s s' : store_state)
    (existing : list value) (r : value) :
  stored_findings s = Some existing ->
  save_batch batch s = (Ok r, s') ->
  exists stamped s1,
    stamp_findings (VList existing) 0 batch s = (Ok stamped, s1)
    /\ Forall hashable_id existing
    /\ Forall hashable_id (filter (fun f => is_dict f = true) stamped)
    /\ stored_findings s'
       = Some (upsert_by_id existing (filter (fun f => is_dict f = true) stamped))
    /\ r = VDict
             [("saved",
               VInt (Z.of_nat (length (filter (fun f => is_dict f = true) stamped))));
              ("total",
               VInt (Z.of_nat
                       (length (upsert_by_id existing
                                  (filter (fun f => is_dict f = true) stamped)))))].
Proof.
  intros Hst H. destruct (stored_findings_doc _ _ Hst) as (d & Hd & Hf).
  unfold save_batch in H. unfold bind at 1 in H. rewrite read_cache_doc, Hd in H.
  unfold bind at 1, lift, py_get in H. rewrite Hf in H.
  unfold bind at 1 in H.
  destruct (stamp_findings (VList existing) 0 batch s) as [[stamped|e] s1] eqn:Hstamp;
    [|discriminate].
  exists stamped, s1. split; [reflexivity|].
  apply stamp_findings_spec in Hstamp as [_ Hfile].
  unfold bind at 1, lift in H.
  destruct (id_set (filter (fun f => is_dict f = true) stamped)) as [ids|e] eqn:Hids;
    [|discriminate].
  apply id_set_spec in Hids as [Hhash Hocc].
  unfold bind at 1, lift in H. cbn [py_iter] in H.
  unfold bind at 1, lift in H.
  destruct (retain existing ids) as [merged|e] eqn:Hret; [|discriminate].
  apply (retain_spec _ _ _ Hocc) in Hret as [Hex ->].
  unfold bind at 1 in H.
  rewrite (update_cache_dict _ _ _ d) in H by now rewrite Hfile.
  unfold ret in H. injection H as <- <-.
  repeat split; auto. apply stored_findings_written.
Qed.

(** When every id at hand is hashable, [save_batch] completes. *)
Lemma save_batch_returns (batch : list value) (s : store_state)
    (existing stamped : list value) (s1 : store_state) :
  stored_findings s = Some existing ->
  Forall hashable_id existing ->
  stamp_findings (VList existing) 0 batch s = (Ok stamped, s1) ->
  Forall hashable_id (filter (fun f => is_dict f = true) stamped) ->
  exists r s', save_batch batch s = (Ok r, s').
Proof.
  intros Hst Hex Hstamp Hsub. destruct (stored_findings_doc _ _ Hst) as (d & Hd & Hf).
  unfold save_batch. unfold bind at 1. rewrite read_cache_doc, Hd.
  unfold bind at 1, lift, py_get. rewrite Hf.
  unfold bind at 1. rewrite Hstamp.
  apply stamp_findings_spec in Hstamp as [_ Hfile].
  destruct (id_set_returns _ Hsub) as [ids Hids].
  unfold bind at 1, lift. rewrite Hids.
  unfold bind at 1, lift. cbn [py_iter].
  destruct (retain_returns _ ids Hex) as [merged Hret].
  unfold bind at 1, lift. rewrite Hret.
  unfold bind at 1. rewrite (update_cache_dict _ _ _ d) by now rewrite Hfile.
  unfold ret. eauto.
Qed.

End SaveFacts.

Section StoreTheorems.
Context {E : Env}.

Lemma id_occurs_app (f : value) (l1 l2 : list value) :
  id_occurs f (l1 ++ l2) = id_occurs f l1 || id_occurs f l2.
Proof. unfold id_occurs. apply existsb_app. Qed.

Lemma unique_ids_app (l1 l2 : list value) :
  unique_ids (l1 ++ l2)
  = unique_ids l1 && unique_ids l2
    && forallb (fun f => negb (id_occurs f l2)) l1.
Proof.
  induction l1 as [|f l1 IH]; cbn [app unique_ids forallb].
  - now rewrite andb_true_r.
  - rewrite IH, id_occurs_app, negb_orb.
    destruct (id_occurs f l1), (id_occurs f l2), (unique_ids l1), (unique_ids l2);
      reflexivity.
Qed.

Lemma id_occurs_filter (P : value -> Prop) `{!forall x, Decision (P x)}
    (f : value) (l : list value) :
  id_occurs f (filter P l) = true -> id_occurs f l = true.
Proof.
  unfold id_occurs. rewrite !existsb_exists. intros (g & Hg & Hs).
  exists g. split; [|exact Hs].
  apply list_elem_of_In. apply list_elem_of_In, list_elem_of_filter in Hg. tauto.
Qed.

Lemma unique_ids_filter (P : value -> Prop) `{!forall x, Decision (P x)}
    (l : list value) :
  unique_ids l = true -> unique_ids (filter P l) = true.
Proof.
  induction l as [|f l IH]; [reflexivity|]. cbn [unique_ids].
  intros [Hf Hl]%andb_true_iff. rewrite filter_cons.
  destruct (decide (P f)); [|auto]. cbn [unique_ids].
  apply andb_true_iff. split; [|auto].
  apply negb_true_iff. apply negb_true_iff in Hf.
  destruct (id_occurs f (filter P l)) eqn:Ho; [|reflexivity].
  apply id_occurs_filter in Ho. congruence.
Qed.

Lemma retained_not_occurring (existing submitted : list value) :
  forallb (fun f => negb (id_occurs f submitted))
    (filter (fun f => id_occurs f submitted = false) existing) = true.
Proof.
  apply forallb_forall. intros f Hf.
  apply list_elem_of_In, list_elem_of_filter in Hf as [-> _]. reflexivity.
Qed.

Lemma save_findings_batch (findings : value) (batch : list value) :
  coerce_findings findings = Some batch ->
  save_findings findings = save_batch batch.
Proof.
  unfold save_findings, coerce_findings.
  destruct findings as [| b | n | x | txt | l | d]; try (now intros [= <-]).
  destruct (json_loads txt); [now intros [= <-] | discriminate].
Qed.





(** A completed [save_findings] persists the upsert of the stamped
    batch into the stored collection. *)
Lemma save_findings_upsert (findings : value) (batch existing : list value)
    (s s' : store_state) (r : value) :
  coerce_findings findings = Some batch ->
  stored_findings s = Some existing ->
  save_findings findings s = (Ok r, s') ->
  exists submitted,
    Forall2 stamped_version (filter (fun f => is_dict f = true) batch) submitted
    /\ stored_findings s' = Some (upsert_by_id existing submitted).
Proof.
  intros Hc Hst H. rewrite (save_findings_batch _ _ Hc) in H.
  destruct (save_batch_spec _ _ _ _ _ Hst H) as (stamped & s1 & Hstamp & _ & _ & Hs' & _).
  exists (filter (fun f => is_dict f = true) stamped).
  apply stamp_findings_spec in Hstamp as [Hrel _].
  split; [now apply stamp_rel_filter | exact Hs'].
Qed.


(** C4, as amended: when the stored collection has at most one finding
    per id, the collection persisted by a completed [save_findings] has
    at most one finding per id exactly when no two findings of the
    submitted batch (ids synthesized where missing) share an id. *)
Theorem save_findings_unique_ids (findings : value) (batch existing : list value)
    (s s' : store_state) (r : value) :
  coerce_findings findings = Some batch ->
  stored_findings s = Some existing ->
  unique_ids existing = true ->
  save_findings findings s = (Ok r, s') ->
  exists submitted persisted,
    Forall2 stamped_version (filter (fun f => is_dict f = true) batch) submitted
    /\ stored_findings s' = Some persisted
    /\ persisted = upsert_by_id existing submitted
    /\ unique_ids persisted = unique_ids submitted.
Proof.
  intros Hc Hst Hu H.
  destruct (save_findings_upsert _ _ _ _ _ _ Hc Hst H) as (sub & Hrel & Hs').
  exists sub, (upsert_by_id existing sub). repeat split; auto.
  unfold upsert_by_id. rewrite unique_ids_app, retained_not_occurring.
  rewrite (unique_ids_filter _ _ Hu). cbn. now rewrite andb_true_r.
Qed.


Lemma same_id_key_r (f g g' : value) :
  id_key g = id_key g' -> same_id f g = same_id f g'.
Proof. unfold same_id. now intros ->. Qed.

Lemma same_id_key_l (f f' g : value) :
  id_key f = id_key f' -> same_id f g = same_id f' g.
Proof. unfold same_id. now intros ->. Qed.

Lemma id_occurs_singleton (f g : value) : id_occurs f [g] = same_id f g.
Proof. unfold id_occurs. cbn. apply orb_false_r. Qed.

Lemma Forall_hashable_upsert (existing submitted : list value) :
  Forall hashable_id existing -> Forall hashable_id submitted ->
  Forall hashable_id (upsert_by_id existing submitted).
Proof.
  intros Hex Hsub. unfold upsert_by_id. apply Forall_app. split; [|exact Hsub].
  rewrite Forall_forall in *. intros f Hf. apply Hex.
  apply list_elem_of_filter in Hf. tauto.
Qed.

Lemma filter_none (P : value -> Prop) `{!forall x, Decision (P x)} (l : list value) :
  (forall x, x ∈ l -> ~ P x) -> filter P l = [].
Proof.
  induction l as [|x l IH]; intros Hn; [reflexivity|].
  rewrite filter_cons_False by (apply Hn; left). apply IH.
  intros y Hy. apply Hn. now right.
Qed.

(** What the metadata loop makes of a lone object. *)
Lemma stamp_single (existing : value) (i : Z) (d : list (string * value))
    (s s1 : store_state) (stamped : list value) :
  stamp_findings existing i [VDict d] s = (Ok stamped, s1) ->
  exists f',
    stamped = [f']
    /\ stamped_version (VDict d) f'
    /\ finding_field "savedAt" f' = Some (VStr (clock_iso (clock_reads s))).
Proof.
  cbn [stamp_findings]. unfold bind at 1. unfold bind at 1, now_isoformat.
  rewrite dict_mem_set_ne by discriminate.
  destruct (dict_mem "id" d) eqn:Hid.
  - intros [= <- <-]. eexists. split; [reflexivity|]. split.
    + exists d, (clock_iso (clock_reads s)). split; [reflexivity|]. left.
      split; [exact Hid | reflexivity].
    + cbn. apply dict_get_set_eq.
  - unfold bind at 1, lift. destruct (py_len existing); [|discriminate].
    intros [= <- <-]. eexists. split; [reflexivity|]. split.
    + exists d, (clock_iso (clock_reads s)). split; [reflexivity|]. right.
      split; [exact Hid|]. eexists. reflexivity.
    + cbn. rewrite dict_get_set_ne by discriminate. apply dict_get_set_eq.
Qed.

(** C5: when a finding that carries an explicit id is saved twice, the
    second call completes as the first did; afterwards exactly one
    stored record has that id, it carries the [savedAt] read by the
    second call, and the stored count is what it was after the first
    call. *)
Theorem save_findings_resubmission (findings : value) (d : list (string * value))
    (existing : list value) (s0 s1 : store_state) (r1 : value) :
  dict_mem "id" d = true ->
  coerce_findings findings = Some [VDict d] ->
  stored_findings s0 = Some existing ->
  save_findings findings s0 = (Ok r1, s1) ->
  exists r2 s2 l1 l2,
    save_findings findings s1 = (Ok r2, s2)
    /\ stored_findings s1 = Some l1
    /\ stored_findings s2 = Some l2
    /\ filter (fun f => same_id f (VDict d) = true) l2
       = [with_saved_at (clock_iso (clock_reads s1)) d]
    /\ length l2 = length l1
    /\ r1 = VDict [("saved", VInt 1); ("total", VInt (Z.of_nat (length l1)))]
    /\ r2 = VDict [("saved", VInt 1); ("total", VInt (Z.of_nat (length l2)))].
Proof.
  intros Hid Hc Hst H. rewrite (save_findings_batch _ _ Hc) in *.
  destruct (save_batch_spec _ _ _ _ _ Hst H)
    as (stamped & s1' & Hstamp & Hex & Hsub & Hs1 & Hr1).
  rewrite (stamp_single_with_id _ _ _ _ Hid) in Hstamp. injection Hstamp as <- <-.
  set (f1 := with_saved_at (clock_iso (clock_reads s0)) d) in *.
  set (f2 := with_saved_at (clock_iso (clock_reads s1)) d).
  assert (Hk1 : id_key f1 = id_key (VDict d))
    by (apply id_key_set_ne; discriminate).
  assert (Hk2 : id_key f2 = id_key (VDict d))
    by (apply id_key_set_ne; discriminate).
  assert (Hf1 : filter (fun f => is_dict f = true) [f1] = [f1]) by reflexivity.
  assert (Hf2 : filter (fun f => is_dict f = true) [f2] = [f2]) by reflexivity.
  rewrite Hf1 in *. apply Forall_inv in Hsub as Hh1. destruct Hh1 as [k Hk].
  assert (Hh2 : Forall hashable_id [f2]).
  { constructor; [|constructor]. exists k. now rewrite Hk2, <- Hk1. }
  pose proof (Forall_hashable_upsert _ _ Hex Hsub) as Hl1.
  destruct (save_batch_returns [VDict d] s1 _ [f2] _ Hs1 Hl1
              (stamp_single_with_id _ _ _ _ Hid)) as (r2 & s2 & H2).
  { now rewrite Hf2. }
  destruct (save_batch_spec _ _ _ _ _ Hs1 H2)
    as (stamped2 & s2' & Hstamp2 & _ & _ & Hs2 & Hr2).
  rewrite (stamp_single_with_id _ _ _ _ Hid) in Hstamp2. injection Hstamp2 as <- <-.
  fold f2 in Hs2, Hr2. rewrite Hf2 in Hs2, Hr2.
  assert (Hsame1 : forall f, id_occurs f [f1] = same_id f (VDict d)).
  { intros f. rewrite id_occurs_singleton. now apply same_id_key_r. }
  assert (Hsame2 : forall f, id_occurs f [f2] = same_id f (VDict d)).
  { intros f. rewrite id_occurs_singleton. now apply same_id_key_r. }
  assert (Hd : same_id (VDict d) (VDict d) = true).
  { unfold same_id. rewrite <- Hk1, Hk. now apply bool_decide_eq_true. }
  assert (Hl2 : upsert_by_id (upsert_by_id existing [f1]) [f2]
                = filter (fun f => same_id f (VDict d) = false) existing ++ [f2]).
  { unfold upsert_by_id. rewrite filter_app.
    rewrite (list_filter_iff (fun f => id_occurs f [f2] = false)
               (fun f => same_id f (VDict d) = false))
      by (intros f; now rewrite Hsame2).
    rewrite (list_filter_iff (fun f => id_occurs f [f1] = false)
               (fun f => same_id f (VDict d) = false) existing)
      by (intros f; now rewrite Hsame1).
    rewrite list_filter_filter_l by auto.
    rewrite (filter_cons_False _ f1).
    - now rewrite filter_nil, app_nil_r.
    - rewrite Hsame2, (same_id_key_l f1 (VDict d)) by exact Hk1.
      rewrite Hd. discriminate. }
  exists r2, s2, (upsert_by_id existing [f1]),
    (upsert_by_id (upsert_by_id existing [f1]) [f2]).
  repeat split; auto.
  - rewrite Hl2, filter_app.
    rewrite filter_none.
    + rewrite filter_cons_True; [reflexivity|].
      now rewrite (same_id_key_l f2 (VDict d)) by exact Hk2.
    + intros x Hx. apply list_elem_of_filter in Hx as [Hx _]. congruence.
  - rewrite Hl2. unfold upsert_by_id. rewrite !length_app.
    rewrite (list_filter_iff (fun f => id_occurs f [f1] = false)
               (fun f => same_id f (VDict d) = false) existing)
      by (intros f; now rewrite Hsame1).
    reflexivity.
Qed.

(** C7: on a string on which [json.loads] raises, [save_findings]
    leaves the store (the cache file and the clock) untouched.  It
    returns the error object with [saved = 0] when the exception is a
    ValueError, which a JSONDecodeError is; any other exception, such as
    the RecursionError of text nested too deep, is not caught and leaves
    the tool. *)
Theorem save_findings_parse_failure (txt : string) (e : exn) (s : store_state) :
  json_loads txt = Raise e ->
  save_findings (VStr txt) s
  = (if is_ValueError e
     then Ok (VDict [("error", VStr "findings must be a JSON array of objects");
                     ("saved", VInt 0)])
     else Raise e, s).
Proof.
  intros Hj. unfold save_findings. rewrite Hj. now destruct (is_ValueError e).
Qed.

(** C10: a lone finding object (given as such, or as the JSON text of an
    object) is saved as the one-element batch holding it: the stored
    version has [savedAt] set to the time of the call and an [id]
    synthesized when the object had none, it replaces the stored findings
    with its id and is put last, and the call reports [saved = 1]. *)
Theorem save_findings_single_object (findings : value) (d : list (string * value))
    (existing : list value) (s s' : store_state) (r : value) :
  (findings = VDict d
   \/ exists txt, findings = VStr txt /\ json_loads txt = Ok (VDict d)) ->
  stored_findings s = Some existing ->
  save_findings findings s = (Ok r, s') ->
  save_findings findings s = save_findings (VList [VDict d]) s
  /\ exists f',
       stamped_version (VDict d) f'
       /\ finding_field "savedAt" f' = Some (VStr (clock_iso (clock_reads s)))
       /\ stored_findings s'
          = Some (filter (fun f => same_id f f' = false) existing ++ [f'])
       /\ r = VDict [("saved", VInt 1);
                     ("total",
                      VInt (Z.of_nat
                              (length (filter (fun f => same_id f f' = false) existing
                                       ++ [f']))))].
Proof.
  intros Harg Hst H.
  assert (Hc : coerce_findings findings = Some [VDict d]).
  { destruct Harg as [->|(txt & -> & Hj)]; unfold coerce_findings;
      [reflexivity | now rewrite Hj]. }
  rewrite (save_findings_batch _ _ Hc) in *.
  split; [reflexivity|].
  destruct (save_batch_spec _ _ _ _ _ Hst H)
    as (stamped & s1 & Hstamp & _ & _ & Hs' & Hr).
  apply stamp_single in Hstamp as (f' & -> & Hver & Hat).
  destruct (stamped_version_dict _ _ Hver) as [_ Hd'].
  assert (Hf : filter (fun f => is_dict f = true) [f'] = [f'])
    by (now rewrite filter_cons_True).
  rewrite Hf in *.
  assert (Hup : upsert_by_id existing [f']
                = filter (fun f => same_id f f' = false) existing ++ [f']).
  { unfold upsert_by_id. f_equal. apply list_filter_iff.
    intros f. now rewrite id_occurs_singleton. }
  rewrite Hup in *. exists f'. repeat split; auto.
Qed.

(** When the stored ids and the batch's ids are hashable, [save_findings]
    completes, and the stored ids stay hashable: the store keeps itself
    well formed. *)
Lemma save_findings_returns (findings : value) (batch existing : list value)
    (s : store_state) :
  coerce_findings findings = Some batch ->
  stored_findings s = Some existing ->
  Forall hashable_id existing ->
  Forall (fun f => is_dict f = true -> hashable_id f) batch ->
  exists r s' persisted,
    save_findings findings s = (Ok r, s')
    /\ stored_findings s' = Some persisted
    /\ Forall hashable_id persisted.
Proof.
  intros Hc Hst Hex Hb. rewrite (save_findings_batch _ _ Hc).
  destruct (stamp_findings_returns existing batch 0 s) as (stamped & s1 & Hstamp).
  assert (Hsub : Forall hashable_id (filter (fun f => is_dict f = true) stamped)).
  { apply stamp_findings_spec in Hstamp as [Hrel _].
    clear Hc. revert Hb.
    induction Hrel as [|f f' l l' Hr _ IH]; intros Hb; [constructor|].
    apply Forall_cons in Hb as [Hf Hb]. rewrite filter_cons.
    unfold stamp_rel in Hr. destruct (is_dict f) eqn:Hd.
    - destruct (stamped_version_dict _ _ Hr) as [_ Hd'].
      rewrite decide_True by exact Hd'. constructor; [|now apply IH].
      apply (stamped_version_hashable _ _ Hr). now apply Hf.
    - subst f'. rewrite decide_False by (rewrite Hd; discriminate). now apply IH. }
  destruct (save_batch_returns _ _ _ _ _ Hst Hex Hstamp Hsub) as (r & s' & H).
  destruct (save_batch_spec _ _ _ _ _ Hst H) as (st2 & s2 & Hstamp2 & _ & Hsub2 & Hs' & _).
  exists r, s', (upsert_by_id existing (filter (fun f => is_dict f = true) st2)).
  repeat split; auto. now apply Forall_hashable_upsert.
Qed.

End StoreTheorems.

Section CoercionTheorems.
Context {E : Env}.

(** C9, at the failing input: [_coerce_int(None, default)] falls back to
    the default, but the same [None] wrapped as [{"max_subpages": None}]
    makes [_coerce_int] raise TypeError, since [int(val[key])] runs
    outside the [try]; in [crawl_source] the exception escapes the tool
    before any page is fetched. *)
Theorem coerce_int_wrapped_null_raises (default : Z) (url : value) (w : World) :
  _coerce_int VNone default = Ok default
  /\ (exists e,
        _coerce_int (VDict [("max_subpages", VNone)]) default = Raise e
        /\ exn_cls e = TypeError)
  /\ exists e s',
       run_crawl url (VDict [("max_subpages", VNone)]) w = (Raise e, s')
       /\ cs_calls s' = [].
Proof.
  split; [reflexivity|]. split; [eexists; split; reflexivity|].
  unfold run_crawl, crawl_source. destruct (_coerce_str_returns url) as [u ->].
  unfold bind at 1, lift. unfold bind at 1, lift. cbn.
  do 2 eexists. split; reflexivity.
Qed.

End CoercionTheorems.

(* ------------------------------------------------------------------ *)
(** * Properties of the other functions and tools *)
(* ------------------------------------------------------------------ *)

Section CoercionExtras.
Context {E : Env}.


(** X2: [_coerce_int] raises only what [int] raised, in two places.  On
    a dict it is [int] on a value of the dict, which no [try] covers.
    On anything else it is [int] on an infinite float: the OverflowError
    is not among the exceptions that the [try] around the last
    conversion catches. *)
Theorem coerce_int_raises_only_wrapped (val : value) (default : Z) (e : exn) :
  _coerce_int val default = Raise e ->
  (exists d k v, val = VDict d /\ dict_get k d = Some v /\ py_int v = Raise e)
  \/ ((exists s, val = VFloat (FInf s))
      /\ py_int val = Raise e
      /\ exn_cls e = OverflowError).
Proof.
  intros H. destruct (is_dict val) eqn:Hd.
  - left. destruct val as [| | | | | |d]; try discriminate. unfold _coerce_int in H.
    match type of H with
    | context [first_key_in ?ks d] =>
        destruct (first_key_in ks d) as [key|] eqn:Hk
    end.
    + apply first_key_in_mem in Hk. unfold dict_mem in Hk. unfold dict_getitem in H.
      destruct (dict_get key d) as [v|] eqn:Hg; [|discriminate]. cbn in H.
      exists d, key, v. repeat split; auto.
    + destruct d as [|[k v] d'].
      * cbn in H. discriminate.
      * exists ((k, v) :: d'), k, v. repeat split; auto.
        cbn. now rewrite String.eqb_refl.
  - right. unfold _coerce_int in H.
    destruct (py_int val) as [n|e'] eqn:Hi.
    + destruct val; discriminate.
    + destruct (py_int_raises _ _ Hi) as [[Hc _]|[Hinf Hcls]].
      * rewrite Hc in H. destruct val; discriminate.
      * destruct Hinf as [s ->]. cbn in Hi. injection Hi as <-.
        cbn in H. injection H as <-. split; [eauto|]. split; reflexivity.
Qed.

End CoercionExtras.

Section TextFacts.

Lemma prefix_nil (s : string) : String.prefix "" s = true.
Proof. destruct s; reflexivity. Qed.

Lemma prefix_cons (a b : ascii) (p s : string) :
  String.prefix (String a p) (String b s) = Ascii.eqb a b && String.prefix p s.
Proof.
  cbn. destruct (ascii_dec a b) as [->|Hne].
  - now rewrite Ascii.eqb_refl.
  - apply Ascii.eqb_neq in Hne. now rewrite Hne.
Qed.

Lemma str_contains_cons (p : string) (c : ascii) (s : string) :
  str_contains p (String c s) = String.prefix p (String c s) || str_contains p s.
Proof. reflexivity. Qed.

(** A run of two newlines already read is never extended. *)
Lemma collapse_newlines_run2 (s : string) :
  forall run, (2 <= run)%nat ->
    String.prefix (String "010" "") (collapse_newlines run s) = false.
Proof.
  induction s as [|c s IH]; intros run Hr; [reflexivity|].
  cbn [collapse_newlines]. destruct (Ascii.eqb c "010") eqn:Hc.
  - destruct (Nat.ltb_spec run 2); [lia|]. apply IH. lia.
  - rewrite prefix_cons. rewrite Ascii.eqb_sym, Hc. reflexivity.
Qed.

Lemma collapse_newlines_run1 (s : string) :
  forall run, (1 <= run)%nat ->
    String.prefix (String "010" (String "010" "")) (collapse_newlines run s) = false.
Proof.
  induction s as [|c s IH]; intros run Hr; [reflexivity|].
  cbn [collapse_newlines]. destruct (Ascii.eqb c "010") eqn:Hc.
  - destruct (Nat.ltb_spec run 2).
    + rewrite prefix_cons. rewrite collapse_newlines_run2 by lia. apply andb_false_r.
    + apply IH. lia.
  - rewrite prefix_cons. rewrite Ascii.eqb_sym, Hc. reflexivity.
Qed.

Lemma collapse_newlines_run0 (s : string) :
  forall run, String.prefix three_newlines (collapse_newlines run s) = false.
Proof.
  induction s as [|c s IH]; intros run; [reflexivity|].
  cbn [collapse_newlines]. destruct (Ascii.eqb c "010") eqn:Hc.
  - destruct (Nat.ltb_spec run 2).
    + unfold three_newlines. rewrite prefix_cons.
      rewrite collapse_newlines_run1 by lia. apply andb_false_r.
    + apply IH.
  - unfold three_newlines. rewrite prefix_cons. rewrite Ascii.eqb_sym, Hc. reflexivity.
Qed.

Lemma collapse_newlines_no_run (s : string) :
  forall run, str_contains three_newlines (collapse_newlines run s) = false.
Proof.
  induction s as [|c s IH]; intros run; [reflexivity|].
  cbn [collapse_newlines]. destruct (Ascii.eqb c "010") eqn:Hc.
  - destruct (Nat.ltb_spec run 2); [|apply IH].
    rewrite str_contains_cons, IH, orb_false_r.
    unfold three_newlines. rewrite prefix_cons.
    rewrite collapse_newlines_run1 by lia. apply andb_false_r.
  - rewrite str_contains_cons, IH, orb_false_r.
    unfold three_newlines. rewrite prefix_cons. rewrite Ascii.eqb_sym, Hc. reflexivity.
Qed.

(** [lstrip] keeps a suffix and [rstrip] a prefix: what they return
    contains nothing the string did not. *)
Lemma str_contains_lstrip (p s : string) :
  str_contains p (lstrip s) = true -> str_contains p s = true.
Proof.
  induction s as [|c s IH]; [auto|]. cbn [lstrip].
  destruct (is_space c); [|auto].
  intros H. rewrite str_contains_cons, (IH H). apply orb_true_r.
Qed.

Lemma rstrip_cons (c : ascii) (s : string) :
  rstrip (String c s)
  = if String.eqb (rstrip s) "" then (if is_space c then "" else String c "")
    else String c (rstrip s).
Proof. cbn [rstrip]. destruct (rstrip s); reflexivity. Qed.

Lemma prefix_rstrip (s : string) :
  forall p, String.prefix p (rstrip s) = true -> String.prefix p s = true.
Proof.
  induction s as [|c s IH]; intros p; [auto|].
  destruct p as [|a p]; [reflexivity|].
  rewrite rstrip_cons.
  destruct (String.eqb (rstrip s) "") eqn:He.
  - destruct (is_space c); [discriminate|].
    rewrite !prefix_cons. intros [Ha Hp]%andb_true_iff. rewrite Ha.
    destruct p; [apply prefix_nil | discriminate].
  - rewrite !prefix_cons. intros [Ha Hp]%andb_true_iff. rewrite Ha. cbn. auto.
Qed.

Lemma str_contains_nil (p : string) :
  str_contains p "" = true -> p = "".
Proof. destruct p; [reflexivity | discriminate]. Qed.

Lemma str_contains_nil_l (s : string) : str_contains "" s = true.
Proof. destruct s; reflexivity. Qed.

Lemma str_contains_rstrip (p s : string) :
  str_contains p (rstrip s) = true -> str_contains p s = true.
Proof.
  induction s as [|c s IH]; [auto|].
  rewrite rstrip_cons.
  destruct (String.eqb (rstrip s) "") eqn:He.
  - apply String.eqb_eq in He.
    destruct (is_space c) eqn:Hs.
    + intros ->%str_contains_nil. reflexivity.
    + rewrite !str_contains_cons. intros [H|H]%orb_true_iff.
      * assert (Hr : rstrip (String c s) = String c "")
          by (now rewrite rstrip_cons, He, Hs).
        rewrite <- Hr in H. apply prefix_rstrip in H. now rewrite H.
      * apply str_contains_nil in H. subst p. reflexivity.
  - rewrite !str_contains_cons. intros [H|H]%orb_true_iff.
    + assert (Hr : rstrip (String c s) = String c (rstrip s))
        by (now rewrite rstrip_cons, He).
      rewrite <- Hr in H. apply prefix_rstrip in H. now rewrite H.
    + rewrite (IH H). apply orb_true_r.
Qed.


Lemma rstrip_idempotent (s : string) : rstrip (rstrip s) = rstrip s.
Proof.
  induction s as [|c s IH]; [reflexivity|].
  rewrite rstrip_cons. destruct (String.eqb (rstrip s) "") eqn:He.
  - destruct (is_space c) eqn:Hs; [reflexivity|].
    rewrite rstrip_cons. cbn. now rewrite Hs.
  - rewrite rstrip_cons, IH, He. reflexivity.
Qed.

Lemma lstrip_starts_clean (s : string) : starts_clean (lstrip s) = true.
Proof.
  induction s as [|c s IH]; [reflexivity|]. cbn [lstrip].
  destruct (is_space c) eqn:Hs; [exact IH|]. cbn. now rewrite Hs.
Qed.

Lemma rstrip_starts_clean (s : string) :
  starts_clean s = true -> starts_clean (rstrip s) = true.
Proof.
  destruct s as [|c s]; [auto|]. rewrite rstrip_cons. cbn [starts_clean].
  intros Hc. destruct (String.eqb (rstrip s) ""); [|exact Hc].
  destruct (is_space c) eqn:Hs; [reflexivity|]. cbn. now rewrite Hs.
Qed.

Lemma lstrip_clean (s : string) : starts_clean s = true -> lstrip s = s.
Proof.
  destruct s as [|c s]; [auto|]. cbn. now intros ->%negb_true_iff.
Qed.

Lemma strip_idempotent (s : string) : strip (strip s) = strip s.
Proof.
  unfold strip.
  rewrite (lstrip_clean (rstrip (lstrip s)))
    by apply rstrip_starts_clean, lstrip_starts_clean.
  apply rstrip_idempotent.
Qed.

Lemma lower_char_idempotent (c : ascii) : lower_char (lower_char c) = lower_char c.
Proof. destruct c as [[] [] [] [] [] [] [] []]; reflexivity. Qed.

Lemma lower_idempotent (s : string) : lower (lower s) = lower s.
Proof.
  induction s as [|c s IH]; [reflexivity|]. cbn. now rewrite IH, lower_char_idempotent.
Qed.

Lemma append_cons (c : ascii) (a b : string) :
  (String c a ++ b)%string = String c (a ++ b)%string.
Proof. reflexivity. Qed.

Lemma append_assoc (a b c : string) :
  (a ++ (b ++ c))%string = ((a ++ b) ++ c)%string.
Proof.
  induction a as [|x a IH]; [reflexivity|]. now rewrite !append_cons, IH.
Qed.

Lemma append_nil_r (a : string) : (a ++ "")%string = a.
Proof. induction a as [|x a IH]; [reflexivity|]. now rewrite append_cons, IH. Qed.

Lemma lower_app (a b : string) : lower (a ++ b)%string = (lower a ++ lower b)%string.
Proof.
  induction a as [|c a IH]; [reflexivity|].
  rewrite append_cons. cbn [lower]. now rewrite IH, append_cons.
Qed.

Lemma prefix_app_r (p s t : string) :
  String.prefix p s = true -> String.prefix p (s ++ t)%string = true.
Proof.
  revert s. induction p as [|a p IH]; intros s; [intros _; apply prefix_nil|].
  destruct s as [|b s]; [discriminate|]. rewrite append_cons.
  rewrite !prefix_cons. intros [-> H]%andb_true_iff. cbn. auto.
Qed.

(** What a string contains, it still contains with more text after or
    before it. *)
Lemma str_contains_app_r (p s t : string) :
  str_contains p s = true -> str_contains p (s ++ t)%string = true.
Proof.
  induction s as [|c s IH].
  - intros ->%str_contains_nil. apply str_contains_nil_l.
  - rewrite append_cons, !str_contains_cons.
    intros [H|H]%orb_true_iff.
    + apply (prefix_app_r _ _ t) in H. rewrite append_cons in H. now rewrite H.
    + rewrite (IH H). apply orb_true_r.
Qed.

Lemma str_contains_app_l (p s t : string) :
  str_contains p t = true -> str_contains p (s ++ t)%string = true.
Proof.
  intros H. induction s as [|c s IH]; [exact H|].
  rewrite append_cons, str_contains_cons, IH. apply orb_true_r.
Qed.

End TextFacts.

Section TextTheorems.
Context {E : Env}.

(** X3: the text [_extract_text] returns has no run of three newlines
    and no white space at either end (stripping it again changes
    nothing); and [_extract_text] raises only what the parser raises on
    the markup. *)
Theorem extract_text_collapsed_stripped (html : string) :
  match _extract_text html with
  | Ok text =>
      str_contains three_newlines text = false /\ strip text = text
  | Raise e => soup_error html = Some e
  end.
Proof.
  rewrite extract_text_soup. destruct (soup_error html); [reflexivity|].
  split; [|apply strip_idempotent].
  destruct (str_contains three_newlines (strip _)) eqn:H; [|reflexivity].
  unfold strip in H. apply str_contains_rstrip, str_contains_lstrip in H.
  now rewrite collapse_newlines_no_run in H.
Qed.

(** X4: [_looks_interesting] ignores case: it gives the same answer on
    the lowered URL and link text. *)
Theorem looks_interesting_ignores_case (url link_text : string) :
  _looks_interesting (lower url) (lower link_text) = _looks_interesting url link_text.
Proof.
  unfold _looks_interesting. rewrite !lower_app, !lower_idempotent. reflexivity.
Qed.

(** X5: a link is interesting as soon as its URL alone, or its text
    alone, holds a keyword. *)
Theorem looks_interesting_either_part (url link_text : string) :
  _looks_interesting url "" = true \/ _looks_interesting "" link_text = true ->
  _looks_interesting url link_text = true.
Proof.
  unfold _looks_interesting. rewrite !existsb_exists, !lower_app.
  intros [(kw & Hin & Hkw)|(kw & Hin & Hkw)]; exists kw; (split; [exact Hin|]).
  - change (lower "") with "" in Hkw. rewrite append_nil_r in Hkw.
    rewrite append_assoc. now apply str_contains_app_r.
  - apply str_contains_app_l. exact Hkw.
Qed.

End TextTheorems.

Section FetchTheorems.
Context {E : Env}.

(** X6: a [_fetch_page] that returns has had a 2xx response; the URL it
    returns is the response's; for a [text/html] or [text/plain] content
    type the content is the body cut to [MAX_CONTENT_LENGTH] characters,
    and for any other (or none) the body is dropped for a placeholder. *)
Theorem fetch_page_helper_result (u : string) (s s' : crawl_state)
    (html final_url : string) :
  _fetch_page u s = (Ok (html, final_url), s') ->
  exists r,
    httpx_get u (cs_world s) = (Ok r, cs_world s')
    /\ is_success (resp_status r) = true
    /\ final_url = resp_url r
    /\ (if str_contains "text/html" (default "" (resp_content_type r))
           || str_contains "text/plain" (default "" (resp_content_type r))
        then html = take_str (Z.to_nat MAX_CONTENT_LENGTH) (resp_text r)
             /\ Z.of_nat (String.length html) <= MAX_CONTENT_LENGTH
        else html = ("(Non-HTML content: " ++ default "" (resp_content_type r)
                     ++ ")")%string).
Proof.
  unfold _fetch_page, bind, lift, http_get, ret. cbn [_coerce_str py_str].
  destruct (httpx_get u (cs_world s)) as [[r|e] w]; [|discriminate].
  unfold raise_for_status. destruct (is_success (resp_status r)) eqn:Hok; [|discriminate].
  intros H. exists r. cbn zeta in H.
  pose proof (take_str_length (Z.to_nat MAX_CONTENT_LENGTH) (resp_text r)) as Hlen.
  unfold MAX_CONTENT_LENGTH in *.
  destruct (str_contains "text/html" _); cbn [negb andb orb] in *.
  - injection H as <- <- <-. repeat split; auto.
    lia.
  - destruct (str_contains "text/plain" _); cbn [negb] in *.
    + injection H as <- <- <-. repeat split; auto.
      lia.
    + injection H as <- <- <-. repeat split; auto.
Qed.

(** X7: [_fetch_page] raises exactly when the request fails or the
    status is outside 2xx, with that exception. *)
Theorem fetch_page_helper_raises (u : string) (s : crawl_state) (e : exn) :
  fst (_fetch_page u s) = Raise e <-> fetch_error u (cs_world s) = Some e.
Proof.
  split.
  - unfold fetch_error, _fetch_page, bind, lift, http_get, ret. cbn [_coerce_str py_str].
    destruct (httpx_get u (cs_world s)) as [[r|e'] w]; cbn.
    + unfold raise_for_status. destruct (is_success (resp_status r)); cbn.
      * destruct (_ && _); discriminate.
      * congruence.
    + congruence.
  - intros H. destruct (fetch_page_error u s e H) as [w' ->]. reflexivity.
Qed.

End FetchTheorems.

Section FetchToolTheorems.
Context {E : Env}.




End FetchToolTheorems.

Section CrawlShape.
Context {E : Env}.

(** [crawl_source], once its arguments are coerced. *)
Lemma run_crawl_unfold (url mv : value) (u : string) (N : Z) (w : World) :
  _coerce_str url = Ok u ->
  _coerce_int mv 10 = Ok N ->
  run_crawl url mv w
  = match crawl_body u N (CrawlState w [] (CrawlResult u [] [] [])) with
    | (Ok _, s1) => (Ok (cs_results s1), s1)
    | (Raise e, s1) =>
        (Ok (cs_results (with_error s1 (ErrorEntry u (exn_msg e)))),
         with_error s1 (ErrorEntry u (exn_msg e)))
    end.
Proof.
  intros Hu HN. unfold run_crawl, crawl_source. rewrite Hu, HN.
  unfold bind at 1, lift. unfold bind at 1. unfold bind at 1, set_results, modify.
  cbn [cs_world cs_calls cs_results].
  unfold bind at 1, try_except.
  destruct (crawl_body u N _) as [[[]|e] s1]; reflexivity.
Qed.

Lemma crawl_body_unfold (u : string) (N : Z) (s : crawl_state) :
  crawl_body u N s
  = match _fetch_page u s with
    | (Raise e, s1) => (Raise e, s1)
    | (Ok (html, final_url), s1) =>
        match _extract_text html with
        | Raise e => (Raise e, s1)
        | Ok main_text =>
            match _extract_links html final_url with
            | Raise e => (Raise e, s1)
            | Ok all_links =>
                let home := PageEntry final_url "Homepage"
                              (take_str 3000 main_text)
                              (Some (length all_links)) in
                match select_interesting u all_links with
                | Raise e =>
                    (Raise e,
                     after_homepage s1 home
                       (interesting_links_found (cs_results s1)))
                | Ok interesting =>
                    follow_links N 0 interesting
                      (after_homepage s1 home (take 30 interesting))
                end
            end
        end
    end.
Proof.
  unfold crawl_body, bind at 1.
  destruct (_fetch_page u s) as [[[html final_url]|e] s1]; [|reflexivity].
  unfold bind at 1, lift.
  destruct (_extract_text html) as [main_text|e]; [|reflexivity].
  unfold bind at 1, lift.
  destruct (_extract_links html final_url) as [all_links|e]; [|reflexivity].
  unfold bind at 1, add_page, set_results, modify. unfold bind at 1, lift.
  destruct (select_interesting u all_links) as [interesting|e]; reflexivity.
Qed.

Lemma select_interesting_sublist (u : string) (links : list link) :
  forall out, select_interesting u links = Ok out -> sublist out links.
Proof.
  induction links as [|lk rest IH]; intros out H; cbn [select_interesting] in H.
  - injection H as <-. constructor.
  - destruct (if _looks_interesting (l_url lk) (l_text lk) then Ok true
              else _is_same_site u (l_url lk)) as [keep|e];
      cbn [result_bind] in H; [|discriminate].
    destruct (select_interesting u rest) as [rest'|e]; cbn [result_bind] in H;
      [|discriminate].
    injection H as <-. destruct keep; constructor; auto.
Qed.

Lemma follow_links_done (N followed : Z) (links : list link) (s : crawl_state) :
  N <= followed -> follow_links N followed links s = (Ok tt, s).
Proof.
  intros Hle. destruct links as [|lk rest]; [reflexivity|].
  rewrite follow_links_cons. destruct (followed >=? N) eqn:Hge; [reflexivity | lia].
Qed.

End CrawlShape.

Section CrawlInvariants.
Context {E : Env}.

(** The calls the follow loop makes go to followable candidates. *)
Lemma follow_links_calls (N : Z) (links : list link) :
  forall followed s r s',
    follow_links N followed links s = (r, s') ->
    exists new,
      cs_calls s' = cs_calls s ++ new
      /\ Forall (fun c => followable_url (call_url c) = true
                          /\ In (call_url c) (map l_url links)) new.
Proof.
  induction links as [|lk rest IH]; intros followed s r s' H.
  - injection H as _ <-. exists []. now rewrite app_nil_r.
  - rewrite follow_links_cons in H.
    destruct (followed >=? N); [injection H as _ <-; exists []; now rewrite app_nil_r|].
    destruct (urlparse (l_url lk)) as [p|e] eqn:Hp;
      [|injection H as _ <-; exists []; now rewrite app_nil_r].
    assert (Hweak : forall new : list net_call,
               Forall (fun c => followable_url (call_url c) = true
                                /\ In (call_url c) (map l_url rest)) new ->
               Forall (fun c => followable_url (call_url c) = true
                                /\ In (call_url c) (map l_url (lk :: rest))) new).
    { intros new Hn. eapply Forall_impl; [exact Hn|].
      intros c [? ?]. split; [auto | now right]. }
    destruct (followable p) eqn:Hfol.
    + assert (Hthis : forall ok,
                 followable_url (call_url (NetCall (l_url lk) ok)) = true
                 /\ In (call_url (NetCall (l_url lk) ok)) (map l_url (lk :: rest))).
      { intros ok. cbn [call_url]. unfold followable_url. rewrite Hp.
        split; [exact Hfol | now left]. }
      destruct (_fetch_page (l_url lk) s) as [[[h f]|e] s1] eqn:Hf;
        apply fetch_page_calls in Hf as [Hres Hcalls];
        [destruct (_extract_text h) as [t|e]|];
        apply IH in H as (new & Hnew & Hall);
        unfold with_error in Hnew; cbn [cs_calls] in Hnew;
        rewrite Hcalls, <- app_assoc in Hnew;
        eexists; (split; [exact Hnew|]);
        (constructor; [apply Hthis | apply Hweak, Hall]).
    + apply IH in H as (new & Hnew & Hall). exists new. auto.
Qed.

Lemma failures_recorded_snoc_ok (calls : list net_call) (errs : list error_entry)
    (u : string) :
  failures_recorded calls errs -> failures_recorded (calls ++ [NetCall u true]) errs.
Proof.
  intros H c Hc Hok. apply in_app_or in Hc as [Hc|[<-|[]]]; [auto | discriminate].
Qed.

Lemma failures_recorded_snoc_failed (calls : list net_call)
    (errs : list error_entry) (u : string) (ok : bool) (msg : string) :
  failures_recorded calls errs ->
  failures_recorded (calls ++ [NetCall u ok]) (errs ++ [ErrorEntry u msg]).
Proof.
  intros H c Hc Hok. apply in_app_or in Hc as [Hc|[<-|[]]].
  - destruct (H c Hc Hok) as [m Hm]. exists m. apply in_or_app. now left.
  - exists msg. apply in_or_app. right. now left.
Qed.

Lemma failures_recorded_more (calls : list net_call)
    (errs : list error_entry) (e : error_entry) :
  failures_recorded calls errs -> failures_recorded calls (errs ++ [e]).
Proof.
  intros H c Hc Hok. destruct (H c Hc Hok) as [m Hm]. exists m.
  apply in_or_app. now left.
Qed.

(** The follow loop records every fetch that fails. *)
Lemma follow_links_failures (N : Z) (links : list link) :
  forall followed s r s',
    follow_links N followed links s = (r, s') ->
    failures_recorded (cs_calls s) (errors (cs_results s)) ->
    failures_recorded (cs_calls s') (errors (cs_results s')).
Proof.
  induction links as [|lk rest IH]; intros followed s r s' H Hinv.
  - now injection H as _ <-.
  - rewrite follow_links_cons in H.
    destruct (followed >=? N); [now injection H as _ <-|].
    destruct (urlparse (l_url lk)) as [p|e]; [|now injection H as _ <-].
    destruct (followable p); [|eauto].
    destruct (_fetch_page (l_url lk) s) as [[[h f]|e] s1] eqn:Hf;
      apply fetch_page_calls in Hf as [Hres Hcalls]; cbn [is_ok] in Hcalls;
      [destruct (_extract_text h) as [t|e]|];
      apply IH in H; auto; unfold with_error; cbn [cs_calls cs_results errors];
      rewrite Hcalls, Hres.
    + now apply failures_recorded_snoc_ok.
    + now apply failures_recorded_snoc_failed.
    + now apply failures_recorded_snoc_failed.
Qed.


End CrawlInvariants.

Section CrawlExtras.
Context {E : Env}.

Lemma run_crawl_int (url : value) (u : string) (N : Z) (w : World) :
  _coerce_str url = Ok u ->
  run_crawl url (VInt N) w
  = match crawl_body u N (CrawlState w [] (CrawlResult u [] [] [])) with
    | (Ok _, s1) => (Ok (cs_results s1), s1)
    | (Raise e, s1) =>
        (Ok (cs_results (with_error s1 (ErrorEntry u (exn_msg e)))),
         with_error s1 (ErrorEntry u (exn_msg e)))
    end.
Proof. intros Hu. now apply run_crawl_unfold. Qed.


(** X10: with a budget of zero or less [crawl_source] makes exactly one
    network call, for the seed, and reports at most one page. *)
Theorem crawl_source_nonpositive_budget (url : value) (N : Z) (w : World) :
  N <= 0 ->
  exists u res s' ok,
    _coerce_str url = Ok u
    /\ run_crawl url (VInt N) w = (Ok res, s')
    /\ cs_calls s' = [NetCall u ok]
    /\ (length (pages_crawled res) <= 1)%nat.
Proof.
  intros HN. destruct (_coerce_str_returns url) as [u Hu].
  rewrite (run_crawl_int _ _ _ _ Hu), crawl_body_unfold.
  destruct (_fetch_page u _) as [[[html final_url]|e] s1] eqn:Hf;
    apply fetch_page_calls in Hf as [Hres Hcalls];
    cbn [cs_calls cs_results app] in Hres, Hcalls.
  - destruct (_extract_text html) as [main_text|e].
    + destruct (_extract_links html final_url) as [all_links|e].
      * cbn zeta. destruct (select_interesting u all_links) as [interesting|e].
        -- rewrite follow_links_done by lia.
           do 4 eexists. repeat split; [exact Hu | exact Hcalls|].
           cbn. rewrite Hres. cbn. lia.
        -- do 4 eexists. repeat split; [exact Hu | exact Hcalls|].
           cbn. rewrite Hres. cbn. lia.
      * do 4 eexists. repeat split; [exact Hu | exact Hcalls|].
        cbn. rewrite Hres. cbn. lia.
    + do 4 eexists. repeat split; [exact Hu | exact Hcalls|].
      cbn. rewrite Hres. cbn. lia.
  - do 4 eexists. repeat split; [exact Hu | exact Hcalls|].
    cbn. rewrite Hres. cbn. lia.
Qed.

(** X11: [crawl_source] goes one level deep.  Its first call is for
    the seed; every later call is for the URL of a link of the seed
    page, one that parses with scheme http or https and an extension
    that is not denied; and the later calls number at most [max(0, N)]
    plus the entries of [errors]. *)
Theorem crawl_source_fetches_depth_one (url : value) (N : Z) (w : World) :
  exists u res s' ok later,
    _coerce_str url = Ok u
    /\ run_crawl url (VInt N) w = (Ok res, s')
    /\ cs_calls s' = NetCall u ok :: later
    /\ (Z.of_nat (length later)
        <= Z.max 0 N + Z.of_nat (length (errors res)))
    /\ (later = []
        \/ exists html final_url s1 all_links,
             _fetch_page u (CrawlState w [] (CrawlResult u [] [] []))
             = (Ok (html, final_url), s1)
             /\ _extract_links html final_url = Ok all_links
             /\ Forall (fun c => followable_url (call_url c) = true
                                 /\ In (call_url c) (map l_url all_links)) later).
Proof.
  destruct (_coerce_str_returns url) as [u Hu].
  destruct (run_crawl_returns url N w) as (res & s' & Hrun & _ & Hpg & Hcl & _).
  exists u, res, s'. rewrite Hrun.
  assert (Hcount : forall ok later,
             cs_calls s' = NetCall u ok :: later ->
             Z.of_nat (length later)
             <= Z.max 0 N + Z.of_nat (length (errors res))).
  { intros ok later Hc. unfold n_calls in Hcl. rewrite Hc in Hcl.
    cbn [length] in Hcl. lia. }
  revert Hrun. rewrite (run_crawl_int _ _ _ _ Hu), crawl_body_unfold.
  destruct (_fetch_page u _) as [[[html final_url]|e] s1] eqn:Hf.
  2:{ apply fetch_page_calls in Hf as [Hres Hcalls]. cbn [cs_calls app] in Hcalls.
      intros [= <- <-]. do 2 eexists.
      repeat split; [exact Hu | exact Hcalls | cbn; lia | now left]. }
  pose proof Hf as Hf'.
  apply fetch_page_calls in Hf' as [Hres Hcalls]. cbn [cs_calls app is_ok] in Hcalls.
  destruct (_extract_text html) as [main_text|e].
  2:{ intros [= <- <-]. do 2 eexists.
      repeat split; [exact Hu | exact Hcalls | cbn; lia | now left]. }
  destruct (_extract_links html final_url) as [all_links|e] eqn:Hl.
  2:{ intros [= <- <-]. do 2 eexists.
      repeat split; [exact Hu | exact Hcalls | cbn; lia | now left]. }
  cbn zeta. destruct (select_interesting u all_links) as [interesting|e] eqn:Hsel.
  2:{ intros [= <- <-]. do 2 eexists.
      repeat split; [exact Hu | exact Hcalls | cbn; lia | now left]. }
  match goal with
  | |- context [follow_links N 0 interesting ?s0] =>
      destruct (follow_links N 0 interesting s0) as [r s2] eqn:Hfl
  end.
  pose proof (follow_links_calls _ _ _ _ _ _ Hfl) as (new & Hnew & Hall).
  unfold after_homepage in Hnew. cbn [cs_calls] in Hnew.
  rewrite Hcalls in Hnew. cbn [app] in Hnew.
  assert (Hsub : Forall (fun c => followable_url (call_url c) = true
                                  /\ In (call_url c) (map l_url all_links)) new).
  { eapply Forall_impl; [exact Hall|]. intros c [Hc1 Hc2]. split; [exact Hc1|].
    apply in_map_iff in Hc2 as (lk & <- & Hin). apply in_map.
    apply list_elem_of_In. eapply elem_of_sublist; [apply list_elem_of_In, Hin|].
    eapply select_interesting_sublist; eauto. }
  intros Hrun. exists true, new.
  assert (Hs' : cs_calls s' = NetCall u true :: new).
  { destruct r as [[]|e]; injection Hrun as _ <-; exact Hnew. }
  repeat split; [exact Hu | exact Hs' | exact (Hcount _ _ Hs')|].
  right. exists html, final_url, s1, all_links. auto.
Qed.

End CrawlExtras.

Section CrawlExtras2.
Context {E : Env}.

(** X12: every network call of [crawl_source] that fails has an entry
    in [errors] with its URL. *)
Theorem crawl_source_records_failures (url : value) (N : Z) (w : World) :
  exists res s',
    run_crawl url (VInt N) w = (Ok res, s')
    /\ failures_recorded (cs_calls s') (errors res).
Proof.
  destruct (_coerce_str_returns url) as [u Hu].
  rewrite (run_crawl_int _ _ _ _ Hu), crawl_body_unfold.
  assert (H0 : failures_recorded [] []) by (intros c []).
  destruct (_fetch_page u _) as [[[html final_url]|e] s1] eqn:Hf;
    apply fetch_page_calls in Hf as [Hres Hcalls];
    cbn [cs_calls cs_results app is_ok] in Hres, Hcalls.
  2:{ do 2 eexists. split; [reflexivity|].
      unfold with_error. cbn [cs_calls cs_results errors]. rewrite Hcalls, Hres.
      cbn [errors]. apply (failures_recorded_snoc_failed [] []), H0. }
  assert (H1 : failures_recorded (cs_calls s1) (errors (cs_results s1))).
  { rewrite Hcalls, Hres. apply (failures_recorded_snoc_ok [] []), H0. }
  destruct (_extract_text html) as [main_text|e].
  2:{ do 2 eexists. split; [reflexivity|].
      unfold with_error. cbn [cs_calls cs_results errors].
      now apply failures_recorded_more. }
  destruct (_extract_links html final_url) as [all_links|e].
  2:{ do 2 eexists. split; [reflexivity|].
      unfold with_error. cbn [cs_calls cs_results errors].
      now apply failures_recorded_more. }
  cbn zeta. destruct (select_interesting u all_links) as [interesting|e].
  2:{ do 2 eexists. split; [reflexivity|].
      unfold with_error, after_homepage. cbn [cs_calls cs_results errors].
      now apply failures_recorded_more. }
  match goal with
  | |- context [follow_links N 0 interesting ?s0] =>
      destruct (follow_links N 0 interesting s0) as [r s2] eqn:Hfl
  end.
  apply follow_links_failures in Hfl; [|exact H1].
  destruct r as [[]|e]; do 2 eexists; (split; [reflexivity|]); [exact Hfl|].
  unfold with_error. cbn [cs_calls cs_results errors].
  now apply failures_recorded_more.
Qed.


End CrawlExtras2.

Section CrawlFrame.
Context {E : Env}.

(** The log of network calls is ghost state: calls logged beforehand
    change nothing of what the crawl does. *)
Lemma fetch_page_frame (c : list net_call) (u : string) (s : crawl_state) :
  _fetch_page u (log_after c s)
  = let '(r, s') := _fetch_page u s in (r, log_after c s').
Proof.
  unfold _fetch_page, bind, lift, http_get, ret, log_after.
  cbn [_coerce_str py_str cs_world cs_calls cs_results].
  destruct (httpx_get u (cs_world s)) as [[r|e] w']; rewrite <- app_assoc.
  - destruct (raise_for_status r); [|reflexivity].
    destruct (_ && _); reflexivity.
  - reflexivity.
Qed.

Lemma follow_links_frame (c : list net_call) (N : Z) (links : list link) :
  forall followed s,
    follow_links N followed links (log_after c s)
    = let '(r, s') := follow_links N followed links s in (r, log_after c s').
Proof.
  induction links as [|lk rest IH]; intros followed s; [reflexivity|].
  rewrite !follow_links_cons.
  destruct (followed >=? N); [reflexivity|].
  destruct (urlparse (l_url lk)) as [p|e]; [|reflexivity].
  destruct (followable p); [|apply IH].
  rewrite fetch_page_frame.
  destruct (_fetch_page (l_url lk) s) as [[[h f]|e] s1]; cbn zeta;
    [destruct (_extract_text h) as [t|e]|];
    match goal with
    | |- _ = (let '(r, s') := follow_links N ?f0 rest ?s0 in _) => exact (IH f0 s0)
    end.
Qed.

Lemma crawl_body_frame (c : list net_call) (u : string) (N : Z) (s : crawl_state) :
  crawl_body u N (log_after c s)
  = let '(r, s') := crawl_body u N s in (r, log_after c s').
Proof.
  rewrite !crawl_body_unfold, fetch_page_frame.
  destruct (_fetch_page u s) as [[[html final_url]|e] s1]; [|reflexivity].
  destruct (_extract_text html) as [main_text|e]; [|reflexivity].
  destruct (_extract_links html final_url) as [all_links|e]; [|reflexivity].
  cbn zeta. destruct (select_interesting u all_links) as [interesting|e];
    [|reflexivity].
  match goal with
  | |- _ = (let '(r, s') := follow_links N ?f0 ?l0 ?s0 in _) =>
      exact (follow_links_frame c N l0 f0 s0)
  end.
Qed.

Lemma crawl_source_unfold (url max_subpages : value) (u : string) (N : Z)
    (s0 : crawl_state) :
  _coerce_str url = Ok u ->
  _coerce_int max_subpages 10 = Ok N ->
  crawl_source url max_subpages s0
  = match crawl_body u N
            (CrawlState (cs_world s0) (cs_calls s0) (CrawlResult u [] [] [])) with
    | (Ok _, s1) => (Ok (cs_results s1), s1)
    | (Raise e, s1) =>
        (Ok (cs_results (with_error s1 (ErrorEntry u (exn_msg e)))),
         with_error s1 (ErrorEntry u (exn_msg e)))
    end.
Proof.
  intros Hu HN. unfold crawl_source. rewrite Hu, HN.
  unfold bind at 1, lift. unfold bind at 1. unfold bind at 1, set_results, modify.
  unfold bind at 1, try_except.
  destruct (crawl_body u N _) as [[[]|e] s1]; reflexivity.
Qed.

Lemma crawl_source_frame (c : list net_call) (url max_subpages : value) (w : World) :
  crawl_source url max_subpages (CrawlState w c (CrawlResult "" [] [] []))
  = let '(r, s') := run_crawl url max_subpages w in (r, log_after c s').
Proof.
  destruct (_coerce_str_returns url) as [u Hu].
  destruct (_coerce_int max_subpages 10) as [N|e] eqn:HN.
  - rewrite (crawl_source_unfold _ _ _ _ _ Hu HN), (run_crawl_unfold _ _ _ _ _ Hu HN).
    cbn [cs_world cs_calls].
    pose proof (crawl_body_frame c u N (CrawlState w [] (CrawlResult u [] [] [])))
      as Hfr.
    unfold log_after in Hfr at 1. cbn [cs_world cs_calls cs_results] in Hfr.
    rewrite app_nil_r in Hfr. rewrite Hfr. clear Hfr.
    destruct (crawl_body u N (CrawlState w [] (CrawlResult u [] [] [])))
      as [[[]|e] s1]; reflexivity.
  - unfold run_crawl, crawl_source. rewrite Hu, HN.
    unfold bind, lift, log_after. cbn. now rewrite app_nil_r.
Qed.

Lemma in_crawl_source (url max_subpages : value) (s : app_state) :
  in_crawl (crawl_source url max_subpages) s
  = let '(r, cs) := run_crawl url max_subpages (app_world s) in
    (r, AppState (links_file s) (app_store s) (cs_world cs)
          (app_calls s ++ cs_calls cs)).
Proof.
  unfold in_crawl. rewrite crawl_source_frame.
  destruct (run_crawl url max_subpages (app_world s)) as [r cs]. reflexivity.
Qed.

End CrawlFrame.

Section SweepFacts.
Context {E : Env}.

Lemma read_links_doc (s : app_state) :
  _read_links s = (Ok (registry_doc (links_file s)), s).
Proof. unfold _read_links, registry_doc. now destruct (links_file s). Qed.

Lemma in_store_now (s : app_state) :
  in_store now_isoformat s
  = (Ok (clock_iso (clock_reads (app_store s))),
     AppState (links_file s)
       (StoreState (cache_file (app_store s)) (S (clock_reads (app_store s))))
       (app_world s) (app_calls s)).
Proof. reflexivity. Qed.

Lemma successful_fetches_app (a b : list net_call) :
  successful_fetches (a ++ b) = (successful_fetches a + successful_fetches b)%nat.
Proof. unfold successful_fetches. now rewrite filter_app, length_app. Qed.

(** One crawl inside the sweep. *)
Lemma in_crawl_source_int (v : value) (N : Z) (s : app_state) :
  exists res cs,
    run_crawl v (VInt N) (app_world s) = (Ok res, cs)
    /\ in_crawl (crawl_source v (VInt N)) s
       = (Ok res, AppState (links_file s) (app_store s) (cs_world cs)
                    (app_calls s ++ cs_calls cs))
    /\ (length (pages_crawled res) <= 1 + Z.to_nat N)%nat
    /\ (length (pages_crawled res) <= successful_fetches (cs_calls cs))%nat.
Proof.
  rewrite in_crawl_source.
  destruct (run_crawl_returns v N (app_world s))
    as (res & cs & Hrun & _ & Hp & _ & Hs & _).
  rewrite Hrun. exists res, cs. auto.
Qed.

(** A crawl with an integer budget always asks for the seed. *)
Lemma crawl_source_makes_call (v : value) (N : Z) (w : World) :
  exists res cs c0 later,
    run_crawl v (VInt N) w = (Ok res, cs) /\ cs_calls cs = c0 :: later.
Proof.
  destruct (_coerce_str_returns v) as [u Hu].
  destruct (run_crawl_returns v N w) as (res & cs & Hrun & _).
  exists res, cs. revert Hrun.
  rewrite (run_crawl_int _ _ _ _ Hu), crawl_body_unfold.
  destruct (_fetch_page u _) as [[[html final_url]|e] s1] eqn:Hf;
    apply fetch_page_calls in Hf as [_ Hcalls]; cbn [cs_calls app] in Hcalls.
  - destruct (_extract_text html) as [main_text|e].
    + destruct (_extract_links html final_url) as [all_links|e].
      * cbn zeta. destruct (select_interesting u all_links) as [interesting|e].
        -- match goal with
           | |- context [follow_links N 0 interesting ?s0] =>
               destruct (follow_links N 0 interesting s0) as [r s2] eqn:Hfl
           end.
           apply follow_links_calls in Hfl as (new & Hnew & _).
           unfold after_homepage in Hnew. cbn [cs_calls] in Hnew.
           rewrite Hcalls in Hnew. cbn [app] in Hnew.
           destruct r as [[]|e]; intros [= <- <-]; do 2 eexists;
             (split; [reflexivity|]); exact Hnew.
        -- intros [= <- <-]. do 2 eexists. split; [reflexivity | exact Hcalls].
      * intros [= <- <-]. do 2 eexists. split; [reflexivity | exact Hcalls].
    + intros [= <- <-]. do 2 eexists. split; [reflexivity | exact Hcalls].
  - intros [= <- <-]. do 2 eexists. split; [reflexivity | exact Hcalls].
Qed.

Lemma has_url_dict (l : value) :
  has_url l -> exists d v, l = VDict d /\ dict_get "url" d = Some v.
Proof.
  intros [v Hv]. destruct l as [| | | | | |d]; try discriminate.
  unfold py_getitem, dict_getitem in Hv.
  destruct (dict_get "url" d) as [v'|] eqn:Hg; [|discriminate]. eauto.
Qed.

(** The loop of the sweep over a registry whose entries have a url. *)
Lemma crawl_each_spec (N : Z) (items : list value) :
  Forall has_url items ->
  forall s, exists entries w' new,
    crawl_each N items s
    = (Ok entries,
       AppState (links_file s) (app_store s) w' (app_calls s ++ new))
    /\ sweep_run N (app_world s) items entries new w'
    /\ (total_pages entries <= length items * (1 + Z.to_nat N))%nat
    /\ (total_pages entries <= successful_fetches new)%nat.
Proof.
  induction 1 as [|l rest Hl _ IH]; intros s.
  - exists [], (app_world s), []. rewrite app_nil_r. destruct s.
    split; [reflexivity|]. split; [constructor|]. cbn. split; lia.
  - apply has_url_dict in Hl as (d & v & -> & Hv).
    cbn [crawl_each]. unfold bind at 1, lift, py_getitem, dict_getitem. rewrite Hv.
    unfold bind at 1.
    destruct (in_crawl_source_int v N s) as (res & cs & Hrun & -> & Hb1 & Hp1).
    unfold bind at 1, lift. cbn [py_get]. unfold bind at 1. unfold bind at 1.
    match goal with
    | |- context [crawl_each N rest ?s1] =>
        destruct (IH s1) as (entries & w2 & new2 & -> & Hall & Hb2 & Hp2)
    end.
    cbn [links_file app_store app_calls app_world] in *. unfold ret.
    exists (SweepEntry res (default (VStr "") (dict_get "label" d))
              (default (VStr "") (dict_get "id" d)) :: entries), w2,
      (cs_calls cs ++ new2).
    rewrite app_assoc. split; [reflexivity|].
    change (total_pages (SweepEntry res (default (VStr "") (dict_get "label" d))
                           (default (VStr "") (dict_get "id" d)) :: entries))
      with (length (pages_crawled res) + total_pages entries)%nat.
    split; [|split].
    + now apply (sweep_step N _ d v res cs).
    + cbn [length]. rewrite Nat.mul_succ_l.
      rewrite (Nat.add_comm (length rest * _)). now apply Nat.add_le_mono.
    + rewrite successful_fetches_app. now apply Nat.add_le_mono.
Qed.

Lemma sweep_run_length (N : Z) (w w' : World) (items : list value)
    (entries : list sweep_entry) (calls : list net_call) :
  sweep_run N w items entries calls w' -> length items = length entries.
Proof. induction 1; cbn; congruence. Qed.

Lemma Forall2_length_eq {A B} (R : A -> B -> Prop) (l : list A) (l' : list B) :
  Forall2 R l l' -> length l = length l'.
Proof. induction 1; cbn; congruence. Qed.

(** What a sweep over a well-formed registry does. *)
Lemma crawl_all_sources_spec (max_subpages : value) (N : Z) (s : app_state)
    (items : list value) (d : list (string * value)) :
  _coerce_int max_subpages 5 = Ok N ->
  registry_doc (links_file s) = VList items ->
  Forall has_url items ->
  cache_doc (cache_file (app_store s)) = VDict d ->
  exists entries w' new,
    crawl_all_sources max_subpages s
    = (Ok (SweepResult (length items) entries),
       AppState (links_file s)
         (StoreState
            (FileJSON
               (VDict
                  (dict_set "lastUpdated"
                     (VStr (clock_iso (S (clock_reads (app_store s)))))
                     (dict_set "crawlLog"
                        (VList [crawl_log_entry
                                  (clock_iso (clock_reads (app_store s)))
                                  (length items) (total_pages entries)])
                        d))))
            (S (S (clock_reads (app_store s)))))
         w' (app_calls s ++ new))
    /\ sweep_run N (app_world s) items entries new w'
    /\ (total_pages entries <= length items * (1 + Z.to_nat N))%nat
    /\ (total_pages entries <= successful_fetches new)%nat.
Proof.
  intros HN Hreg Hwf Hd. unfold crawl_all_sources. rewrite HN.
  unfold bind at 1, lift. unfold bind at 1. rewrite read_links_doc, Hreg.
  unfold bind at 1, lift. cbn [py_iter]. unfold bind at 1.
  destruct (crawl_each_spec N items Hwf s) as (entries & w' & new & -> & Hall & Hb & Hp).
  unfold bind at 1. rewrite in_store_now. cbn [links_file app_store app_world app_calls].
  unfold bind at 1, lift. cbn [py_len]. unfold bind at 1.
  unfold in_store at 1. cbn [app_store links_file app_world app_calls].
  erewrite update_cache_dict by (cbn [cache_file]; exact Hd).
  cbn [clock_reads]. unfold ret.
  exists entries, w', new. rewrite <- (sweep_run_length _ _ _ _ _ _ Hall).
  split; [reflexivity | auto].
Qed.

End SweepFacts.

Section SweepTheorems.
Context {E : Env}.

(** X14: over a registry whose entries have a [url], and with a cache
    that is a JSON object, [crawl_all_sources] returns one result per
    source, in registry order: the result of [crawl_source] on the URL
    of that source, run after the crawls of the sources before it, with
    the label and the id of the source put on.  [sources_crawled] is the
    number of sources and the registry is left as it was. *)
Theorem crawl_all_sources_entry_per_source (max_subpages : value) (N : Z)
    (s : app_state) (items : list value) (d : list (string * value)) :
  _coerce_int max_subpages 5 = Ok N ->
  registry_doc (links_file s) = VList items ->
  Forall has_url items ->
  cache_doc (cache_file (app_store s)) = VDict d ->
  exists r s' new,
    crawl_all_sources max_subpages s = (Ok r, s')
    /\ sources_crawled r = length items
    /\ length (sweep_results r) = length items
    /\ sweep_run N (app_world s) items (sweep_results r) new (app_world s')
    /\ app_calls s' = app_calls s ++ new
    /\ links_file s' = links_file s.
Proof.
  intros HN Hreg Hwf Hd.
  destruct (crawl_all_sources_spec _ _ _ _ _ HN Hreg Hwf Hd)
    as (entries & w' & new & -> & Hall & _).
  do 3 eexists. split; [reflexivity|]. cbn.
  repeat split; auto. symmetry. eapply sweep_run_length; eauto.
Qed.

(** X15: a completed [crawl_all_sources] overwrites [crawlLog] with a
    single entry (time of the sweep, number of sources, pages crawled),
    sets [lastUpdated], leaves the other keys of the cache as they were,
    and reads the clock twice. *)
Theorem crawl_all_sources_overwrites_log (max_subpages : value) (N : Z)
    (s : app_state) (items : list value) (d : list (string * value)) :
  _coerce_int max_subpages 5 = Ok N ->
  registry_doc (links_file s) = VList items ->
  Forall has_url items ->
  cache_doc (cache_file (app_store s)) = VDict d ->
  exists r s' d',
    crawl_all_sources max_subpages s = (Ok r, s')
    /\ cache_file (app_store s') = FileJSON (VDict d')
    /\ dict_get "crawlLog" d'
       = Some (VList [crawl_log_entry (clock_iso (clock_reads (app_store s)))
                        (length items) (total_pages (sweep_results r))])
    /\ dict_get "lastUpdated" d'
       = Some (VStr (clock_iso (S (clock_reads (app_store s)))))
    /\ (forall k, k <> "crawlLog" -> k <> "lastUpdated" ->
                  dict_get k d' = dict_get k d)
    /\ clock_reads (app_store s') = S (S (clock_reads (app_store s))).
Proof.
  intros HN Hreg Hwf Hd.
  destruct (crawl_all_sources_spec _ _ _ _ _ HN Hreg Hwf Hd)
    as (entries & w' & new & -> & _).
  do 3 eexists. split; [reflexivity|]. cbn [app_store cache_file clock_reads].
  split; [reflexivity|]. split; [|split; [|split; [|reflexivity]]].
  - rewrite dict_get_set_ne by discriminate. apply dict_get_set_eq.
  - apply dict_get_set_eq.
  - intros k Hk1 Hk2. rewrite !dict_get_set_ne by congruence. reflexivity.
Qed.

(** X16: a sweep over [n] sources with budget [N] reports at most
    [n * (1 + max(0, N))] pages, and no more pages than fetches that
    came back with a page. *)
Theorem crawl_all_sources_fetch_budget (max_subpages : value) (N : Z)
    (s : app_state) (items : list value) (d : list (string * value)) :
  _coerce_int max_subpages 5 = Ok N ->
  registry_doc (links_file s) = VList items ->
  Forall has_url items ->
  cache_doc (cache_file (app_store s)) = VDict d ->
  exists r s' new,
    crawl_all_sources max_subpages s = (Ok r, s')
    /\ app_calls s' = app_calls s ++ new
    /\ Z.of_nat (total_pages (sweep_results r))
       <= Z.of_nat (length items) * (1 + Z.max 0 N)
    /\ (total_pages (sweep_results r) <= successful_fetches new)%nat.
Proof.
  intros HN Hreg Hwf Hd.
  destruct (crawl_all_sources_spec _ _ _ _ _ HN Hreg Hwf Hd)
    as (entries & w' & new & -> & _ & Hb & Hp).
  do 3 eexists. split; [reflexivity|]. cbn [app_calls sweep_results].
  split; [reflexivity|]. split; [|exact Hp].
  apply Nat2Z.inj_le in Hb. rewrite Nat2Z.inj_mul, Nat2Z.inj_add, ZifyInst.of_nat_to_nat_eq in Hb.
  exact Hb.
Qed.

Lemma crawl_each_missing_url (N : Z) (pre : list value)
    (dl : list (string * value)) (post : list value) :
  Forall has_url pre ->
  dict_get "url" dl = None ->
  forall s, exists w' new,
    crawl_each N (pre ++ VDict dl :: post) s
    = (Raise (Exn KeyError "url"),
       AppState (links_file s) (app_store s) w' (app_calls s ++ new))
    /\ (length pre <= length new)%nat.
Proof.
  intros Hpre Hdl. induction Hpre as [|l rest Hl _ IH]; intros s.
  - exists (app_world s), []. rewrite app_nil_r. cbn [app crawl_each].
    unfold bind at 1, lift, py_getitem, dict_getitem. rewrite Hdl.
    destruct s. split; [reflexivity | cbn; lia].
  - apply has_url_dict in Hl as (d & v & -> & Hv).
    cbn [app crawl_each]. unfold bind at 1, lift. unfold py_getitem at 1, dict_getitem.
    rewrite Hv. unfold bind at 1.
    rewrite in_crawl_source.
    destruct (crawl_source_makes_call v N (app_world s)) as (res & cs & c0 & later & Hrun & Hc).
    rewrite Hrun. unfold bind at 1, lift. cbn [py_get]. unfold bind at 1. unfold bind at 1.
    match goal with
    | |- context [crawl_each N (rest ++ ?l0 :: post) ?s1] =>
        destruct (IH s1) as (w2 & new2 & -> & Hlen)
    end.
    cbn [links_file app_store app_calls].
    exists w2, (cs_calls cs ++ new2). rewrite app_assoc. split; [reflexivity|].
    rewrite Hc, length_app. cbn [length]. lia.
Qed.

(** X17: a registry entry without a [url] key makes
    [crawl_all_sources] raise KeyError, once the sources before it are
    crawled (one call at least for each); neither the cache nor the
    registry is written. *)
Theorem crawl_all_sources_missing_url (max_subpages : value) (N : Z)
    (s : app_state) (pre : list value) (dl : list (string * value))
    (post : list value) :
  _coerce_int max_subpages 5 = Ok N ->
  registry_doc (links_file s) = VList (pre ++ VDict dl :: post) ->
  Forall has_url pre ->
  dict_get "url" dl = None ->
  exists s' new,
    crawl_all_sources max_subpages s = (Raise (Exn KeyError "url"), s')
    /\ app_store s' = app_store s
    /\ links_file s' = links_file s
    /\ app_calls s' = app_calls s ++ new
    /\ (length pre <= length new)%nat.
Proof.
  intros HN Hreg Hpre Hdl. unfold crawl_all_sources. rewrite HN.
  unfold bind at 1, lift. unfold bind at 1. rewrite read_links_doc, Hreg.
  unfold bind at 1, lift. cbn [py_iter]. unfold bind at 1.
  destruct (crawl_each_missing_url N pre dl post Hpre Hdl s) as (w' & new & -> & Hlen).
  do 2 eexists. split; [reflexivity|]. cbn. auto.
Qed.

End SweepTheorems.

Section StoreExtras.
Context {E : Env}.

Lemma coerce_optional_str_returns (v : value) :
  exists s, coerce_optional_str v = Ok s.
Proof.
  unfold coerce_optional_str. destruct (py_truthy v); [|eauto].
  apply _coerce_str_returns.
Qed.

Lemma coerce_optional_str_str (s : string) : coerce_optional_str (VStr s) = Ok s.
Proof.
  unfold coerce_optional_str. cbn [py_truthy].
  destruct (String.eqb s "") eqn:He; [|reflexivity].
  apply String.eqb_eq in He. now subst s.
Qed.

Lemma filter_by_type_spec (t : string) (l : list value) :
  Forall (fun f => is_dict f = true) l ->
  filter_by_type t l = Ok (filter (fun f => field_is "type" t f = true) l).
Proof.
  induction 1 as [|f rest Hf _ IH]; [reflexivity|].
  destruct f as [| | | | | |d]; try discriminate.
  cbn [filter_by_type py_get result_bind]. rewrite IH. cbn [result_bind].
  assert (Hty : field_is "type" t (VDict d) = py_eq_str (default VNone (dict_get "type" d)) t).
  { unfold field_is. cbn [finding_field]. now destruct (dict_get "type" d). }
  rewrite filter_cons, Hty.
  destruct (py_eq_str _ t);
    [rewrite decide_True by reflexivity | rewrite decide_False by discriminate];
    reflexivity.
Qed.

(** What [list_findings] does on a store whose findings are a list. *)
Lemma list_findings_spec (finding_type : value) (t : string) (s : store_state)
    (l : list value) :
  coerce_optional_str finding_type = Ok t ->
  stored_findings s = Some l ->
  (t <> "" -> Forall (fun f => is_dict f = true) l) ->
  exists d,
    cache_doc (cache_file s) = VDict d
    /\ list_findings finding_type s
       = (Ok (VList (if String.eqb t "" then l
                     else filter (fun f => field_is "type" t f = true) l)),
          StoreState
            (FileJSON
               (VDict (dict_set "lastUpdated" (VStr (clock_iso (clock_reads s)))
                         (dict_set "findings" (VList l) d))))
            (S (clock_reads s))).
Proof.
  intros Ht Hst Hall. destruct (stored_findings_doc _ _ Hst) as (d & Hd & Hf).
  exists d. split; [exact Hd|].
  unfold list_findings. rewrite Ht. unfold bind at 1, lift.
  unfold bind at 1. rewrite read_cache_doc, Hd.
  unfold bind at 1, lift. cbn [py_get]. rewrite Hf.
  unfold bind at 1.
  destruct (String.eqb t "") eqn:He; cbn [negb].
  - unfold ret at 1. unfold bind at 1, lift. unfold bind at 1.
    rewrite (update_cache_dict _ _ _ d Hd). reflexivity.
  - unfold bind at 1, lift. cbn [py_iter]. unfold bind at 1, lift.
    rewrite filter_by_type_spec by (apply Hall; now apply String.eqb_neq).
    unfold ret at 1. unfold bind at 1, lift. unfold bind at 1.
    rewrite (update_cache_dict _ _ _ d Hd). reflexivity.
Qed.

End StoreExtras.

Section StoreExtraTheorems.
Context {E : Env}.

(** X18: [list_findings] with no type (any falsy argument) returns the
    stored findings and keeps them, yet it rewrites the cache:
    [lastUpdated] becomes the time of the call. *)
Theorem list_findings_unfiltered (finding_type : value) (s : store_state)
    (l : list value) :
  py_truthy finding_type = false ->
  stored_findings s = Some l ->
  exists s' d',
    list_findings finding_type s = (Ok (VList l), s')
    /\ stored_findings s' = Some l
    /\ cache_file s' = FileJSON (VDict d')
    /\ dict_get "lastUpdated" d' = Some (VStr (clock_iso (clock_reads s)))
    /\ clock_reads s' = S (clock_reads s).
Proof.
  intros Hft Hst.
  assert (Ht : coerce_optional_str finding_type = Ok "")
    by (unfold coerce_optional_str; now rewrite Hft).
  destruct (list_findings_spec finding_type "" s l Ht Hst) as (d & Hd & ->);
    [congruence|].
  cbn [String.eqb]. do 2 eexists. split; [reflexivity|].
  split; [apply stored_findings_written|]. cbn [cache_file clock_reads].
  split; [reflexivity|]. split; [apply dict_get_set_eq | reflexivity].
Qed.

(** X19: [list_findings] with a type returns the stored findings whose
    [type] is that string, in stored order, and leaves the stored
    findings as they were. *)
Theorem list_findings_by_type (finding_type : value) (t : string)
    (s : store_state) (l : list value) :
  coerce_optional_str finding_type = Ok t ->
  t <> "" ->
  stored_findings s = Some l ->
  Forall (fun f => is_dict f = true) l ->
  exists s',
    list_findings finding_type s
    = (Ok (VList (filter (fun f => field_is "type" t f = true) l)), s')
    /\ stored_findings s' = Some l.
Proof.
  intros Ht Hne Hst Hall.
  destruct (list_findings_spec finding_type t s l Ht Hst) as (d & Hd & ->); [auto|].
  apply String.eqb_neq in Hne. rewrite Hne.
  eexists. split; [reflexivity | apply stored_findings_written].
Qed.

(** X20: [clear_findings] empties the stored findings and leaves the
    other keys of the cache (but [lastUpdated]) as they were; a
    [list_findings] that follows returns the empty list, for any
    type. *)
Theorem clear_findings_resets (s : store_state) (d : list (string * value))
    (finding_type : value) :
  cache_doc (cache_file s) = VDict d ->
  exists s' d' s'',
    clear_findings s = (Ok (VDict [("cleared", VBool true)]), s')
    /\ stored_findings s' = Some []
    /\ cache_file s' = FileJSON (VDict d')
    /\ (forall k, k <> "findings" -> k <> "lastUpdated" ->
                  dict_get k d' = dict_get k d)
    /\ list_findings finding_type s' = (Ok (VList []), s'').
Proof.
  intros Hd. unfold clear_findings, bind. rewrite (update_cache_dict _ _ _ d Hd).
  unfold ret.
  match goal with
  | |- context [(Ok (VDict [("cleared", VBool true)]), ?s1)] => set (s' := s1)
  end.
  assert (Hst : stored_findings s' = Some []) by apply stored_findings_written.
  destruct (coerce_optional_str_returns finding_type) as [t Ht].
  destruct (list_findings_spec finding_type t s' [] Ht Hst) as (d1 & _ & Hl);
    [intros _; constructor|].
  do 3 eexists. split; [reflexivity|]. split; [exact Hst|].
  split; [reflexivity|]. split.
  - intros k Hk1 Hk2. rewrite !dict_get_set_ne by congruence. reflexivity.
  - rewrite Hl. now destruct (String.eqb t "").
Qed.

(** X21: on a cache file that holds JSON which is not an object, the
    three store tools raise and leave the store untouched:
    [clear_findings] a TypeError, [list_findings] and [save_findings] an
    AttributeError. *)
Theorem store_tools_reject_non_object (s : store_state)
    (findings finding_type : value) (batch : list value) :
  is_dict (cache_doc (cache_file s)) = false ->
  coerce_findings findings = Some batch ->
  (exists e, clear_findings s = (Raise e, s) /\ exn_cls e = TypeError)
  /\ (exists e, list_findings finding_type s = (Raise e, s)
                /\ exn_cls e = AttributeError)
  /\ (exists e, save_findings findings s = (Raise e, s)
                /\ exn_cls e = AttributeError).
Proof.
  intros Hnd Hc. split; [|split].
  - unfold clear_findings, bind, _update_cache, bind. rewrite read_cache_doc.
    unfold lift. destruct (cache_doc (cache_file s)); try discriminate;
      eexists; split; reflexivity.
  - destruct (coerce_optional_str_returns finding_type) as [t Ht].
    unfold list_findings. rewrite Ht. unfold bind at 1, lift.
    unfold bind at 1. rewrite read_cache_doc. unfold bind at 1, lift.
    destruct (cache_doc (cache_file s)); try discriminate;
      eexists; split; reflexivity.
  - rewrite (save_findings_batch _ _ Hc). unfold save_batch.
    unfold bind at 1. rewrite read_cache_doc. unfold bind at 1, lift.
    destruct (cache_doc (cache_file s)); try discriminate;
      eexists; split; reflexivity.
Qed.

(** X22: the report of a completed [save_findings]: [saved] counts the
    objects of the batch (other items are not counted), [total] is the
    number of findings then stored, which is at least [saved] and at
    most the number stored before plus [saved]. *)
Theorem save_findings_report (findings : value) (batch existing : list value)
    (s s' : store_state) (r : value) :
  coerce_findings findings = Some batch ->
  stored_findings s = Some existing ->
  save_findings findings s = (Ok r, s') ->
  exists persisted,
    stored_findings s' = Some persisted
    /\ r = VDict
             [("saved",
               VInt (Z.of_nat (length (filter (fun f => is_dict f = true) batch))));
              ("total", VInt (Z.of_nat (length persisted)))]
    /\ (length (filter (fun f => is_dict f = true) batch) <= length persisted)%nat
    /\ (length persisted
        <= length existing + length (filter (fun f => is_dict f = true) batch))%nat.
Proof.
  intros Hc Hst H. rewrite (save_findings_batch _ _ Hc) in H.
  destruct (save_batch_spec _ _ _ _ _ Hst H)
    as (stamped & s1 & Hstamp & _ & _ & Hs' & ->).
  apply stamp_findings_spec in Hstamp as [Hrel _].
  apply stamp_rel_filter, Forall2_length_eq in Hrel. rewrite Hrel.
  eexists. split; [exact Hs'|]. split; [reflexivity|].
  unfold upsert_by_id. rewrite length_app.
  pose proof (length_filter (fun f => id_occurs f
                (filter (fun f => is_dict f = true) stamped) = false) existing).
  lia.
Qed.

(** X23: after a completed [save_findings], [list_findings] with no
    type returns the collection just persisted, whose length is the
    [total] reported. *)
Theorem save_findings_then_list (findings : value) (batch existing : list value)
    (s s' : store_state) (r : value) :
  coerce_findings findings = Some batch ->
  stored_findings s = Some existing ->
  save_findings findings s = (Ok r, s') ->
  exists persisted s'',
    list_findings (VStr "") s' = (Ok (VList persisted), s'')
    /\ stored_findings s'' = Some persisted
    /\ finding_field "total" r = Some (VInt (Z.of_nat (length persisted))).
Proof.
  intros Hc Hst H. rewrite (save_findings_batch _ _ Hc) in H.
  destruct (save_batch_spec _ _ _ _ _ Hst H)
    as (stamped & s1 & Hstamp & _ & _ & Hs' & ->).
  destruct (list_findings_spec (VStr "") "" s' _ eq_refl Hs') as (d & _ & ->);
    [congruence|].
  cbn [String.eqb]. do 2 eexists. split; [reflexivity|].
  split; [apply stored_findings_written | reflexivity].
Qed.

Lemma stamp_findings_non_dicts (existing : value) (batch : list value) :
  Forall (fun f => is_dict f = false) batch ->
  forall i s, stamp_findings existing i batch s = (Ok batch, s).
Proof.
  induction 1 as [|f rest Hf _ IH]; intros i s; [reflexivity|].
  cbn [stamp_findings]. unfold bind at 1.
  destruct f as [| | | | | |d]; try discriminate;
    unfold ret at 1; unfold bind at 1; rewrite IH; reflexivity.
Qed.

Lemma filter_non_dicts (batch : list value) :
  Forall (fun f => is_dict f = false) batch ->
  filter (fun f => is_dict f = true) batch = [].
Proof.
  intros H. apply filter_none. intros x Hx.
  rewrite Forall_forall in H. rewrite (H x Hx). discriminate.
Qed.

Lemma filter_all (P : value -> Prop) `{!forall x, Decision (P x)} (l : list value) :
  (forall x, P x) -> filter P l = l.
Proof.
  intros HP. induction l as [|x l IH]; [reflexivity|].
  now rewrite filter_cons_True, IH.
Qed.

(** X24: a batch with no object in it (an empty list, or items that
    are not objects) saves nothing: [save_findings] reports [saved = 0],
    the stored findings stay as they were, and the clock is read once,
    for [lastUpdated]. *)
Theorem save_findings_ignores_non_objects (findings : value)
    (batch existing : list value) (s : store_state) :
  coerce_findings findings = Some batch ->
  Forall (fun f => is_dict f = false) batch ->
  stored_findings s = Some existing ->
  Forall hashable_id existing ->
  exists s',
    save_findings findings s
    = (Ok (VDict [("saved", VInt 0);
                  ("total", VInt (Z.of_nat (length existing)))]), s')
    /\ stored_findings s' = Some existing
    /\ clock_reads s' = S (clock_reads s).
Proof.
  intros Hc Hnd Hst Hex. rewrite (save_findings_batch _ _ Hc).
  destruct (stored_findings_doc _ _ Hst) as (d & Hd & Hf).
  unfold save_batch. unfold bind at 1. rewrite read_cache_doc, Hd.
  unfold bind at 1, lift, py_get. rewrite Hf.
  unfold bind at 1. rewrite (stamp_findings_non_dicts _ _ Hnd).
  rewrite (filter_non_dicts _ Hnd).
  unfold bind at 1, lift. cbn [id_set]. unfold bind at 1, lift. cbn [py_iter].
  destruct (retain_returns existing ∅ Hex) as [merged Hret].
  unfold bind at 1, lift. rewrite Hret.
  apply (retain_spec []) in Hret as [_ ->].
  2:{ intros f k _. cbn. apply bool_decide_eq_false, not_elem_of_empty. }
  rewrite filter_all by reflexivity. rewrite app_nil_r.
  unfold bind at 1. rewrite (update_cache_dict _ _ _ d Hd). unfold ret.
  eexists. split; [reflexivity|]. split; [apply stored_findings_written | reflexivity].
Qed.

Lemma retain_raises (existing : list value) (ids : gset key) (f : value) (e : exn) :
  In f existing -> id_key f = Raise e -> exists e', retain existing ids = Raise e'.
Proof.
  induction existing as [|g rest IH]; intros Hin Hk; [destruct Hin|].
  cbn [retain]. destruct (id_key g) as [k|e0] eqn:Hg; cbn [result_bind]; [|eauto].
  destruct Hin as [->|Hin]; [congruence|].
  destruct (IH Hin Hk) as [e' ->]. cbn. eauto.
Qed.

(** X25: when a stored finding has an id that cannot be hashed (or is
    not an object), every [save_findings] whose argument parses raises,
    and the cache file is left as it was. *)
Theorem save_findings_unhashable_stored_id (findings : value)
    (batch existing : list value) (s : store_state) (f : value) (e : exn) :
  coerce_findings findings = Some batch ->
  stored_findings s = Some existing ->
  In f existing ->
  id_key f = Raise e ->
  exists e' s',
    save_findings findings s = (Raise e', s')
    /\ cache_file s' = cache_file s.
Proof.
  intros Hc Hst Hin Hk. rewrite (save_findings_batch _ _ Hc).
  destruct (stored_findings_doc _ _ Hst) as (d & Hd & Hf).
  unfold save_batch. unfold bind at 1. rewrite read_cache_doc, Hd.
  unfold bind at 1, lift, py_get. rewrite Hf.
  unfold bind at 1.
  destruct (stamp_findings_returns existing batch 0 s) as (stamped & s1 & Hstamp).
  rewrite Hstamp. apply stamp_findings_spec in Hstamp as [_ Hfile].
  unfold bind at 1, lift.
  destruct (id_set _) as [ids|e1]; [|eauto].
  unfold bind at 1, lift. cbn [py_iter]. unfold bind at 1, lift.
  destruct (retain_raises existing ids f e Hin Hk) as [e' ->]. eauto.
Qed.

End StoreExtraTheorems.

Section RegistryFacts.
Context {E : Env}.

Lemma any_url_is_spec (u : string) (items : list value) :
  Forall has_url items ->
  any_url_is u items = Ok (existsb (field_is "url" u) items).
Proof.
  induction 1 as [|l rest Hl _ IH]; [reflexivity|].
  apply has_url_dict in Hl as (d & v & -> & Hv).
  cbn [any_url_is existsb]. unfold py_getitem, dict_getitem, field_is.
  cbn [finding_field]. rewrite Hv. cbn [result_bind].
  destruct (py_eq_str v u); [reflexivity | exact IH].
Qed.

Lemma remove_matching_spec (source_id url : string) (items : list value) :
  Forall (fun l => is_dict l = true) items ->
  remove_matching source_id url items
  = Ok (filter (fun l => survives source_id url l = true) items).
Proof.
  induction 1 as [|l rest Hl _ IH]; [reflexivity|].
  destruct l as [| | | | | |d]; try discriminate.
  cbn [remove_matching py_get result_bind]. rewrite IH. cbn [result_bind].
  assert (Hs : survives source_id url (VDict d)
               = negb (py_eq_str (default VNone (dict_get "id" d)) source_id)
                 && negb (py_eq_str (default VNone (dict_get "url" d)) url)).
  { unfold survives, field_is. cbn [finding_field].
    now destruct (dict_get "id" d), (dict_get "url" d). }
  rewrite filter_cons, Hs.
  destruct (_ && _);
    [rewrite decide_True by reflexivity | rewrite decide_False by discriminate];
    reflexivity.
Qed.

(** [add_source] on a registry that does not have the URL. *)
Lemma add_source_new (url label : value) (u lb : string) (p : parsed_url)
    (s : app_state) (items : list value) :
  _coerce_str url = Ok u ->
  coerce_optional_str label = Ok lb ->
  registry_doc (links_file s) = VList items ->
  Forall has_url items ->
  existsb (field_is "url" u) items = false ->
  urlparse u = Ok p ->
  add_source url label s
  = (Ok (VList (items ++ [new_source u lb p (length items)
                            (clock_iso (clock_reads (app_store s)))])),
     AppState
       (FileJSON (VList (items ++ [new_source u lb p (length items)
                                     (clock_iso (clock_reads (app_store s)))])))
       (StoreState (cache_file (app_store s)) (S (clock_reads (app_store s))))
       (app_world s) (app_calls s)).
Proof.
  intros Hu Hlb Hreg Hwf Hnew Hp. unfold add_source. rewrite Hu, Hlb.
  unfold bind at 1, lift. unfold bind at 1, lift.
  unfold bind at 1. rewrite read_links_doc, Hreg.
  unfold bind at 1, lift. cbn [py_iter].
  unfold bind at 1, lift. rewrite (any_url_is_spec _ _ Hwf), Hnew.
  unfold bind at 1, lift. rewrite Hp.
  unfold bind at 1, lift. cbn [py_len].
  unfold bind at 1. rewrite in_store_now.
  unfold bind at 1, lift. cbn [py_append].
  unfold bind at 1, _write_links, modify. unfold ret.
  cbn [links_file app_store app_world app_calls]. reflexivity.
Qed.

(** [add_source] on a registry that has the URL. *)
Lemma add_source_known (url label : value) (u : string)
    (s : app_state) (items : list value) :
  _coerce_str url = Ok u ->
  registry_doc (links_file s) = VList items ->
  Forall has_url items ->
  existsb (field_is "url" u) items = true ->
  add_source url label s = (Ok (VList items), s).
Proof.
  intros Hu Hreg Hwf Hdup. unfold add_source. rewrite Hu.
  destruct (coerce_optional_str_returns label) as [lb ->].
  unfold bind at 1, lift. unfold bind at 1, lift.
  unfold bind at 1. rewrite read_links_doc, Hreg.
  unfold bind at 1, lift. cbn [py_iter].
  unfold bind at 1, lift. rewrite (any_url_is_spec _ _ Hwf), Hdup. reflexivity.
Qed.

End RegistryFacts.

Section RegistryTheorems.
Context {E : Env}.

Lemma add_source_unparsed (url label : value) (u : string) (e : exn)
    (s : app_state) (items : list value) :
  _coerce_str url = Ok u ->
  registry_doc (links_file s) = VList items ->
  Forall has_url items ->
  existsb (field_is "url" u) items = false ->
  urlparse u = Raise e ->
  add_source url label s = (Raise e, s).
Proof.
  intros Hu Hreg Hwf Hnew Hp. unfold add_source. rewrite Hu.
  destruct (coerce_optional_str_returns label) as [lb ->].
  unfold bind at 1, lift. unfold bind at 1, lift.
  unfold bind at 1. rewrite read_links_doc, Hreg.
  unfold bind at 1, lift. cbn [py_iter].
  unfold bind at 1, lift. rewrite (any_url_is_spec _ _ Hwf), Hnew.
  unfold bind at 1, lift. rewrite Hp. reflexivity.
Qed.

Lemma field_is_new_source (u lb : string) (p : parsed_url) (n : nat) (t : string) :
  field_is "url" u (new_source u lb p n t) = true.
Proof. unfold field_is, new_source. cbn. apply String.eqb_refl. Qed.

Lemma field_is_false (k s : string) (l : value) :
  field_is k s l = false -> finding_field k l <> Some (VStr s).
Proof.
  unfold field_is. intros H Heq. rewrite Heq in H. cbn in H.
  now rewrite String.eqb_refl in H.
Qed.

Lemma existsb_false_Forall {A} (f : A -> bool) (l : list A) :
  existsb f l = false -> Forall (fun x => f x = false) l.
Proof.
  induction l as [|x l IH]; cbn; [constructor|].
  intros [? ?]%orb_false_iff. constructor; auto.
Qed.

Lemma filter_survives_all (sid u : string) (items : list value) :
  existsb (field_is "id" sid) items = false ->
  existsb (field_is "url" u) items = false ->
  filter (fun l => survives sid u l = true) items = items.
Proof.
  induction items as [|x rest IH]; [reflexivity|]. cbn [existsb].
  intros [Hi Hri]%orb_false_iff [Hu Hru]%orb_false_iff.
  rewrite filter_cons_True by (unfold survives; now rewrite Hi, Hu).
  now rewrite IH.
Qed.

Lemma remove_source_run (source_id url : value) (sid u : string)
    (s : app_state) (items : list value) :
  coerce_optional_str source_id = Ok sid ->
  coerce_optional_str url = Ok u ->
  registry_doc (links_file s) = VList items ->
  Forall (fun l => is_dict l = true) items ->
  remove_source source_id url s
  = (Ok (VList (filter (fun l => survives sid u l = true) items)),
     AppState
       (FileJSON (VList (filter (fun l => survives sid u l = true) items)))
       (app_store s) (app_world s) (app_calls s)).
Proof.
  intros Hsid Hu Hreg Hd. unfold remove_source. rewrite Hsid, Hu.
  unfold bind at 1, lift. unfold bind at 1, lift.
  unfold bind at 1. rewrite read_links_doc, Hreg.
  unfold bind at 1, lift. cbn [py_len]. unfold bind at 1, lift. cbn [py_iter].
  unfold bind at 1, lift. rewrite (remove_matching_spec _ _ _ Hd).
  reflexivity.
Qed.

(** X26: [add_source] of a URL that the registry has returns the
    registry and changes nothing: no write, no clock reading. *)
Theorem add_source_duplicate_is_noop (url label : value) (u : string)
    (s : app_state) (items : list value) :
  _coerce_str url = Ok u ->
  registry_doc (links_file s) = VList items ->
  Forall has_url items ->
  existsb (field_is "url" u) items = true ->
  add_source url label s = (Ok (VList items), s).
Proof. apply add_source_known. Qed.

(** X27: [add_source] of a URL that the registry does not have appends
    one entry: its id is the host with dots turned to dashes, a dash and
    the number of sources before; its label is the one given, else the
    path without outer slashes, else the host.  The registry file holds
    the new list, the cache file and the network are untouched,
    [list_sources] then returns the new list, and adding the same URL
    again changes nothing. *)
Theorem add_source_appends (url label : value) (u lb : string) (p : parsed_url)
    (s : app_state) (items : list value) :
  _coerce_str url = Ok u ->
  coerce_optional_str label = Ok lb ->
  registry_doc (links_file s) = VList items ->
  Forall has_url items ->
  existsb (field_is "url" u) items = false ->
  urlparse u = Ok p ->
  exists s',
    let added :=
      items ++ [new_source u lb p (length items)
                  (clock_iso (clock_reads (app_store s)))] in
    add_source url label s = (Ok (VList added), s')
    /\ links_file s' = FileJSON (VList added)
    /\ cache_file (app_store s') = cache_file (app_store s)
    /\ app_calls s' = app_calls s
    /\ list_sources s' = (Ok (VList added), s')
    /\ add_source url label s' = (Ok (VList added), s').
Proof.
  intros Hu Hlb Hreg Hwf Hnew Hp.
  rewrite (add_source_new _ _ _ _ _ _ _ Hu Hlb Hreg Hwf Hnew Hp).
  eexists. cbn zeta. split; [reflexivity|].
  cbn [links_file app_store cache_file app_calls].
  split; [reflexivity|]. split; [reflexivity|]. split; [reflexivity|]. split.
  - unfold list_sources, bind. rewrite read_links_doc. reflexivity.
  - apply (add_source_known _ _ u); auto.
    + apply Forall_app. split; [exact Hwf|]. constructor; [|constructor].
      eexists. reflexivity.
    + rewrite existsb_app. cbn [existsb]. rewrite field_is_new_source.
      now rewrite orb_true_r.
Qed.

(** X28: [add_source] keeps a registry well formed: when the entries
    have a [url] and no two have the same, so it is afterwards; the
    entries there stay, in order, with at most one more at the end. *)
Theorem add_source_keeps_urls_distinct (url label : value) (s s' : app_state)
    (items : list value) (r : value) :
  registry_doc (links_file s) = VList items ->
  Forall has_url items ->
  NoDup (map (finding_field "url") items) ->
  add_source url label s = (Ok r, s') ->
  exists items',
    r = VList items'
    /\ registry_doc (links_file s') = VList items'
    /\ Forall has_url items'
    /\ NoDup (map (finding_field "url") items')
    /\ (items' = items \/ exists l, items' = items ++ [l]).
Proof.
  intros Hreg Hwf Hnd H.
  destruct (_coerce_str_returns url) as [u Hu].
  destruct (coerce_optional_str_returns label) as [lb Hlb].
  destruct (existsb (field_is "url" u) items) eqn:Hex.
  - rewrite (add_source_known _ _ _ _ _ Hu Hreg Hwf Hex) in H. injection H as <- <-.
    exists items. repeat split; auto.
  - destruct (urlparse u) as [p|e] eqn:Hp.
    + rewrite (add_source_new _ _ _ _ _ _ _ Hu Hlb Hreg Hwf Hex Hp) in H.
      injection H as <- <-. eexists. split; [reflexivity|].
      cbn [links_file registry_doc]. split; [reflexivity|]. split; [|split].
      * apply Forall_app. split; [exact Hwf|]. constructor; [|constructor].
        eexists. reflexivity.
      * rewrite map_app. apply NoDup_app. split; [exact Hnd|]. split.
        -- intros x Hx Hx'. cbn in Hx'. apply list_elem_of_singleton in Hx'. subst x.
           apply list_elem_of_In, in_map_iff in Hx as (l & Hl & Hin).
           apply existsb_false_Forall in Hex. rewrite Forall_forall in Hex.
           apply list_elem_of_In in Hin.
           exact (field_is_false _ _ _ (Hex l Hin) Hl).
        -- cbn. apply NoDup_singleton.
      * right. eauto.
    + rewrite (add_source_unparsed _ _ _ _ _ _ Hu Hreg Hwf Hex Hp) in H. discriminate.
Qed.

(** X29: [remove_source] keeps exactly the entries whose id is not the
    id given and whose URL is not the URL given, in order, and writes
    them; the cache and the network are untouched, and removing again
    changes nothing. *)
Theorem remove_source_filters (source_id url : value) (sid u : string)
    (s : app_state) (items : list value) :
  coerce_optional_str source_id = Ok sid ->
  coerce_optional_str url = Ok u ->
  registry_doc (links_file s) = VList items ->
  Forall (fun l => is_dict l = true) items ->
  exists s',
    let kept := filter (fun l => survives sid u l = true) items in
    remove_source source_id url s = (Ok (VList kept), s')
    /\ links_file s' = FileJSON (VList kept)
    /\ app_store s' = app_store s
    /\ app_calls s' = app_calls s
    /\ remove_source source_id url s' = (Ok (VList kept), s').
Proof.
  intros Hsid Hu Hreg Hd.
  pose proof (fun s0 l0 => remove_source_run source_id url sid u s0 l0 Hsid Hu)
    as Hrun.
  rewrite (Hrun s items Hreg Hd). eexists. cbn zeta. split; [reflexivity|].
  cbn [links_file app_store app_calls].
  split; [reflexivity|]. split; [reflexivity|]. split; [reflexivity|].
  erewrite Hrun; [|reflexivity|].
  - cbn [app_store app_world app_calls]. rewrite list_filter_filter.
    erewrite list_filter_iff; [reflexivity|]. intros x. cbn. tauto.
  - apply Forall_forall. intros x Hx. apply list_elem_of_filter in Hx as [_ Hx].
    rewrite Forall_forall in Hd. auto.
Qed.

(** X30: adding a URL that the registry does not have, then removing
    it by URL, gives the registry back, provided no entry has the empty
    id (the default [source_id], which [remove_source] would match). *)
Theorem add_then_remove_source (label : value) (u lb : string) (p : parsed_url)
    (s : app_state) (items : list value) :
  coerce_optional_str label = Ok lb ->
  registry_doc (links_file s) = VList items ->
  Forall has_url items ->
  existsb (field_is "url" u) items = false ->
  existsb (field_is "id" "") items = false ->
  urlparse u = Ok p ->
  exists r1 s1 s2,
    add_source (VStr u) label s = (Ok r1, s1)
    /\ remove_source (VStr "") (VStr u) s1 = (Ok (VList items), s2)
    /\ links_file s2 = FileJSON (VList items).
Proof.
  intros Hlb Hreg Hwf Hnew Hid Hp.
  rewrite (add_source_new _ _ _ _ _ _ _ (_coerce_str_str u) Hlb Hreg Hwf Hnew Hp).
  set (added := items ++ [new_source u lb p (length items)
                            (clock_iso (clock_reads (app_store s)))]).
  assert (Hkeep : filter (fun l => survives "" u l = true) added = items).
  { unfold added. rewrite filter_app, filter_cons_False, filter_nil, app_nil_r.
    - now apply filter_survives_all.
    - unfold survives. rewrite field_is_new_source. cbn. rewrite andb_false_r.
      discriminate. }
  assert (Hd : Forall (fun l => is_dict l = true) added).
  { apply Forall_app. split; [|constructor; [reflexivity | constructor]].
    eapply Forall_impl; [exact Hwf|]. intros x Hx.
    apply has_url_dict in Hx as (d & v & -> & _). reflexivity. }
  set (s1 := AppState (FileJSON (VList added))
               (StoreState (cache_file (app_store s)) (S (clock_reads (app_store s))))
               (app_world s) (app_calls s)).
  exists (VList added), s1.
  rewrite (remove_source_run (VStr "") (VStr u) "" u s1 added
             (coerce_optional_str_str "") (coerce_optional_str_str u) eq_refl Hd).
  rewrite Hkeep. eexists. split; [reflexivity|]. split; reflexivity.
Qed.

End RegistryTheorems.

(* ------------------------------------------------------------------ *)
(** * The theorems at work on the course site *)
(* ------------------------------------------------------------------ *)

(** C1 fails as stated, in two ways.  With [max_subpages = -1] the seed
    page is still fetched: one successful fetch, where the claim allows
    [1 + (-1) = 0].  And with budget 1 the crawl of the lab site makes
    three successful fetches, where the claim allows [1 + 1]: the second
    came back with markup that the parser rejects, which is recorded in
    [errors] and leaves the budget as it was. *)
Lemma crawl_successful_fetches_exceed_budget :
  (successful_fetches
     (cs_calls (snd (run_crawl (E:=ex_env) (VStr ex_home) (VInt (-1)) 0%nat)))
   = 1%nat
   /\ ~ (Z.of_nat
           (successful_fetches
              (cs_calls
                 (snd (run_crawl (E:=ex_env) (VStr ex_home) (VInt (-1)) 0%nat))))
         <= 1 + -1))
  /\ (cs_calls (snd (run_crawl (E:=ex_env) (VStr ex_lab) (VInt 1) 0%nat))
      = [NetCall ex_lab true; NetCall ex_lab_broken true;
         NetCall ex_lab_week1 true]
      /\ errors (cs_results (snd (run_crawl (E:=ex_env) (VStr ex_lab) (VInt 1) 0%nat)))
         = [ErrorEntry ex_lab_broken (exn_msg ex_rejected)]
      /\ ~ (Z.of_nat
              (successful_fetches
                 (cs_calls
                    (snd (run_crawl (E:=ex_env) (VStr ex_lab) (VInt 1) 0%nat))))
            <= 1 + 1)).
Proof.
  assert (Hn : successful_fetches
                 (cs_calls (snd (run_crawl (E:=ex_env) (VStr ex_home) (VInt (-1)) 0%nat)))
               = 1%nat) by (vm_compute; reflexivity).
  assert (Hc : cs_calls (snd (run_crawl (E:=ex_env) (VStr ex_lab) (VInt 1) 0%nat))
               = [NetCall ex_lab true; NetCall ex_lab_broken true;
                  NetCall ex_lab_week1 true]) by (vm_compute; reflexivity).
  split; [split; [exact Hn | rewrite Hn; lia]|].
  assert (Hs : successful_fetches
                 (cs_calls (snd (run_crawl (E:=ex_env) (VStr ex_lab) (VInt 1) 0%nat)))
               = 3%nat) by (vm_compute; reflexivity).
  split; [exact Hc|]. split; [vm_compute; reflexivity|].
  rewrite Hs. lia.
Qed.

(** The crawl of the lab site with budget 1, and in it the follow of the
    page that the parser rejects. *)
Lemma crawl_successful_fetches_bound_witness :
  (exists res s',
     run_crawl (E:=ex_env) (VStr ex_lab) (VInt 1) 0%nat = (Ok res, s')
     /\ Z.of_nat (length (pages_crawled res)) <= 1 + Z.max 0 1
     /\ (length (pages_crawled res) <= successful_fetches (cs_calls s'))%nat
     /\ (successful_fetches (cs_calls s') + failed_fetches (cs_calls s')
         <= length (pages_crawled res) + length (errors res))%nat)
  /\ follow_fails (E:=ex_env) ex_lab_broken
       (CrawlState (E:=ex_env) 1%nat [NetCall ex_lab true]
          (CrawlResult ex_lab [] [] []))
     = Some (ex_rejected,
             CrawlState (E:=ex_env) 2%nat
               [NetCall ex_lab true; NetCall ex_lab_broken true]
               (CrawlResult ex_lab [] [] []))
  /\ follow_links (E:=ex_env) 1 0
       [Link ex_lab_broken "Lab rules"; Link ex_lab_week1 "Lab 1"]
       (CrawlState (E:=ex_env) 1%nat [NetCall ex_lab true]
          (CrawlResult ex_lab [] [] []))
     = follow_links (E:=ex_env) 1 0 [Link ex_lab_week1 "Lab 1"]
         (with_error
            (CrawlState (E:=ex_env) 2%nat
               [NetCall ex_lab true; NetCall ex_lab_broken true]
               (CrawlResult ex_lab [] [] []))
            (ErrorEntry ex_lab_broken (exn_msg ex_rejected))).
Proof.
  split; [exact (proj1 (crawl_successful_fetches_bound (E:=ex_env)
                          (VStr ex_lab) 1 0%nat))|].
  split; [vm_compute; reflexivity|].
  apply (proj2 (crawl_successful_fetches_bound (E:=ex_env) (VStr ex_lab) 1 0%nat)
           (Link ex_lab_broken "Lab rules") [Link ex_lab_week1 "Lab 1"] 0
           (ParsedUrl "http" "lab.example" "/broken.html")).
  - reflexivity.
  - vm_compute. reflexivity.
  - vm_compute. reflexivity.
  - vm_compute. reflexivity.
Defined.

(** C2 fails as stated: with budget 1 the crawl of the course site makes
    three network calls (the seed, the first homework page that answers
    500, the second homework page), where the claim allows [1 + 1]. *)
Lemma crawl_failed_follow_exceeds_calls :
  cs_calls (snd (run_crawl (E:=ex_env) (VStr ex_home) (VInt 1) 0%nat))
  = [NetCall ex_home true; NetCall ex_hw1 false; NetCall ex_hw2 true]
  /\ ~ (Z.of_nat
          (length (cs_calls (snd (run_crawl (E:=ex_env) (VStr ex_home) (VInt 1) 0%nat))))
        <= 1 + 1).
Proof.
  assert (Hc : cs_calls (snd (run_crawl (E:=ex_env) (VStr ex_home) (VInt 1) 0%nat))
               = [NetCall ex_home true; NetCall ex_hw1 false; NetCall ex_hw2 true])
    by (vm_compute; reflexivity).
  split; [exact Hc|]. rewrite Hc. cbn. lia.
Qed.

(** A crawl whose seed answers 500. *)
Lemma crawl_source_seed_failure_witness :
  fetch_error (E:=ex_env) ex_hw1 0%nat = Some (Exn HTTPError "HTTP status 500")
  /\ exists s',
       run_crawl (E:=ex_env) (VStr ex_hw1) (VInt 10) 0%nat
       = (Ok (CrawlResult ex_hw1 [] [] [ErrorEntry ex_hw1 "HTTP status 500"]), s')
       /\ cs_calls s' = [NetCall ex_hw1 false].
Proof.
  split; [vm_compute; reflexivity|].
  apply (crawl_source_seed_failure (E:=ex_env) ex_hw1 10 0%nat
           (Exn HTTPError "HTTP status 500")).
  vm_compute. reflexivity.
Defined.

(** The links of the course homepage. *)
Lemma extract_links_dedup_first_witness :
  _extract_links (E:=ex_env) ex_home_html ex_home
  = Ok [Link ex_hw1 "Homework 1"; Link ex_hw2 "Homework 2"; Link ex_notes "Notes"]
  /\ NoDup (l_url <$> [Link ex_hw1 "Homework 1"; Link ex_hw2 "Homework 2";
                       Link ex_notes "Notes"]).
Proof.
  assert (H : _extract_links (E:=ex_env) ex_home_html ex_home
              = Ok [Link ex_hw1 "Homework 1"; Link ex_hw2 "Homework 2";
                    Link ex_notes "Notes"]) by (vm_compute; reflexivity).
  split; [exact H|].
  exact (proj1 (proj2 (extract_links_dedup_first (E:=ex_env) _ _ _ H))).
Defined.



(** C4 fails as stated: a batch that holds the id [hw1] twice, saved
    into an empty store, leaves two stored findings with that id. *)
Lemma save_findings_keeps_batch_duplicates :
  stored_findings
    (snd (save_findings (E:=ex_env) (VList ex_twice) (StoreState FileMissing 0)))
  = Some [VDict [("id", VStr "hw1"); ("title", VStr "first");
                 ("savedAt", VStr "2025-02-01T12:00:00")];
          VDict [("id", VStr "hw1"); ("title", VStr "second");
                 ("savedAt", VStr "2025-02-01T12:00:01")]]
  /\ unique_ids
       [VDict [("id", VStr "hw1"); ("title", VStr "first");
               ("savedAt", VStr "2025-02-01T12:00:00")];
        VDict [("id", VStr "hw1"); ("title", VStr "second");
               ("savedAt", VStr "2025-02-01T12:00:01")]]
     = false.
Proof. split; vm_compute; reflexivity. Qed.

(** Saving [ex_batch], whose ids are distinct, into [ex_store]. *)
Lemma save_findings_unique_ids_witness :
  exists submitted persisted,
    Forall2 stamped_version
      (filter (fun f => is_dict f = true) ex_batch) submitted
    /\ stored_findings
         (snd (save_findings (E:=ex_env) (VList ex_batch) ex_store))
       = Some persisted
    /\ persisted = upsert_by_id [ex_old_hw1; ex_old_quiz] submitted
    /\ unique_ids persisted = unique_ids submitted.
Proof.
  apply (save_findings_unique_ids (E:=ex_env) (VList ex_batch) ex_batch
           [ex_old_hw1; ex_old_quiz] ex_store
           (snd (save_findings (E:=ex_env) (VList ex_batch) ex_store))
           (VDict [("saved", VInt 2); ("total", VInt 3)])).
  - reflexivity.
  - reflexivity.
  - vm_compute. reflexivity.
  - vm_compute. reflexivity.
Defined.

(** Saving the revised first homework twice. *)
Lemma save_findings_resubmission_witness :
  exists r2 s2 l1 l2,
    save_findings (E:=ex_env) (VDict ex_new_hw1)
      (snd (save_findings (E:=ex_env) (VDict ex_new_hw1) ex_store))
    = (Ok r2, s2)
    /\ stored_findings
         (snd (save_findings (E:=ex_env) (VDict ex_new_hw1) ex_store)) = Some l1
    /\ stored_findings s2 = Some l2
    /\ filter (fun f => same_id f (VDict ex_new_hw1) = true) l2
       = [with_saved_at "2025-02-01T12:00:02" ex_new_hw1]
    /\ length l2 = length l1
    /\ VDict [("saved", VInt 1); ("total", VInt 2)]
       = VDict [("saved", VInt 1); ("total", VInt (Z.of_nat (length l1)))]
    /\ r2 = VDict [("saved", VInt 1); ("total", VInt (Z.of_nat (length l2)))].
Proof.
  apply (save_findings_resubmission (E:=ex_env) (VDict ex_new_hw1) ex_new_hw1
           [ex_old_hw1; ex_old_quiz] ex_store
           (snd (save_findings (E:=ex_env) (VDict ex_new_hw1) ex_store))
           (VDict [("saved", VInt 1); ("total", VInt 2)])).
  - reflexivity.
  - reflexivity.
  - reflexivity.
  - vm_compute. reflexivity.
Defined.

(** C7, at the failing input: on 1100 opening brackets [json.loads]
    raises RecursionError, which is no ValueError, and [save_findings]
    raises it instead of returning the error object; a string that is
    not JSON gives the error object. *)
Lemma save_findings_parse_failure_witness :
  json_loads (Env:=ex_env) ex_deep_json = Raise ex_too_deep
  /\ save_findings (E:=ex_env) (VStr ex_deep_json) ex_store
     = (Raise ex_too_deep, ex_store)
  /\ save_findings (E:=ex_env) (VStr "not json") ex_store
     = (Ok (VDict [("error", VStr "findings must be a JSON array of objects");
                   ("saved", VInt 0)]), ex_store).
Proof.
  split; [vm_compute; reflexivity|]. split.
  - apply (save_findings_parse_failure (E:=ex_env) ex_deep_json ex_too_deep
             ex_store).
    vm_compute. reflexivity.
  - apply (save_findings_parse_failure (E:=ex_env) "not json"
             (Exn JSONDecodeError "Expecting value: line 1 column 1 (char 0)")
             ex_store).
    reflexivity.
Defined.

(** Saving a lone object that has no id. *)
Lemma save_findings_single_object_witness :
  save_findings (E:=ex_env) (VDict ex_new_exam) ex_store
  = save_findings (E:=ex_env) (VList [VDict ex_new_exam]) ex_store
  /\ exists f',
       stamped_version (VDict ex_new_exam) f'
       /\ finding_field "savedAt" f' = Some (VStr "2025-02-01T12:00:00")
       /\ stored_findings
            (snd (save_findings (E:=ex_env) (VDict ex_new_exam) ex_store))
          = Some (filter (fun f => same_id f f' = false)
                    [ex_old_hw1; ex_old_quiz] ++ [f'])
       /\ VDict [("saved", VInt 1); ("total", VInt 3)]
          = VDict [("saved", VInt 1);
                   ("total",
                    VInt (Z.of_nat
                            (length (filter (fun f => same_id f f' = false)
                                       [ex_old_hw1; ex_old_quiz] ++ [f']))))].
Proof.
  apply (save_findings_single_object (E:=ex_env) (VDict ex_new_exam) ex_new_exam
           [ex_old_hw1; ex_old_quiz] ex_store
           (snd (save_findings (E:=ex_env) (VDict ex_new_exam) ex_store))
           (VDict [("saved", VInt 1); ("total", VInt 3)])).
  - left. reflexivity.
  - reflexivity.
  - vm_compute. reflexivity.
Defined.


(* ------------------------------------------------------------------ *)
(** * The other tools at work on the course site *)
(* ------------------------------------------------------------------ *)

(** A budget of [1e999], which [json.loads] reads as the float
    infinity. *)
Lemma coerce_int_raises_only_wrapped_witness :
  _coerce_int (E:=ex_env) (VFloat (FInf false)) 10
  = Raise (Exn OverflowError "cannot convert float infinity to integer")
  /\ ((exists d k v,
         VFloat (FInf false) = VDict d
         /\ dict_get k d = Some v
         /\ py_int (E:=ex_env) v
            = Raise (Exn OverflowError "cannot convert float infinity to integer"))
      \/ ((exists s, VFloat (FInf false) = VFloat (FInf s))
          /\ py_int (E:=ex_env) (VFloat (FInf false))
             = Raise (Exn OverflowError "cannot convert float infinity to integer")
          /\ exn_cls (Exn OverflowError "cannot convert float infinity to integer")
             = OverflowError)).
Proof.
  split; [reflexivity|].
  apply (coerce_int_raises_only_wrapped (E:=ex_env) (VFloat (FInf false)) 10).
  reflexivity.
Defined.

(** The URL of the first homework has [hw] in it. *)
Lemma looks_interesting_either_part_witness :
  _looks_interesting ex_hw1 "Read me" = true.
Proof.
  apply looks_interesting_either_part. left. vm_compute. reflexivity.
Defined.

(** The fetch of the second homework. *)
Lemma fetch_page_helper_result_witness :
  exists r,
    httpx_get (Env:=ex_env) ex_hw2 0%nat = (Ok r, 1%nat)
    /\ is_success (resp_status r) = true
    /\ ex_hw2 = resp_url r
    /\ (if str_contains "text/html" (default "" (resp_content_type r))
           || str_contains "text/plain" (default "" (resp_content_type r))
        then "Problem set 2" = take_str (Z.to_nat MAX_CONTENT_LENGTH) (resp_text r)
             /\ Z.of_nat (String.length "Problem set 2") <= MAX_CONTENT_LENGTH
        else "Problem set 2"
             = ("(Non-HTML content: " ++ default "" (resp_content_type r)
                ++ ")")%string).
Proof.
  apply (fetch_page_helper_result (E:=ex_env) ex_hw2
           (CrawlState (E:=ex_env) 0%nat [] (CrawlResult "" [] [] []))
           (CrawlState (E:=ex_env) 1%nat [NetCall ex_hw2 true]
              (CrawlResult "" [] [] []))
           "Problem set 2" ex_hw2).
  vm_compute. reflexivity.
Defined.

(** A crawl of the course site with budget 0. *)
Lemma crawl_source_nonpositive_budget_witness :
  exists u res s' ok,
    _coerce_str (E:=ex_env) (VStr ex_home) = Ok u
    /\ run_crawl (E:=ex_env) (VStr ex_home) (VInt 0) 0%nat = (Ok res, s')
    /\ cs_calls s' = [NetCall u ok]
    /\ (length (pages_crawled res) <= 1)%nat.
Proof.
  apply (crawl_source_nonpositive_budget (E:=ex_env) (VStr ex_home) 0 0%nat). lia.
Defined.

Lemma ex_registry_has_url : Forall has_url ex_registry.
Proof. repeat (constructor; [eexists; reflexivity|]). constructor. Qed.

(** A sweep of the two sources with budget 1. *)
Lemma crawl_all_sources_entry_per_source_witness :
  exists r s' new,
    crawl_all_sources (E:=ex_env) (VInt 1) ex_app = (Ok r, s')
    /\ sources_crawled r = length ex_registry
    /\ length (sweep_results r) = length ex_registry
    /\ sweep_run (E:=ex_env) 1 (app_world ex_app) ex_registry (sweep_results r)
         new (app_world s')
    /\ app_calls s' = app_calls ex_app ++ new
    /\ links_file s' = links_file ex_app.
Proof.
  apply (crawl_all_sources_entry_per_source (E:=ex_env) (VInt 1) 1 ex_app
           ex_registry ex_cache).
  - reflexivity.
  - reflexivity.
  - exact ex_registry_has_url.
  - reflexivity.
Defined.

Lemma crawl_all_sources_overwrites_log_witness :
  exists r s' d',
    crawl_all_sources (E:=ex_env) (VInt 1) ex_app = (Ok r, s')
    /\ cache_file (app_store s') = FileJSON (VDict d')
    /\ dict_get "crawlLog" d'
       = Some (VList [crawl_log_entry
                        (clock_iso (Env:=ex_env) (clock_reads (app_store ex_app)))
                        (length ex_registry) (total_pages (sweep_results r))])
    /\ dict_get "lastUpdated" d'
       = Some (VStr (clock_iso (Env:=ex_env) (S (clock_reads (app_store ex_app)))))
    /\ (forall k, k <> "crawlLog" -> k <> "lastUpdated" ->
                  dict_get k d' = dict_get k ex_cache)
    /\ clock_reads (app_store s') = S (S (clock_reads (app_store ex_app))).
Proof.
  apply (crawl_all_sources_overwrites_log (E:=ex_env) (VInt 1) 1 ex_app
           ex_registry ex_cache).
  - reflexivity.
  - reflexivity.
  - exact ex_registry_has_url.
  - reflexivity.
Defined.

Lemma crawl_all_sources_fetch_budget_witness :
  exists r s' new,
    crawl_all_sources (E:=ex_env) (VInt 1) ex_app = (Ok r, s')
    /\ app_calls s' = app_calls ex_app ++ new
    /\ Z.of_nat (total_pages (sweep_results r))
       <= Z.of_nat (length ex_registry) * (1 + Z.max 0 1)
    /\ (total_pages (sweep_results r) <= successful_fetches new)%nat.
Proof.
  apply (crawl_all_sources_fetch_budget (E:=ex_env) (VInt 1) 1 ex_app
           ex_registry ex_cache).
  - reflexivity.
  - reflexivity.
  - exact ex_registry_has_url.
  - reflexivity.
Defined.

(** A sweep that meets an entry without a [url]. *)
Lemma crawl_all_sources_missing_url_witness :
  exists s' new,
    crawl_all_sources (E:=ex_env) (VInt 1) ex_broken_app
    = (Raise (Exn KeyError "url"), s')
    /\ app_store s' = app_store ex_broken_app
    /\ links_file s' = links_file ex_broken_app
    /\ app_calls s' = app_calls ex_broken_app ++ new
    /\ (length [ex_source_course] <= length new)%nat.
Proof.
  apply (crawl_all_sources_missing_url (E:=ex_env) (VInt 1) 1 ex_broken_app
           [ex_source_course] ex_no_url []).
  - reflexivity.
  - reflexivity.
  - constructor; [eexists; reflexivity | constructor].
  - reflexivity.
Defined.

(** Listing the two findings of [ex_store]. *)
Lemma list_findings_unfiltered_witness :
  exists s' d',
    list_findings (E:=ex_env) (VStr "") ex_store
    = (Ok (VList [ex_old_hw1; ex_old_quiz]), s')
    /\ stored_findings s' = Some [ex_old_hw1; ex_old_quiz]
    /\ cache_file s' = FileJSON (VDict d')
    /\ dict_get "lastUpdated" d'
       = Some (VStr (clock_iso (Env:=ex_env) (clock_reads ex_store)))
    /\ clock_reads s' = S (clock_reads ex_store).
Proof.
  apply (list_findings_unfiltered (E:=ex_env) (VStr "") ex_store
           [ex_old_hw1; ex_old_quiz]).
  - reflexivity.
  - reflexivity.
Defined.

Lemma list_findings_by_type_witness :
  exists s',
    list_findings (E:=ex_env) (VStr "exam") ex_store
    = (Ok (VList (filter (fun f => field_is "type" "exam" f = true)
                    [ex_old_hw1; ex_old_quiz])), s')
    /\ stored_findings s' = Some [ex_old_hw1; ex_old_quiz].
Proof.
  apply (list_findings_by_type (E:=ex_env) (VStr "exam") "exam" ex_store
           [ex_old_hw1; ex_old_quiz]).
  - reflexivity.
  - discriminate.
  - reflexivity.
  - repeat constructor.
Defined.

Lemma clear_findings_resets_witness :
  exists s' d' s'',
    clear_findings (E:=ex_env) ex_store = (Ok (VDict [("cleared", VBool true)]), s')
    /\ stored_findings s' = Some []
    /\ cache_file s' = FileJSON (VDict d')
    /\ (forall k, k <> "findings" -> k <> "lastUpdated" ->
                  dict_get k d' = dict_get k ex_cache)
    /\ list_findings (E:=ex_env) (VStr "exam") s' = (Ok (VList []), s'').
Proof.
  apply (clear_findings_resets (E:=ex_env) ex_store ex_cache (VStr "exam")).
  reflexivity.
Defined.

(** The store tools on a cache file that holds a list. *)
Lemma store_tools_reject_non_object_witness :
  (exists e, clear_findings (E:=ex_env) ex_list_store = (Raise e, ex_list_store)
             /\ exn_cls e = TypeError)
  /\ (exists e, list_findings (E:=ex_env) (VStr "") ex_list_store
                = (Raise e, ex_list_store)
                /\ exn_cls e = AttributeError)
  /\ (exists e, save_findings (E:=ex_env) (VList []) ex_list_store
                = (Raise e, ex_list_store)
                /\ exn_cls e = AttributeError).
Proof.
  apply (store_tools_reject_non_object (E:=ex_env) ex_list_store (VList [])
           (VStr "") []).
  - reflexivity.
  - reflexivity.
Defined.

(** Saving [ex_batch], two objects and a number, into [ex_store]. *)
Lemma save_findings_report_witness :
  exists persisted,
    stored_findings (snd (save_findings (E:=ex_env) (VList ex_batch) ex_store))
    = Some persisted
    /\ VDict [("saved", VInt 2); ("total", VInt 3)]
       = VDict
           [("saved",
             VInt (Z.of_nat (length (filter (fun f => is_dict f = true) ex_batch))));
            ("total", VInt (Z.of_nat (length persisted)))]
    /\ (length (filter (fun f => is_dict f = true) ex_batch) <= length persisted)%nat
    /\ (length persisted
        <= length [ex_old_hw1; ex_old_quiz]
           + length (filter (fun f => is_dict f = true) ex_batch))%nat.
Proof.
  apply (save_findings_report (E:=ex_env) (VList ex_batch) ex_batch
           [ex_old_hw1; ex_old_quiz] ex_store
           (snd (save_findings (E:=ex_env) (VList ex_batch) ex_store))
           (VDict [("saved", VInt 2); ("total", VInt 3)])).
  - reflexivity.
  - reflexivity.
  - vm_compute. reflexivity.
Defined.

Lemma save_findings_then_list_witness :
  exists persisted s'',
    list_findings (E:=ex_env) (VStr "")
      (snd (save_findings (E:=ex_env) (VList ex_batch) ex_store))
    = (Ok (VList persisted), s'')
    /\ stored_findings s'' = Some persisted
    /\ finding_field "total" (VDict [("saved", VInt 2); ("total", VInt 3)])
       = Some (VInt (Z.of_nat (length persisted))).
Proof.
  apply (save_findings_then_list (E:=ex_env) (VList ex_batch) ex_batch
           [ex_old_hw1; ex_old_quiz] ex_store
           (snd (save_findings (E:=ex_env) (VList ex_batch) ex_store))
           (VDict [("saved", VInt 2); ("total", VInt 3)])).
  - reflexivity.
  - reflexivity.
  - vm_compute. reflexivity.
Defined.

(** Saving a batch that holds a number only. *)
Lemma save_findings_ignores_non_objects_witness :
  exists s',
    save_findings (E:=ex_env) (VList [VInt 3]) ex_store
    = (Ok (VDict [("saved", VInt 0);
                  ("total", VInt (Z.of_nat (length [ex_old_hw1; ex_old_quiz])))]),
       s')
    /\ stored_findings s' = Some [ex_old_hw1; ex_old_quiz]
    /\ clock_reads s' = S (clock_reads ex_store).
Proof.
  apply (save_findings_ignores_non_objects (E:=ex_env) (VList [VInt 3]) [VInt 3]
           [ex_old_hw1; ex_old_quiz] ex_store).
  - reflexivity.
  - repeat constructor.
  - reflexivity.
  - repeat (constructor; [eexists; reflexivity|]). constructor.
Defined.

(** Saving into a store that holds a finding whose id is a list. *)
Lemma save_findings_unhashable_stored_id_witness :
  exists e' s',
    save_findings (E:=ex_env) (VList []) ex_bad_id_store = (Raise e', s')
    /\ cache_file s' = cache_file ex_bad_id_store.
Proof.
  apply (save_findings_unhashable_stored_id (E:=ex_env) (VList []) [] [ex_bad_id]
           ex_bad_id_store ex_bad_id (Exn TypeError "unhashable type")).
  - reflexivity.
  - reflexivity.
  - left. reflexivity.
  - reflexivity.
Defined.

(** Adding the course homepage, which the registry has. *)
Lemma add_source_duplicate_is_noop_witness :
  add_source (E:=ex_env) (VStr ex_home) (VStr "again") ex_app
  = (Ok (VList ex_registry), ex_app).
Proof.
  apply (add_source_duplicate_is_noop (E:=ex_env) (VStr ex_home) (VStr "again")
           ex_home ex_app ex_registry).
  - reflexivity.
  - reflexivity.
  - exact ex_registry_has_url.
  - reflexivity.
Defined.

(** Adding a third source, without a label. *)
Lemma add_source_appends_witness :
  exists s',
    let added :=
      ex_registry ++ [new_source ex_other "" ex_other_parsed (length ex_registry)
                        (clock_iso (Env:=ex_env) (clock_reads (app_store ex_app)))] in
    add_source (E:=ex_env) (VStr ex_other) (VStr "") ex_app = (Ok (VList added), s')
    /\ links_file s' = FileJSON (VList added)
    /\ cache_file (app_store s') = cache_file (app_store ex_app)
    /\ app_calls s' = app_calls ex_app
    /\ list_sources s' = (Ok (VList added), s')
    /\ add_source (E:=ex_env) (VStr ex_other) (VStr "") s' = (Ok (VList added), s').
Proof.
  apply (add_source_appends (E:=ex_env) (VStr ex_other) (VStr "") ex_other ""
           ex_other_parsed ex_app ex_registry).
  - reflexivity.
  - reflexivity.
  - reflexivity.
  - exact ex_registry_has_url.
  - reflexivity.
  - reflexivity.
Defined.

Lemma ex_registry_distinct : NoDup (map (finding_field "url") ex_registry).
Proof.
  cbn. apply NoDup_cons. split; [|apply NoDup_singleton].
  intros H. apply list_elem_of_singleton in H. discriminate.
Qed.

Lemma add_source_keeps_urls_distinct_witness :
  exists items',
    VList (ex_registry
           ++ [new_source ex_other "" ex_other_parsed 2 "2025-02-01T12:00:00"])
    = VList items'
    /\ registry_doc
         (links_file (snd (add_source (E:=ex_env) (VStr ex_other) (VStr "") ex_app)))
       = VList items'
    /\ Forall has_url items'
    /\ NoDup (map (finding_field "url") items')
    /\ (items' = ex_registry \/ exists l, items' = ex_registry ++ [l]).
Proof.
  apply (add_source_keeps_urls_distinct (E:=ex_env) (VStr ex_other) (VStr "") ex_app
           (snd (add_source (E:=ex_env) (VStr ex_other) (VStr "") ex_app))
           ex_registry).
  - reflexivity.
  - exact ex_registry_has_url.
  - exact ex_registry_distinct.
  - vm_compute. reflexivity.
Defined.

(** Removing the source that is down, by URL. *)
Lemma remove_source_filters_witness :
  exists s',
    let kept := filter (fun l => survives "" ex_down l = true) ex_registry in
    remove_source (E:=ex_env) (VStr "") (VStr ex_down) ex_app = (Ok (VList kept), s')
    /\ links_file s' = FileJSON (VList kept)
    /\ app_store s' = app_store ex_app
    /\ app_calls s' = app_calls ex_app
    /\ remove_source (E:=ex_env) (VStr "") (VStr ex_down) s' = (Ok (VList kept), s').
Proof.
  apply (remove_source_filters (E:=ex_env) (VStr "") (VStr ex_down) "" ex_down
           ex_app ex_registry).
  - reflexivity.
  - reflexivity.
  - reflexivity.
  - repeat constructor.
Defined.

Lemma add_then_remove_source_witness :
  exists r1 s1 s2,
    add_source (E:=ex_env) (VStr ex_other) (VStr "") ex_app = (Ok r1, s1)
    /\ remove_source (E:=ex_env) (VStr "") (VStr ex_other) s1
       = (Ok (VList ex_registry), s2)
    /\ links_file s2 = FileJSON (VList ex_registry).
Proof.
  apply (add_then_remove_source (E:=ex_env) (VStr "") ex_other ""
           ex_other_parsed ex_app ex_registry).
  - reflexivity.
  - reflexivity.
  - exact ex_registry_has_url.
  - reflexivity.
  - reflexivity.
  - reflexivity.
Defined.
